(** * Signal-weight optimizers: a shallow embedding

    Embedding of [python/optimizers/bayesian_optimizer.py] (the batch
    [BayesianOptimizer] and the [OnlineBayesianOptimizer]) and of the
    [/optimizer/create] handler of [python/api/optimizer_server.py].

    Numbers.  Python floats are modelled as exact rationals ([Q]): every
    finite double is a rational, and comparisons of finite doubles are the
    comparisons of their rational values, so the order-only parts of the code
    (running maximum, argmax, window trimming) are modelled exactly.  Sums,
    quotients and means are exact in this model, whereas the program rounds
    them.  Where a property depends on that, the code is embedded again:
    module [Rounded] takes the rounding sum and quotient of [_normalize] as
    parameters, and module [Binary64] gives them over IEEE binary64 numbers,
    to compute what the program computes on concrete inputs.  NaN and the
    infinities have no counterpart here; the specification keeps them out
    at the interface of the service.

    Libraries.  What numpy, scipy, scikit-learn and scikit-optimize compute
    is modelled from their documented behaviour ([Np], [Skopt]); the
    functions with no rational closed form (square root, the normal CDF and
    PDF, the Gaussian-process prediction, the point [gp_minimize] asks for
    next) are variables of the sections that use them.  [np.random] is a
    state: the sequence of unit-interval draws still to come.

    Python integers are [Z]; lists are [list]; a [Dict[str, float]] is an
    association list with the insertion discipline of Python dictionaries;
    exceptions are the [Raise] branch of [result]. *)

From Stdlib Require Import String ZArith QArith Qabs Lia Lqa Bool Arith List.
From Stdlib Require Import Floats.
Import ListNotations.

Set Implicit Arguments.
Local Open Scope Q_scope.

(** ** Python runtime *)

Module Py.

Inductive exn : Type :=
| ValueError
| KeyError (key : string)
| IndexError
| ZeroDivisionError
| TypeError.

Inductive result (A : Type) : Type :=
| Ok (a : A)
| Raise (e : exn).
Arguments Ok {A} a.
Arguments Raise {A} e.

Definition bind {A B} (m : result A) (k : A -> result B) : result B :=
  match m with
  | Ok a => k a
  | Raise e => Raise e
  end.

(** [[f(x) for x in xs]] where [f] may raise. *)
Fixpoint for_each {A B} (f : A -> result B) (xs : list A) : result (list B) :=
  match xs with
  | [] => Ok []
  | x :: xs' =>
      bind (f x) (fun y => bind (for_each f xs') (fun ys => Ok (y :: ys)))
  end.

(** [l[start:]] for an integer [start] of either sign. *)
Definition slice_from {A} (start : Z) (l : list A) : list A :=
  let n := Z.of_nat (length l) in
  let s := if (start <? 0)%Z then Z.max (start + n) 0 else Z.min start n in
  skipn (Z.to_nat s) l.

(** [l[:stop]] for an integer [stop] of either sign. *)
Definition slice_to {A} (stop : Z) (l : list A) : list A :=
  let n := Z.of_nat (length l) in
  let s := if (stop <? 0)%Z then Z.max (stop + n) 0 else Z.min stop n in
  firstn (Z.to_nat s) l.

(** [l[i]] for a non-negative index. *)
Definition index {A} (l : list A) (i : nat) : result A :=
  match nth_error l i with
  | Some a => Ok a
  | None => Raise IndexError
  end.

(** [l[-1]], under the guard [len(l) != 0]. *)
Definition last_item {A} (l : list A) : result A :=
  match rev l with
  | a :: _ => Ok a
  | [] => Raise IndexError
  end.

(** Dictionaries with string keys: insertion-ordered, one entry per key. *)
Definition dict (V : Type) : Type := list (string * V).

Fixpoint dict_get {V} (k : string) (d : dict V) : option V :=
  match d with
  | [] => None
  | (k', v) :: d' => if String.eqb k k' then Some v else dict_get k d'
  end.

(** [d[k] = v]: overwrite in place, or append a new entry. *)
Fixpoint dict_set {V} (k : string) (v : V) (d : dict V) : dict V :=
  match d with
  | [] => [(k, v)]
  | (k', v') :: d' =>
      if String.eqb k k' then (k', v) :: d' else (k', v') :: dict_set k v d'
  end.

(** [{k: v for k, v in items}]. *)
Definition dict_of {V} (items : list (string * V)) : dict V :=
  fold_left (fun d kv => dict_set (fst kv) (snd kv) d) items [].

(** [d[k]] raising [KeyError]. *)
Definition dict_item {V} (d : dict V) (k : string) : result V :=
  match dict_get k d with
  | Some v => Ok v
  | None => Raise (KeyError k)
  end.

Definition values {V} (d : dict V) : list V := map snd d.
Definition keys {V} (d : dict V) : list string := map fst d.

End Py.
Import Py.

Notation "x <- m ;; k" := (Py.bind m (fun x => k))
  (at level 61, m at next level, right associativity).

(** ** Comparisons of numbers as booleans *)

Definition Qgtb (x y : Q) : bool := negb (Qle_bool x y).
Definition Qltb (x y : Q) : bool := negb (Qle_bool y x).

(** [len(a)] as a number. *)
Definition len {A} (a : list A) : Q := inject_Z (Z.of_nat (length a)).

(** ** numpy on one-dimensional arrays of exact numbers *)

Module Np.

Definition sum (a : list Q) : Q := fold_left Qplus a 0.

Definition ones_like (a : list Q) : list Q := map (fun _ => 1) a.

(** [a / c] and [a - c] with a scalar [c] broadcast over the array. *)
Definition div_scalar (a : list Q) (c : Q) : list Q := map (fun x => x / c) a.
Definition sub_scalar (a : list Q) (c : Q) : list Q := map (fun x => x - c) a.

(** The scan of [np.max]: keep the running maximum. *)
Definition max_from (m : Q) (a : list Q) : Q :=
  fold_left (fun m x => if Qgtb x m then x else m) a m.

Definition max (a : list Q) : result Q :=
  match a with
  | [] => Raise ValueError
  | x :: a' => Ok (max_from x a')
  end.

(** The scan of [np.argmax]: index [i] replaces the best index only when its
    element is strictly greater than the best so far. *)
Fixpoint argmax_from (m : Q) (best i : nat) (a : list Q) : nat :=
  match a with
  | [] => best
  | x :: a' =>
      if Qgtb x m then argmax_from x i (S i) a' else argmax_from m best (S i) a'
  end.

Definition argmax (a : list Q) : result nat :=
  match a with
  | [] => Raise ValueError
  | x :: a' => Ok (argmax_from x 0 1 a')
  end.

(** [np.argmin], the mirror image. *)
Fixpoint argmin_from (m : Q) (best i : nat) (a : list Q) : nat :=
  match a with
  | [] => best
  | x :: a' =>
      if Qltb x m then argmin_from x i (S i) a' else argmin_from m best (S i) a'
  end.

Definition argmin (a : list Q) : result nat :=
  match a with
  | [] => Raise ValueError
  | x :: a' => Ok (argmin_from x 0 1 a')
  end.

(** [np.mean].  On an empty array numpy answers nan and warns; no call site
    below passes an empty array, and the quotient by zero is [0] here.  The
    mean is exact; the one numpy computes is rounded and can leave the range
    of the elements by a rounding error. *)
Definition mean (a : list Q) : Q := sum a / len a.

Section Std.
(** [np.sqrt]: not a rational function, kept abstract. *)
Variable sqrt : Q -> Q.

(** [np.std] with its default [ddof=0]:
    [sqrt(mean(abs(a - a.mean())**2))]. *)
Definition std (a : list Q) : Q :=
  sqrt (mean (map (fun d => Qabs d * Qabs d) (sub_scalar a (mean a)))).
End Std.

(** The state behind [np.random]: the unit-interval draws still to come. *)
Record RandomState : Type := {
  stream : nat -> Q;
  cursor : nat
}.

Definition random_sample (rs : RandomState) : Q * RandomState :=
  (stream rs (cursor rs), {| stream := stream rs; cursor := S (cursor rs) |}).

(** [np.random.uniform(low, high)]: [low + (high - low) * random_sample()]. *)
Definition uniform (low high : Q) (rs : RandomState) : Q * RandomState :=
  let (u, rs') := random_sample rs in
  (low + (high - low) * u, rs').

End Np.

(** ** The search space *)

Record SignalBounds : Type := {
  signal_id : string;
  min_weight : Q;
  max_weight : Q;
  initial_weight : Q
}.

(** [skopt.space.Real]: the constructor refuses an interval whose upper end
    is not above its lower end. *)
Module Skopt.

Record Real : Type := {
  low : Q;
  high : Q;
  name : string
}.

Definition Real_new (lo hi : Q) (nm : string) : result Real :=
  if Qle_bool hi lo then Raise ValueError
  else Ok {| low := lo; high := hi; name := nm |}.

End Skopt.

(** ** BayesianOptimizer *)

Definition Weights : Type := dict Q.
Definition Evaluation : Type := (Weights * Q)%type.

Record BayesianOptimizer : Type := {
  signal_bounds : list SignalBounds;
  signal_ids : list string;
  normalize_weights : bool;
  random_state : Z;
  dimensions : list Skopt.Real;
  history : list Evaluation
}.

Definition BayesianOptimizer__init__
    (bounds : list SignalBounds) (normalize : bool) (seed : Z)
    : result BayesianOptimizer :=
  dims <- for_each
            (fun s => Skopt.Real_new (min_weight s) (max_weight s) (signal_id s))
            bounds ;;
  Ok {| signal_bounds := bounds;
        signal_ids := map signal_id bounds;
        normalize_weights := normalize;
        random_state := seed;
        dimensions := dims;
        history := [] |}.

Definition _normalize (weights : list Q) : list Q :=
  let total := Np.sum weights in
  if Qgtb total 0 then Np.div_scalar weights total
  else Np.div_scalar (Np.ones_like weights) (len weights).

Definition _weights_to_dict (self : BayesianOptimizer) (weights : list Q)
    : Weights :=
  let weights := if normalize_weights self then _normalize weights else weights in
  dict_of (combine (signal_ids self) weights).

(** *** optimize *)

Record OptimizationResult : Type := {
  best_weights : Weights;
  best_score : Q;
  n_iterations : Z;
  convergence_history : list Q;
  all_weights : list Weights;
  all_scores : list Q
}.

(** The three lists that [wrapped_objective] closes over. *)
Record RunLog : Type := {
  log_convergence : list Q;
  log_weights : list Weights;
  log_scores : list Q
}.

Definition empty_log : RunLog :=
  {| log_convergence := []; log_weights := []; log_scores := [] |}.

Definition wrapped_objective
    (self : BayesianOptimizer) (objective_fn : Weights -> Q)
    (x : list Q) (log : RunLog) : result (Q * RunLog) :=
  let weights_dict := _weights_to_dict self x in
  let score := objective_fn weights_dict in
  let all_weights := log_weights log ++ [weights_dict] in
  let all_scores := log_scores log ++ [score] in
  conv <- (if (length (log_convergence log) =? 0)%nat
           then Ok (log_convergence log ++ [score])
           else
             prev <- last_item (log_convergence log) ;;
             if Qgtb score prev
             then Ok (log_convergence log ++ [score])
             else Ok (log_convergence log ++ [prev])) ;;
  Ok (- score,
      {| log_convergence := conv;
         log_weights := all_weights;
         log_scores := all_scores |}).

(** The arguments [optimize] hands to [skopt.gp_minimize]. *)
Record GpSettings : Type := {
  gp_dimensions : list Skopt.Real;
  gp_n_calls : Z;
  gp_n_initial_points : Z;
  gp_acq_func : string;
  gp_random_state : Z
}.

Record OptimizeResult : Type := {
  res_x : list Q;
  res_fun : Q
}.

(** [skopt.gp_minimize], as far as the caller can observe it: the checks
    on the two counts, then [n_calls] evaluations of [func], each at a point
    the library picks from what it has seen, then the first point of least
    value.  [St] is the state [func] closes over.  The library's other
    refusals (an acquisition function it does not know, a search space
    without dimensions) are not modelled: what is proved of a run is proved
    of the calls the library accepts. *)
Section GpMinimize.
(** The point the library asks for next, given its settings and the points
    and values seen so far. *)
Variable gp_ask : GpSettings -> list (list Q * Q) -> list Q.
Variable St : Type.
Variable func : list Q -> St -> result (Q * St).

Fixpoint gp_loop (cfg : GpSettings) (n : nat) (seen : list (list Q * Q))
    (st : St) : result (list (list Q * Q) * St) :=
  match n with
  | O => Ok (seen, st)
  | S n' =>
      let x := gp_ask cfg seen in
      r <- func x st ;;
      gp_loop cfg n' (seen ++ [(x, fst r)]) (snd r)
  end.

Definition gp_minimize (cfg : GpSettings) (st : St)
    : result (OptimizeResult * St) :=
  if (gp_n_initial_points cfg <=? 0)%Z then Raise ValueError
  else if (gp_n_calls cfg <? gp_n_initial_points cfg)%Z then Raise ValueError
  else
    r <- gp_loop cfg (Z.to_nat (gp_n_calls cfg)) [] st ;;
    best <- Np.argmin (map snd (fst r)) ;;
    xy <- index (fst r) best ;;
    Ok ({| res_x := fst xy; res_fun := snd xy |}, snd r).
End GpMinimize.

Section Optimize.
Variable gp_ask : GpSettings -> list (list Q * Q) -> list Q.

Definition optimize
    (self : BayesianOptimizer) (objective_fn : Weights -> Q)
    (n_calls n_initial_points : Z) (acq_func : string)
    : result OptimizationResult :=
  r <- gp_minimize gp_ask (wrapped_objective self objective_fn)
         {| gp_dimensions := dimensions self;
            gp_n_calls := n_calls;
            gp_n_initial_points := n_initial_points;
            gp_acq_func := acq_func;
            gp_random_state := random_state self |}
         empty_log ;;
  let result := fst r in
  let log := snd r in
  Ok {| best_weights := _weights_to_dict self (res_x result);
        best_score := - res_fun result;
        n_iterations := Z.of_nat (length (log_scores log));
        convergence_history := log_convergence log;
        all_weights := log_weights log;
        all_scores := log_scores log |}.
End Optimize.

(** *** suggest_next *)

(** [[np.random.uniform(s.min_weight, s.max_weight) for s in bounds]]. *)
Fixpoint random_point (bounds : list SignalBounds) (rs : Np.RandomState)
    : list Q * Np.RandomState :=
  match bounds with
  | [] => ([], rs)
  | s :: bounds' =>
      let (w, rs1) := Np.uniform (min_weight s) (max_weight s) rs in
      let (ws, rs2) := random_point bounds' rs1 in
      (w :: ws, rs2)
  end.

(** [[random_point(bounds) for _ in range(n)]]. *)
Fixpoint random_points (n : nat) (bounds : list SignalBounds)
    (rs : Np.RandomState) : list (list Q) * Np.RandomState :=
  match n with
  | O => ([], rs)
  | S n' =>
      let (c, rs1) := random_point bounds rs in
      let (cs, rs2) := random_points n' bounds rs1 in
      (c :: cs, rs2)
  end.

(** The loop of the branch taken below three evaluated points. *)
Fixpoint random_suggestions (self : BayesianOptimizer) (n : nat)
    (rs : Np.RandomState) : list Weights * Np.RandomState :=
  match n with
  | O => ([], rs)
  | S n' =>
      let (weights, rs1) := random_point (signal_bounds self) rs in
      let (rest, rs2) := random_suggestions self n' rs1 in
      (_weights_to_dict self weights :: rest, rs2)
  end.

(** [[[w[signal_id] for signal_id in self.signal_ids] for w, _ in points]]. *)
Definition design_matrix (self : BayesianOptimizer) (points : list Evaluation)
    : result (list (list Q)) :=
  for_each (fun e => for_each (dict_item (fst e)) (signal_ids self)) points.

Definition n_candidates : nat := 1000.

(** The literal [1e-8] (in the program, the double nearest to it). *)
Definition epsilon : Q := 1 # 100000000.

(** Element-wise combination of two arrays of one shape. *)
Definition zip_with {A B C} (f : A -> B -> C) (a : list A) (b : list B)
    : list C :=
  map (fun p => f (fst p) (snd p)) (combine a b).

Section SuggestNext.
(** [scipy.stats.norm.cdf] and [scipy.stats.norm.pdf]. *)
Variable _norm_cdf _norm_pdf : Q -> Q.
(** A Matern-2.5 Gaussian process fitted on [(X, y)], then asked for the
    mean and the standard deviation at each candidate. *)
Variable gp_predict : list (list Q) -> list Q -> list (list Q) -> list Q * list Q.

(** Lines 271-272: [z] and [ei] over the whole pool. *)
Definition expected_improvement (best_y : Q) (y_pred y_std : list Q) : list Q :=
  let z := zip_with (fun m s => (m - best_y) / (s + epsilon)) y_pred y_std in
  zip_with (fun s z => s * (z * _norm_cdf z + _norm_pdf z)) y_std z.

(** One turn of the loop of lines 258-276. *)
Definition ei_suggestion (self : BayesianOptimizer)
    (X : list (list Q)) (y : list Q) (rs : Np.RandomState)
    : result Weights * Np.RandomState :=
  let (candidates, rs') := random_points n_candidates (signal_bounds self) rs in
  let (y_pred, y_std) := gp_predict X y candidates in
  (best_y <- Np.max y ;;
   let ei := expected_improvement best_y y_pred y_std in
   best_idx <- Np.argmax ei ;;
   c <- index candidates best_idx ;;
   Ok (_weights_to_dict self c),
   rs').

Fixpoint ei_suggestions (self : BayesianOptimizer)
    (X : list (list Q)) (y : list Q) (n : nat) (rs : Np.RandomState)
    : result (list Weights) * Np.RandomState :=
  match n with
  | O => (Ok [], rs)
  | S n' =>
      match ei_suggestion self X y rs with
      | (Raise e, rs1) => (Raise e, rs1)
      | (Ok w, rs1) =>
          match ei_suggestions self X y n' rs1 with
          | (Raise e, rs2) => (Raise e, rs2)
          | (Ok ws, rs2) => (Ok (w :: ws), rs2)
          end
      end
  end.

Definition suggest_next (self : BayesianOptimizer)
    (evaluated_points : list Evaluation) (n_suggestions : Z)
    (rs : Np.RandomState) : result (list Weights) * Np.RandomState :=
  if (length evaluated_points <? 3)%nat then
    let (suggestions, rs') :=
      random_suggestions self (Z.to_nat n_suggestions) rs in
    (Ok suggestions, rs')
  else
    match design_matrix self evaluated_points with
    | Raise e => (Raise e, rs)
    | Ok X =>
        let y := map snd evaluated_points in
        ei_suggestions self X y (Z.to_nat n_suggestions) rs
    end.
End SuggestNext.

(** ** OnlineBayesianOptimizer *)

Record OnlineBayesianOptimizer : Type := {
  optimizer : BayesianOptimizer;
  window_size : Z;
  update_interval : Z;
  exploration_rate : Q;
  evaluation_history : list Evaluation;
  current_weights : Weights;
  evaluation_count : Z
}.

Definition initial_weights (bounds : list SignalBounds) : Weights :=
  dict_of (map (fun s => (signal_id s, initial_weight s)) bounds).

Definition OnlineBayesianOptimizer__init__
    (bounds : list SignalBounds) (window update : Z) (exploration : Q)
    : result OnlineBayesianOptimizer :=
  opt <- BayesianOptimizer__init__ bounds true 42 ;;
  Ok {| optimizer := opt;
        window_size := window;
        update_interval := update;
        exploration_rate := exploration;
        evaluation_history := [];
        current_weights := initial_weights bounds;
        evaluation_count := 0 |}.

Definition record_evaluation (self : OnlineBayesianOptimizer)
    (weights : Weights) (score : Q) : OnlineBayesianOptimizer :=
  let appended := evaluation_history self ++ [(weights, score)] in
  let count := (evaluation_count self + 1)%Z in
  let trimmed :=
    if (Z.of_nat (length appended) >? window_size self)%Z
    then slice_from (- window_size self) appended
    else appended in
  {| optimizer := optimizer self;
     window_size := window_size self;
     update_interval := update_interval self;
     exploration_rate := exploration_rate self;
     evaluation_history := trimmed;
     current_weights := current_weights self;
     evaluation_count := count |}.

(** [evaluation_count % update_interval == 0]; Python's [%] takes the sign
    of the divisor, as [Z.modulo] does, and raises on a zero divisor. *)
Definition should_update (self : OnlineBayesianOptimizer) : result bool :=
  if (update_interval self =? 0)%Z then Raise ZeroDivisionError
  else Ok ((evaluation_count self mod update_interval self) =? 0)%Z.

Definition get_best_weights (self : OnlineBayesianOptimizer) : result Weights :=
  match evaluation_history self with
  | [] => Ok (current_weights self)
  | _ :: _ =>
      best_idx <- Np.argmax (map snd (evaluation_history self)) ;;
      e <- index (evaluation_history self) best_idx ;;
      Ok (fst e)
  end.

(** Values of the statistics dictionary. *)
Inductive stat : Type :=
| Int (n : Z)
| Float (x : Q)
| None_.

Section Statistics.
Variable sqrt : Q -> Q.

Definition get_statistics (self : OnlineBayesianOptimizer)
    : result (dict stat) :=
  match evaluation_history self with
  | [] =>
      Ok [("n_evaluations", Int 0);
          ("best_score", None_);
          ("avg_score", None_);
          ("score_std", None_)]%string
  | _ :: _ =>
      let scores := map snd (evaluation_history self) in
      best <- Np.max scores ;;
      Ok [("n_evaluations", Int (Z.of_nat (length (evaluation_history self))));
          ("best_score", Float best);
          ("avg_score", Float (Np.mean scores));
          ("score_std", Float (Np.std sqrt scores));
          ("recent_trend",
           Float (if (20 <=? length scores)%nat
                  then Np.mean (slice_from (-10) scores)
                       - Np.mean (slice_to 10 scores)
                  else 0))]%string
  end.
End Statistics.

Fixpoint record_all (self : OnlineBayesianOptimizer) (evals : list Evaluation)
    : OnlineBayesianOptimizer :=
  match evals with
  | [] => self
  | e :: evals' => record_all (record_evaluation self (fst e) (snd e)) evals'
  end.

(** ** The [/optimizer/create] handler

    The request has passed FastAPI's field validation when the handler
    runs; [uuid4] is the identifier drawn for the new session and
    [active_optimizers] the registry of live sessions. *)

Record SignalBoundsRequest : Type := {
  rq_signal_id : string;
  rq_min_weight : Q;
  rq_max_weight : Q;
  rq_initial_weight : Q
}.

Record OptimizeRequest : Type := {
  rq_signal_bounds : list SignalBoundsRequest;
  rq_n_calls : Z;
  rq_n_initial_points : Z
}.

Record CreateResponse : Type := {
  optimizer_id : string;
  rsp_signal_ids : list string;
  rsp_initial_weights : Weights
}.

Definition Registry : Type := dict OnlineBayesianOptimizer.

(** The list comprehension that turns the request into [SignalBounds]. *)
Definition request_bounds (request : OptimizeRequest) : list SignalBounds :=
  map (fun b => {| signal_id := rq_signal_id b;
                   min_weight := rq_min_weight b;
                   max_weight := rq_max_weight b;
                   initial_weight := rq_initial_weight b |})
      (rq_signal_bounds request).

Definition create_optimizer (request : OptimizeRequest) (uuid4 : string)
    (active_optimizers : Registry) : result CreateResponse * Registry :=
  let bounds := request_bounds request in
  match OnlineBayesianOptimizer__init__ bounds 100 10 (1 # 10) with
  | Raise e => (Raise e, active_optimizers)
  | Ok optimizer =>
      (Ok {| optimizer_id := uuid4;
             rsp_signal_ids := map signal_id bounds;
             rsp_initial_weights := current_weights optimizer |},
       dict_set uuid4 optimizer active_optimizers)
  end.

(** ** Normalization with rounding

    [_normalize], [_weights_to_dict] and [suggest_next] once more, with the
    two operations of [_normalize] that round in the program as parameters:
    [np_sum], the sum numpy computes for an array, and [fdiv], the quotient
    of two numbers.  Every finite double is a rational, so the arrays are
    still lists of rationals; the exact model above is the instance
    [np_sum := Np.sum], [fdiv := Qdiv].  Comparisons do not round. *)

Module Rounded.
Section Arithmetic.
Variable np_sum : list Q -> Q.
Variable fdiv : Q -> Q -> Q.

Definition _normalize (weights : list Q) : list Q :=
  let total := np_sum weights in
  if Qgtb total 0 then map (fun w => fdiv w total) weights
  else map (fun one => fdiv one (len weights)) (Np.ones_like weights).

Definition _weights_to_dict (self : BayesianOptimizer) (weights : list Q)
    : Weights :=
  let weights := if normalize_weights self then _normalize weights else weights in
  dict_of (combine (signal_ids self) weights).

Fixpoint random_suggestions (self : BayesianOptimizer) (n : nat)
    (rs : Np.RandomState) : list Weights * Np.RandomState :=
  match n with
  | O => ([], rs)
  | S n' =>
      let (weights, rs1) := random_point (signal_bounds self) rs in
      let (rest, rs2) := random_suggestions self n' rs1 in
      (_weights_to_dict self weights :: rest, rs2)
  end.

Section SuggestNext.
Variable _norm_cdf _norm_pdf : Q -> Q.
Variable gp_predict : list (list Q) -> list Q -> list (list Q) -> list Q * list Q.

Definition ei_suggestion (self : BayesianOptimizer)
    (X : list (list Q)) (y : list Q) (rs : Np.RandomState)
    : result Weights * Np.RandomState :=
  let (candidates, rs') := random_points n_candidates (signal_bounds self) rs in
  let (y_pred, y_std) := gp_predict X y candidates in
  (best_y <- Np.max y ;;
   let ei := expected_improvement _norm_cdf _norm_pdf best_y y_pred y_std in
   best_idx <- Np.argmax ei ;;
   c <- index candidates best_idx ;;
   Ok (_weights_to_dict self c),
   rs').

Fixpoint ei_suggestions (self : BayesianOptimizer)
    (X : list (list Q)) (y : list Q) (n : nat) (rs : Np.RandomState)
    : result (list Weights) * Np.RandomState :=
  match n with
  | O => (Ok [], rs)
  | S n' =>
      match ei_suggestion self X y rs with
      | (Raise e, rs1) => (Raise e, rs1)
      | (Ok w, rs1) =>
          match ei_suggestions self X y n' rs1 with
          | (Raise e, rs2) => (Raise e, rs2)
          | (Ok ws, rs2) => (Ok (w :: ws), rs2)
          end
      end
  end.

Definition suggest_next (self : BayesianOptimizer)
    (evaluated_points : list Evaluation) (n_suggestions : Z)
    (rs : Np.RandomState) : result (list Weights) * Np.RandomState :=
  if (length evaluated_points <? 3)%nat then
    let (suggestions, rs') :=
      random_suggestions self (Z.to_nat n_suggestions) rs in
    (Ok suggestions, rs')
  else
    match design_matrix self evaluated_points with
    | Raise e => (Raise e, rs)
    | Ok X =>
        let y := map snd evaluated_points in
        ei_suggestions self X y (Z.to_nat n_suggestions) rs
    end.
End SuggestNext.
End Arithmetic.
End Rounded.

(** ** [_normalize] over IEEE binary64

    The same four lines, with the arithmetic numpy performs on
    [float64] arrays: every sum and quotient rounds to nearest-even.  The
    sum is taken left to right, as numpy takes it for an array of fewer than
    eight numbers. *)

Module Binary64.

Definition sum (a : list float) : float := fold_left PrimFloat.add a 0%float.

Definition len (a : list float) : float :=
  PrimFloat.of_uint63 (Uint63.of_Z (Z.of_nat (length a))).

Definition _normalize (weights : list float) : list float :=
  let total := sum weights in
  if PrimFloat.ltb 0 total then map (fun w => (w / total)%float) weights
  else map (fun one => (one / len weights)%float) (map (fun _ => 1%float) weights).


(** The rational a finite double is. *)
Definition to_Q (f : float) : Q :=
  match Prim2SF f with
  | S754_finite s m e =>
      (if s then -1 else 1) * (inject_Z (Zpos m) * Qpower 2 e)
  | _ => 0
  end.

(** The double a rational rounds to, for a numerator and a denominator
    below [2^63]: both convert to a double, and the quotient rounds once
    when they convert exactly. *)
Definition of_Z (n : Z) : float :=
  let a := PrimFloat.of_uint63 (Uint63.of_Z (Z.abs n)) in
  if (n <? 0)%Z then PrimFloat.opp a else a.

Definition of_Q (q : Q) : float :=
  (of_Z (Qnum q) / of_Z (Zpos (Qden q)))%float.

(** The two rounding operations of [_normalize] in binary64, on rationals
    that are doubles. *)
Definition np_sum (a : list Q) : Q := to_Q (sum (map of_Q a)).
Definition fdiv (a b : Q) : Q := to_Q (of_Q a / of_Q b)%float.

End Binary64.

(** ** Specification vocabulary *)

(** [m] is the greatest element of the non-empty list [l]. *)
Definition is_max (m : Q) (l : list Q) : Prop :=
  In m l /\ Forall (fun x => x <= m) l.

(** [i] is the first position of [l] holding its greatest element. *)
Definition first_argmax (l : list Q) (i : nat) : Prop :=
  exists m, nth_error l i = Some m
    /\ (forall j x, nth_error l j = Some x -> x <= m)
    /\ (forall j x, (j < i)%nat -> nth_error l j = Some x -> x < m).

Fixpoint non_decreasing (l : list Q) : Prop :=
  match l with
  | [] => True
  | x :: l' =>
      match l' with
      | [] => True
      | y :: _ => x <= y /\ non_decreasing l'
      end
  end.

(** [conv] lists the running maxima of [scores]: entry [i] is the greatest
    of the first [i + 1] scores. *)
Definition running_maxima (conv scores : list Q) : Prop :=
  length conv = length scores
  /\ forall i c, nth_error conv i = Some c -> is_max c (firstn (S i) scores).

(** Every component is [c], up to the equality of rationals. *)
Definition all_equal_to (c : Q) (l : list Q) : Prop := Forall (fun x => x == c) l.

(** The uniform vector of a dimension count: every component is [1/n]. *)
Definition uniform_vector (l : list Q) : Prop := all_equal_to (1 / len l) l.

(** The last [n] elements of a list. *)
Definition last_n {A} (n : nat) (l : list A) : list A :=
  skipn (length l - n) l.

(** The population variance: the mean of the squared deviations (divisor
    [N], not [N - 1]). *)
Definition population_variance (l : list Q) : Q :=
  Np.sum (map (fun x => (x - Np.mean l) * (x - Np.mean l)) l) / len l.




(** The unit roundoff of binary64, [2^-53], and half its smallest positive
    number, [2^-1075]: a correctly rounded result is within the first of the
    exact one, relatively, or within the second, absolutely. *)
Definition unit_roundoff : Q := 1 # 9007199254740992.
Definition underflow_unit : Q := Qpower 2 (-1075).

(** [computed] is [exact], a number that is not negative, up to a relative
    error [eps] and an absolute error [eta]. *)
Definition rounds (eps eta exact computed : Q) : Prop :=
  exact * (1 - eps) - eta <= computed <= exact * (1 + eps) + eta.

(** The operations [_normalize] performs on [weights] round as binary64
    does when nothing overflows: the sum of [n] numbers that are not
    negative is within [n] unit roundoffs of the exact sum, in whatever order
    numpy adds them, and every quotient is correctly rounded. *)
Definition binary64_arithmetic (np_sum : list Q -> Q) (fdiv : Q -> Q -> Q)
    (weights : list Q) : Prop :=
  rounds (len weights * unit_roundoff) 0 (Np.sum weights) (np_sum weights)
  /\ (forall w, In w weights ->
                rounds unit_roundoff underflow_unit
                       (w / np_sum weights) (fdiv w (np_sum weights)))
  /\ rounds unit_roundoff 0 (1 / len weights) (fdiv 1 (len weights)).

(** A bound admits a value. *)
Definition within (s : SignalBounds) (w : Q) : Prop :=
  min_weight s <= w <= max_weight s.

(** The configuration errors of the specification. *)
Definition invalid_bound (s : SignalBounds) : Prop :=
  max_weight s <= min_weight s
  \/ ~ (min_weight s <= initial_weight s <= max_weight s).

Definition unit_draws (rs : Np.RandomState) : Prop :=
  forall i, 0 <= Np.stream rs i < 1.

(** ** Sample data *)

Module Sample.
Local Open Scope string_scope.

Definition bound (id : string) (lo hi init : Q) : SignalBounds :=
  {| signal_id := id; min_weight := lo; max_weight := hi;
     initial_weight := init |}.

(** The two-signal space of the specification's scenario. *)
Definition AB : list SignalBounds :=
  [bound "A" 0 1 (1 # 2); bound "B" 0 1 (1 # 2)].

(** Three signals confined to [[0.9, 1]]. *)
Definition high3 : list SignalBounds :=
  [bound "A" (9 # 10) 1 (9 # 10); bound "B" (9 # 10) 1 (9 # 10);
   bound "C" (9 # 10) 1 (9 # 10)].

(** An initial weight outside its interval. *)
Definition stray : list SignalBounds := [bound "A" 0 1 5].

(** Four signals whose intervals differ in sign and size: the midpoints are
    [1e16], [2.5], [-1e16] and [0.5]. *)
Definition mixed4 : list SignalBounds :=
  [bound "A" 0 20000000000000000 0; bound "B" 0 5 0;
   bound "C" (-20000000000000000) 0 0; bound "D" 0 1 0].

(** Two bounds sharing one identifier. *)
Definition twins : list SignalBounds :=
  [bound "A" 0 1 (1 # 2); bound "A" 0 1 (1 # 2)].

(** A source of draws that always answers one half. *)
Definition halves : Np.RandomState :=
  {| Np.stream := fun _ => 1 # 2; Np.cursor := 0 |}.

(** A surrogate that answers mean 0 and deviation 1 everywhere. *)
Definition flat_gp (X : list (list Q)) (y : list Q) (c : list (list Q))
    : list Q * list Q :=
  (map (fun _ => 0) c, map (fun _ => 1) c).

Definition w1 : Weights := [("A", 2 # 10); ("B", 8 # 10)].
Definition w2 : Weights := [("A", 8 # 10); ("B", 2 # 10)].

(** The two evaluations of the specification's scenario, and a third. *)
Definition scenario : list Evaluation := [(w1, 1); (w2, 3)].
Definition three : list Evaluation := [(w1, 1); (w2, 3); (w1, 2)].


(** The doubles that Python writes [0.1] and [0.3]. *)
Definition tenth : float := 0x1.999999999999ap-4%float.
Definition three_tenths : float := 0x1.3333333333333p-2%float.

Definition request (bs : list SignalBounds) : OptimizeRequest :=
  {| rq_signal_bounds :=
       map (fun s => {| rq_signal_id := signal_id s;
                        rq_min_weight := min_weight s;
                        rq_max_weight := max_weight s;
                        rq_initial_weight := initial_weight s |}) bs;
     rq_n_calls := 50;
     rq_n_initial_points := 10 |}.

End Sample.

(** The sessions [__init__] builds over the sample spaces. *)
Module Built.
Import Sample.
Local Open Scope string_scope.

Definition batch (bs : list SignalBounds) (dims : list Skopt.Real)
    : BayesianOptimizer :=
  {| signal_bounds := bs;
     signal_ids := map signal_id bs;
     normalize_weights := true;
     random_state := 42;
     dimensions := dims;
     history := [] |}.

Definition unit_dim (id : string) : Skopt.Real :=
  {| Skopt.low := 0; Skopt.high := 1; Skopt.name := id |}.

Definition high_dim (id : string) : Skopt.Real :=
  {| Skopt.low := 9 # 10; Skopt.high := 1; Skopt.name := id |}.

Definition online (opt : BayesianOptimizer) (bs : list SignalBounds)
    (window update : Z) : OnlineBayesianOptimizer :=
  {| optimizer := opt;
     window_size := window;
     update_interval := update;
     exploration_rate := 1 # 10;
     evaluation_history := [];
     current_weights := initial_weights bs;
     evaluation_count := 0 |}.

Definition batch_AB : BayesianOptimizer := batch AB [unit_dim "A"; unit_dim "B"].
Definition batch_high3 : BayesianOptimizer :=
  batch high3 [high_dim "A"; high_dim "B"; high_dim "C"].
Definition batch_twins : BayesianOptimizer :=
  batch twins [unit_dim "A"; unit_dim "A"].
Definition batch_empty : BayesianOptimizer := batch [] [].
Definition batch_mixed4 : BayesianOptimizer :=
  batch mixed4
    [{| Skopt.low := 0; Skopt.high := 20000000000000000; Skopt.name := "A" |};
     {| Skopt.low := 0; Skopt.high := 5; Skopt.name := "B" |};
     {| Skopt.low := -20000000000000000; Skopt.high := 0; Skopt.name := "C" |};
     {| Skopt.low := 0; Skopt.high := 1; Skopt.name := "D" |}].

Definition online_AB (window update : Z) : OnlineBayesianOptimizer :=
  online batch_AB AB window update.

End Built.

(** * Further operations *)

(** ** BayesianOptimizer, continued *)

Section OptimizeWithConstraints.
Variable gp_ask : GpSettings -> list (list Q * Q) -> list Q.

Definition optimize_with_constraints
    (self : BayesianOptimizer) (objective_fn : Weights -> Q)
    (constraint_fn : option (Weights -> bool))
    (n_calls n_initial_points : Z) (penalty : Q)
    : result OptimizationResult :=
  let penalized_objective := fun weights =>
    match constraint_fn with
    | Some feasible =>
        if negb (feasible weights) then penalty else objective_fn weights
    | None => objective_fn weights
    end in
  optimize gp_ask self penalized_objective n_calls n_initial_points "EI".
End OptimizeWithConstraints.

Section FeatureImportance.
(** [gp.fit(X, y)] with the kernel [RBF(length_scale=np.ones(n))], then the
    length scales of [gp.kernel_]: the fit may raise, and otherwise the
    fitted kernel carries one length scale per dimension. *)
Variable fitted_length_scales : list (list Q) -> list Q -> result (list Q).

(** scikit-learn takes a kernel for anisotropic only when [length_scale]
    has more than one entry.  With a single signal the kernel is isotropic,
    [gp.kernel_.length_scale] is a number and not an array, so is
    [importance], and [zip] over it raises [TypeError]. *)
Definition get_feature_importance (self : BayesianOptimizer)
    (evaluated_points : list Evaluation) : result (dict Q) :=
  if (length evaluated_points <? 5)%nat then
    Ok (dict_of (map (fun s => (s, 1 / len (signal_ids self)))
                     (signal_ids self)))
  else
    X <- design_matrix self evaluated_points ;;
    let y := map snd evaluated_points in
    length_scales <- fitted_length_scales X y ;;
    if (length (signal_ids self) <=? 1)%nat then Raise TypeError
    else
      let importance := map (fun l => 1 / (l + epsilon)) length_scales in
      let importance := Np.div_scalar importance (Np.sum importance) in
      Ok (dict_of (combine (signal_ids self) importance)).
End FeatureImportance.

(** ** OnlineBayesianOptimizer, continued *)

Section GetNextWeights.
Variable _norm_cdf _norm_pdf : Q -> Q.
Variable gp_predict : list (list Q) -> list Q -> list (list Q) -> list Q * list Q.

Definition get_next_weights (self : OnlineBayesianOptimizer)
    (rs : Np.RandomState) : result Weights * Np.RandomState :=
  let (u, rs1) := Np.random_sample rs in
  if Qltb u (exploration_rate self) then
    let (r, rs2) :=
      suggest_next _norm_cdf _norm_pdf gp_predict (optimizer self) [] 1 rs1 in
    (suggestions <- r ;; index suggestions 0, rs2)
  else if (length (evaluation_history self) <? 5)%nat then
    (Ok (current_weights self), rs1)
  else
    let (r, rs2) :=
      suggest_next _norm_cdf _norm_pdf gp_predict (optimizer self)
        (evaluation_history self) 1 rs1 in
    (suggestions <- r ;; index suggestions 0, rs2).
End GetNextWeights.

(** [del d[k]] under the guard [k in d]. *)
Fixpoint dict_del {V} (k : string) (d : dict V) : dict V :=
  match d with
  | [] => []
  | (k', v') :: d' =>
      if String.eqb k k' then d' else (k', v') :: dict_del k d'
  end.

(** Every key occurs once: what [dict_set] and [dict_del] keep true. *)
Definition well_keyed {V} (d : dict V) : Prop := NoDup (keys d).

(** What [gp_minimize] has seen against what [wrapped_objective] has
    logged: the logged weights are the dictionaries of the points asked, the
    logged scores are the objective at those dictionaries, and the values
    handed back to the library are the negated scores. *)
Definition log_matches (self : BayesianOptimizer) (f : Weights -> Q)
    (seen : list (list Q * Q)) (log : RunLog) : Prop :=
  log_weights log = map (fun xy => _weights_to_dict self (fst xy)) seen
  /\ log_scores log = map f (log_weights log)
  /\ map snd seen = map Qopp (log_scores log).

(** Every point of [seen] is the one the library asks for after the points
    and values before it. *)
Definition asked_in_turn
    (gp_ask : GpSettings -> list (list Q * Q) -> list Q) (cfg : GpSettings)
    (seen : list (list Q * Q)) : Prop :=
  forall i x y, nth_error seen i = Some (x, y) ->
                x = gp_ask cfg (firstn i seen).

(** Further sample data. *)
Module Cases.
Import Sample.
Local Open Scope string_scope.

Definition five : list Evaluation :=
  [(w1, 1); (w2, 3); (w1, 2); (w2, 1); (w1, 0)].

Definition five_rows : list (list Q) :=
  [[2 # 10; 8 # 10]; [8 # 10; 2 # 10]; [2 # 10; 8 # 10];
   [8 # 10; 2 # 10]; [2 # 10; 8 # 10]].

(** A kernel whose first dimension is the more sensitive one. *)
Definition two_scales (X : list (list Q)) (y : list Q) : result (list Q) :=
  Ok [1; 2].

(** A space of one signal, and five evaluations over it. *)
Definition lone : BayesianOptimizer :=
  Built.batch [bound "A" 0 1 (1 # 2)] [Built.unit_dim "A"].

Definition five_lone : list Evaluation :=
  [([("A", 1)], 1); ([("A", 1)], 3); ([("A", 1)], 2); ([("A", 1)], 1);
   ([("A", 1)], 0)].

(** Three evaluations, the last of which does not name signal [B]. *)
Definition lacking : list Evaluation :=
  [(w1, 1); (w2, 3); ([("A", 1)], 2)].

End Cases.

(** ** The other handlers of the optimizer service

    A handler answers with a body, raises [HTTPException], or lets an
    exception of the optimizer escape.  A handler that calls a mutating method
    on a registered session changes the object the registry holds: the
    registry after the call maps the id to the changed session. *)

Module Server.

Inductive reply (A : Type) : Type :=
| Reply (body : A)
| HTTPException (status_code : Z) (detail : string)
| Uncaught (e : exn).
Arguments Reply {A} body.
Arguments HTTPException {A} status_code detail.
Arguments Uncaught {A} e.

Record EvaluationRequest : Type := {
  ev_optimizer_id : string;
  ev_weights : Weights;
  ev_score : Q
}.

Record EvaluationResponse : Type := {
  recorded : bool;
  rsp_should_update : bool;
  rsp_statistics : dict stat
}.

Record SuggestRequest : Type := {
  sg_optimizer_id : string;
  sg_n_suggestions : Z
}.

Record SuggestResponse : Type := {
  suggestions : list Weights;
  sg_best_weights : Weights
}.

Record BestResponse : Type := {
  rsp_best_weights : Weights;
  best_statistics : dict stat
}.

Section Handlers.
Variable sqrt : Q -> Q.
Variable _norm_cdf _norm_pdf : Q -> Q.
Variable gp_predict : list (list Q) -> list Q -> list (list Q) -> list Q * list Q.

(** [POST /optimizer/evaluate]. *)
Definition record_evaluation (request : EvaluationRequest)
    (active_optimizers : Registry) : reply EvaluationResponse * Registry :=
  match dict_get (ev_optimizer_id request) active_optimizers with
  | None => (HTTPException 404 "Optimizer not found", active_optimizers)
  | Some optimizer =>
      let optimizer :=
        record_evaluation optimizer (ev_weights request) (ev_score request) in
      let active_optimizers :=
        dict_set (ev_optimizer_id request) optimizer active_optimizers in
      match should_update optimizer with
      | Raise e => (Uncaught e, active_optimizers)
      | Ok update =>
          match get_statistics sqrt optimizer with
          | Raise e => (Uncaught e, active_optimizers)
          | Ok statistics =>
              (Reply {| recorded := true;
                        rsp_should_update := update;
                        rsp_statistics := statistics |},
               active_optimizers)
          end
      end
  end.

(** [[optimizer.get_next_weights() for _ in range(n)]]. *)
Fixpoint next_weights (optimizer : OnlineBayesianOptimizer) (n : nat)
    (rs : Np.RandomState) : result (list Weights) * Np.RandomState :=
  match n with
  | O => (Ok [], rs)
  | S n' =>
      match get_next_weights _norm_cdf _norm_pdf gp_predict optimizer rs with
      | (Raise e, rs1) => (Raise e, rs1)
      | (Ok w, rs1) =>
          match next_weights optimizer n' rs1 with
          | (Raise e, rs2) => (Raise e, rs2)
          | (Ok ws, rs2) => (Ok (w :: ws), rs2)
          end
      end
  end.

(** [POST /optimizer/suggest]. *)
Definition suggest_weights (request : SuggestRequest)
    (active_optimizers : Registry) (rs : Np.RandomState)
    : reply SuggestResponse * Np.RandomState :=
  match dict_get (sg_optimizer_id request) active_optimizers with
  | None => (HTTPException 404 "Optimizer not found", rs)
  | Some optimizer =>
      match next_weights optimizer (Z.to_nat (sg_n_suggestions request)) rs with
      | (Raise e, rs') => (Uncaught e, rs')
      | (Ok suggested, rs') =>
          match get_best_weights optimizer with
          | Raise e => (Uncaught e, rs')
          | Ok best =>
              (Reply {| suggestions := suggested; sg_best_weights := best |},
               rs')
          end
      end
  end.

(** [GET /optimizer/{optimizer_id}/best]. *)
Definition get_best_weights (optimizer_id : string)
    (active_optimizers : Registry) : reply BestResponse :=
  match dict_get optimizer_id active_optimizers with
  | None => HTTPException 404 "Optimizer not found"
  | Some optimizer =>
      match get_best_weights optimizer with
      | Raise e => Uncaught e
      | Ok best =>
          match get_statistics sqrt optimizer with
          | Raise e => Uncaught e
          | Ok statistics =>
              Reply {| rsp_best_weights := best;
                       best_statistics := statistics |}
          end
      end
  end.

End Handlers.

(** [DELETE /optimizer/{optimizer_id}]. *)
Definition delete_optimizer (optimizer_id : string)
    (active_optimizers : Registry) : reply bool * Registry :=
  match dict_get optimizer_id active_optimizers with
  | None => (HTTPException 404 "Optimizer not found", active_optimizers)
  | Some _ => (Reply true, dict_del optimizer_id active_optimizers)
  end.

End Server.

(** ** The signal combiners ([python/combiners/ml_combiner.py])

    What xgboost and scikit-learn compute (training, scaling, class
    probabilities, importances) is a variable of the section; the code around
    it is embedded.  An entry of a feature vector is a number or numpy's
    [nan], which [np.mean] and [np.std] answer on an empty list. *)

From Stdlib Require DecimalString.

Module Combiner.

Inductive raised : Type :=
| Exn (e : exn)
| TypeError (message : string).

Inductive outcome (A : Type) : Type :=
| Returns (a : A)
| Raises (r : raised).
Arguments Returns {A} a.
Arguments Raises {A} r.

(** What a handler of the service does: answer, raise [HTTPException], or
    let an exception escape. *)
Inductive answer (A : Type) : Type :=
| Answer (body : A)
| HTTPError (status_code : Z) (detail : string)
| Escaped (r : raised).
Arguments Answer {A} body.
Arguments HTTPError {A} status_code detail.
Arguments Escaped {A} r.

Inductive float64 : Type :=
| Num (x : Q)
| NaN.

Record SignalFeatures : Type := {
  signal_id : string;
  market_id : string;
  timestamp : string;
  direction : string;
  strength : Q;
  confidence : Q;
  features : list Q
}.

Record TrainingExample : Type := {
  signals : list SignalFeatures;
  ex_market_id : string;
  ex_timestamp : string;
  actual_outcome : Q;
  pnl : Q
}.

Record CombinerOutput : Type := {
  out_direction : string;
  out_strength : Q;
  out_confidence : Q;
  predicted_edge : Q;
  feature_importance : dict Q
}.

(** The keyword parameters of [XGBoostCombiner.__init__], with the three
    constants it adds. *)
Record ModelParams : Type := {
  n_estimators : Q;
  max_depth : Q;
  learning_rate : Q;
  min_child_weight : Q;
  subsample : Q;
  colsample_bytree : Q;
  reg_alpha : Q;
  reg_lambda : Q;
  objective : string;
  eval_metric : string;
  random_state : Q
}.

Definition init_keywords : list string :=
  ["n_estimators"; "max_depth"; "learning_rate"; "min_child_weight";
   "subsample"; "colsample_bytree"; "reg_alpha"; "reg_lambda"]%string.

(** [np.mean] of a list, [nan] on the empty one. *)
Definition mean (a : list Q) : float64 :=
  match a with
  | [] => NaN
  | _ :: _ => Num (Np.mean a)
  end.

(** [{"LONG": 1.0, "SHORT": -1.0, "NEUTRAL": 0.0}.get(direction, 0.0)]. *)
Definition dir_encoding (d : string) : Q :=
  match dict_get d [("LONG", 1); ("SHORT", -1); ("NEUTRAL", 0)]%string with
  | Some v => v
  | None => 0
  end.

(** The entries one signal id contributes to the feature vector. *)
Definition signal_block (signal_map : dict SignalFeatures) (sid : string)
    : list Q :=
  match dict_get sid signal_map with
  | Some signal =>
      [dir_encoding (direction signal);
       strength signal;
       confidence signal;
       strength signal * confidence signal]
      ++ (match features signal with
          | [] => repeat 0 4
          | _ :: _ => slice_to 4 (features signal)
          end)
  | None => repeat 0 8
  end.

Definition _build_feature_names (ids : list string) : list string :=
  flat_map (fun sid =>
              [sid ++ "_direction"; sid ++ "_strength"; sid ++ "_confidence";
               sid ++ "_strength_x_conf"; sid ++ "_feat1"; sid ++ "_feat2";
               sid ++ "_feat3"; sid ++ "_feat4"]%string) ids
  ++ ["mean_strength"; "std_strength"; "mean_confidence"; "std_confidence";
      "n_long_signals"; "n_short_signals"]%string.

Section XGBoost.
(** A trained [xgb.XGBClassifier], a [StandardScaler], and what they
    compute. *)
Variable Booster : Type.
Variable Scaler : Type.
Variable StandardScaler : Scaler.
Variable sqrt : Q -> Q.
(** [scaler.transform]: it raises on a vector that has not the length it
    was fitted with. *)
Variable scaler_transform : Scaler -> list float64 -> outcome (list float64).
(** [predict_proba(x)[0]]: the probabilities of the two classes, numbers
    of single precision; the model raises on a vector it cannot take. *)
Variable predict_proba : Booster -> list float64 -> outcome (Q * Q).
Variable feature_importances_ : Booster -> list Q.
(** The probability [win_prob] is a NumPy scalar of single precision, and
    NumPy decides in which type it is compared and combined with the Python
    floats of the code: single precision since NumPy 2, double precision
    before.  [literal x] is the number the literal [x] stands for in a
    comparison with [win_prob], and [fl] rounds a result of the arithmetic
    on [win_prob] to its type; [0.5] and [2] are numbers of either type. *)
Variable literal : Q -> Q.
Variable fl : Q -> Q.

Record XGBoostCombiner : Type := {
  signal_ids : list string;
  n_features_per_signal : Z;
  model_params : ModelParams;
  model : option Booster;
  scaler : Scaler;
  feature_names : list string;
  is_fitted : bool
}.

Definition keyword (kwargs : dict Q) (name : string) (default : Q) : Q :=
  match dict_get name kwargs with
  | Some v => v
  | None => default
  end.

(** [XGBoostCombiner(ids, **kwargs)]: a keyword that is no parameter of
    [__init__], or that names the positional argument again, is a
    [TypeError]. *)
Definition XGBoostCombiner__init__ (ids : list string) (kwargs : dict Q)
    : outcome XGBoostCombiner :=
  match find (fun k => negb (existsb (String.eqb k) init_keywords))
             (keys kwargs) with
  | Some k =>
      if String.eqb k "signal_ids"
      then Raises (TypeError
                     "XGBoostCombiner.__init__() got multiple values for argument 'signal_ids'")
      else Raises (TypeError
                     ("XGBoostCombiner.__init__() got an unexpected keyword argument '"
                      ++ k ++ "'"))
  | None =>
      Returns
        {| signal_ids := ids;
           n_features_per_signal := 4;
           model_params :=
             {| n_estimators := keyword kwargs "n_estimators" 100;
                max_depth := keyword kwargs "max_depth" 4;
                learning_rate := keyword kwargs "learning_rate" (1 # 10);
                min_child_weight := keyword kwargs "min_child_weight" 5;
                subsample := keyword kwargs "subsample" (8 # 10);
                colsample_bytree := keyword kwargs "colsample_bytree" (8 # 10);
                reg_alpha := keyword kwargs "reg_alpha" (1 # 10);
                reg_lambda := keyword kwargs "reg_lambda" 1;
                objective := "binary:logistic";
                eval_metric := "auc";
                random_state := 42 |};
           model := None;
           scaler := StandardScaler;
           feature_names := [];
           is_fitted := false |}
  end.

(** [np.std] of a list, [nan] on the empty one. *)
Definition std (a : list Q) : float64 :=
  match a with
  | [] => NaN
  | _ :: _ => Num (Np.std sqrt a)
  end.

Definition count_direction (d : string) (given : list SignalFeatures) : Q :=
  len (filter (fun s => String.eqb (direction s) d) given).

Definition _build_feature_vector (self : XGBoostCombiner)
    (given : list SignalFeatures) : list float64 :=
  let signal_map := dict_of (map (fun s => (signal_id s, s)) given) in
  let per_signal := flat_map (signal_block signal_map) (signal_ids self) in
  let strengths :=
    map (fun sid => match dict_get sid signal_map with
                    | Some s => strength s
                    | None => 0
                    end) (signal_ids self) in
  let confidences :=
    map (fun sid => match dict_get sid signal_map with
                    | Some s => confidence s
                    | None => 0
                    end) (signal_ids self) in
  map Num per_signal
  ++ [mean strengths; std strengths; mean confidences; std confidences;
      Num (count_direction "LONG" given);
      Num (count_direction "SHORT" given)].

(** [sum(importance[k] for k in importance if k.startswith(sid))]: the keys
    of a dictionary indexed back into it are its entries. *)
Definition importance_of (importance : dict Q) (sid : string) : Q :=
  Np.sum (map snd (filter (fun kv => String.prefix sid (fst kv)) importance)).

Definition predict (self : XGBoostCombiner) (given : list SignalFeatures)
    : outcome CombinerOutput :=
  match is_fitted self, model self with
  | true, Some booster =>
      let features := _build_feature_vector self given in
      match scaler_transform (scaler self) features with
      | Raises r => Raises r
      | Returns features_scaled =>
          match predict_proba booster features_scaled with
          | Raises r => Raises r
          | Returns proba =>
              let win_prob := snd proba in
              let decision :=
                if Qgtb win_prob (literal (55 # 100))
                then ("LONG"%string, fl (fl (win_prob - (1 # 2)) * 2))
                else if Qltb win_prob (literal (45 # 100))
                then ("SHORT"%string, fl (fl ((1 # 2) - win_prob) * 2))
                else ("NEUTRAL"%string, 0) in
              let importance :=
                dict_of (combine (feature_names self)
                                 (feature_importances_ booster)) in
              let signal_importance :=
                dict_of (map (fun sid => (sid, importance_of importance sid))
                             (signal_ids self)) in
              Returns {| out_direction := fst decision;
                         out_strength := snd decision;
                         out_confidence := win_prob;
                         predicted_edge := fl (win_prob - (1 # 2));
                         feature_importance := signal_importance |}
          end
      end
  | _, _ => Raises (Exn ValueError)
  end.

Definition get_feature_importance (self : XGBoostCombiner) : dict Q :=
  match is_fitted self, model self with
  | true, Some booster =>
      dict_of (combine (feature_names self) (feature_importances_ booster))
  | _, _ => []
  end.

(** *** EnsembleCombiner *)

Record FitMetrics : Type := {
  train_auc : Q;
  cv_auc_mean : Q;
  cv_auc_std : Q;
  brier_score : Q;
  n_examples : Z
}.

Record EnsembleMetrics : Type := {
  m_n_models : Z;
  mean_cv_auc : float64;
  std_cv_auc : float64
}.

Record EnsembleCombiner : Type := {
  ens_signal_ids : list string;
  n_models : Z;
  models : list XGBoostCombiner;
  ens_is_fitted : bool
}.

Definition EnsembleCombiner__init__ (ids : list string) (n : Z)
    : EnsembleCombiner :=
  {| ens_signal_ids := ids; n_models := n; models := [];
     ens_is_fitted := false |}.

(** [np.random.choice(n, size=n, replace=True)]: [n] indices below [n]. *)
Variable np_random_choice : nat -> Np.RandomState -> list nat * Np.RandomState.
(** [XGBoostCombiner.fit]: the training of one model, all of it xgboost's
    and scikit-learn's. *)
Variable xgb_fit :
  XGBoostCombiner -> list TrainingExample ->
  outcome (XGBoostCombiner * FitMetrics).

(** The loop of [EnsembleCombiner.fit], from round [i] on; [trained] is
    [self.models] so far. *)
Fixpoint fit_rounds (ids : list string) (examples : list TrainingExample)
    (i : Z) (rounds : nat) (trained : list XGBoostCombiner)
    (all_metrics : list FitMetrics) (rs : Np.RandomState)
    : outcome (list FitMetrics) * list XGBoostCombiner * Np.RandomState :=
  match rounds with
  | O => (Returns all_metrics, trained, rs)
  | S rounds' =>
      let (indices, rs1) := np_random_choice (length examples) rs in
      match for_each (index examples) indices with
      | Raise e => (Raises (Exn e), trained, rs1)
      | Ok sample =>
          match XGBoostCombiner__init__ ids
                  [("random_state"%string, inject_Z (42 + i))] with
          | Raises r => (Raises r, trained, rs1)
          | Returns fresh =>
              match xgb_fit fresh sample with
              | Raises r => (Raises r, trained, rs1)
              | Returns (fitted, metrics) =>
                  fit_rounds ids examples (i + 1) rounds'
                    (trained ++ [fitted]) (all_metrics ++ [metrics]) rs1
              end
          end
      end
  end.

(** [EnsembleCombiner.fit]: the outcome, the combiner as the call leaves
    it, and the random source. *)
Definition fit (self : EnsembleCombiner) (examples : list TrainingExample)
    (rs : Np.RandomState)
    : outcome EnsembleMetrics * EnsembleCombiner * Np.RandomState :=
  match fit_rounds (ens_signal_ids self) examples 0
          (Z.to_nat (n_models self)) [] [] rs with
  | (Raises r, trained, rs') =>
      (Raises r,
       {| ens_signal_ids := ens_signal_ids self;
          n_models := n_models self;
          models := trained;
          ens_is_fitted := ens_is_fitted self |},
       rs')
  | (Returns all_metrics, trained, rs') =>
      (Returns {| m_n_models := n_models self;
                  mean_cv_auc := mean (map cv_auc_mean all_metrics);
                  std_cv_auc := std (map cv_auc_mean all_metrics) |},
       {| ens_signal_ids := ens_signal_ids self;
          n_models := n_models self;
          models := trained;
          ens_is_fitted := true |},
       rs')
  end.

(** [[model.predict(signals) for model in self.models]]: the first
    exception escapes. *)
Fixpoint predict_each (members : list XGBoostCombiner)
    (given : list SignalFeatures) : outcome (list CombinerOutput) :=
  match members with
  | [] => Returns []
  | member :: members' =>
      match predict member given with
      | Raises r => Raises r
      | Returns p =>
          match predict_each members' given with
          | Raises r => Raises r
          | Returns ps => Returns (p :: ps)
          end
      end
  end.

(** [max(rest, key=key)] with [best] the largest so far: a later element
    wins only when its key is larger. *)
Fixpoint max_from (key : string -> nat) (best : string) (rest : list string)
    : string :=
  match rest with
  | [] => best
  | d :: rest' =>
      if (key best <? key d)%nat then max_from key d rest'
      else max_from key best rest'
  end.

(** The order in which a [set] of strings is iterated: the distinct
    elements, in an order Python does not fix. *)
Variable set_order : list string -> list string.

(** [EnsembleCombiner.predict].  Without predictions the three averages are
    [nan] and [max] of no direction raises [ValueError]. *)
Definition ensemble_predict (self : EnsembleCombiner)
    (given : list SignalFeatures) : outcome CombinerOutput :=
  if negb (ens_is_fitted self) then Raises (Exn ValueError)
  else
    match predict_each (models self) given with
    | Raises r => Raises r
    | Returns predictions =>
        let directions := map out_direction predictions in
        let direction_counts :=
          dict_of (map (fun d => (d, count_occ string_dec directions d))
                       (set_order directions)) in
        let count_of := fun d => match dict_get d direction_counts with
                                 | Some c => c
                                 | None => 0%nat
                                 end in
        match keys direction_counts with
        | [] => Raises (Exn ValueError)
        | d :: ds =>
            let all_importance := map feature_importance predictions in
            let avg_importance :=
              dict_of
                (map (fun sid =>
                        (sid,
                         Np.mean (map (fun imp => match dict_get sid imp with
                                                  | Some v => v
                                                  | None => 0
                                                  end) all_importance)))
                     (ens_signal_ids self)) in
            Returns {| out_direction := max_from count_of d ds;
                       out_strength := Np.mean (map out_strength predictions);
                       out_confidence :=
                         Np.mean (map out_confidence predictions);
                       predicted_edge :=
                         Np.mean (map predicted_edge predictions);
                       feature_importance := avg_importance |}
        end
    end.

(** *** The combiner handlers of the service *)

Inductive trained_combiner : Type :=
| OfXGBoost (c : XGBoostCombiner)
| OfEnsemble (c : EnsembleCombiner).

Inductive trained_metrics : Type :=
| XGBoostMetrics (m : FitMetrics)
| EnsembleFitMetrics (m : EnsembleMetrics).

Record SignalFeaturesRequest : Type := {
  rq_signal_id : string;
  rq_market_id : string;
  rq_timestamp : string;
  rq_direction : string;
  rq_strength : Q;
  rq_confidence : Q;
  rq_features : list Q
}.

Record TrainingExampleRequest : Type := {
  rq_signals : list SignalFeaturesRequest;
  rq_ex_market_id : string;
  rq_ex_timestamp : string;
  rq_actual_outcome : Q;
  rq_pnl : Q
}.

Record TrainCombinerRequest : Type := {
  tr_signal_ids : list string;
  tr_examples : list TrainingExampleRequest;
  tr_model_type : string
}.

Record TrainResponse : Type := {
  combiner_id : string;
  tr_metrics : trained_metrics;
  model_path : string
}.

Definition _convert_training_example (req : TrainingExampleRequest)
    : TrainingExample :=
  {| signals :=
       map (fun s => {| signal_id := rq_signal_id s;
                        market_id := rq_market_id s;
                        timestamp := rq_timestamp s;
                        direction := rq_direction s;
                        strength := rq_strength s;
                        confidence := rq_confidence s;
                        features := rq_features s |}) (rq_signals req);
     ex_market_id := rq_ex_market_id req;
     ex_timestamp := rq_ex_timestamp req;
     actual_outcome := rq_actual_outcome req;
     pnl := rq_pnl req |}.

(** [str(MODEL_PATH / f"{combiner_id}.pkl")]. *)
Definition model_file (id : string) : string :=
  ("models/" ++ id ++ ".pkl")%string.

(** [str(n)] for a length. *)
Definition decimal (n : nat) : string :=
  DecimalString.NilZero.string_of_uint (Nat.to_uint n).

(** [POST /combiner/train].  The state is the registry of combiners and the
    pickle files on disk, by path; writing a file is taken to succeed. *)
Definition train_combiner (request : TrainCombinerRequest) (uuid4 : string)
    (active_combiners disk : dict trained_combiner) (rs : Np.RandomState)
    : answer TrainResponse * dict trained_combiner * dict trained_combiner
      * Np.RandomState :=
  let examples := map _convert_training_example (tr_examples request) in
  if (length examples <? 20)%nat then
    (HTTPError 400
       ("Need at least 20 training examples, got "
        ++ decimal (length examples))%string,
     active_combiners, disk, rs)
  else if String.eqb (tr_model_type request) "ensemble" then
    match fit (EnsembleCombiner__init__ (tr_signal_ids request) 5)
              examples rs with
    | (Raises r, _, rs') => (Escaped r, active_combiners, disk, rs')
    | (Returns metrics, combiner, rs') =>
        (Answer {| combiner_id := uuid4;
                   tr_metrics := EnsembleFitMetrics metrics;
                   model_path := model_file uuid4 |},
         dict_set uuid4 (OfEnsemble combiner) active_combiners,
         dict_set (model_file uuid4) (OfEnsemble combiner) disk,
         rs')
    end
  else
    match XGBoostCombiner__init__ (tr_signal_ids request) [] with
    | Raises r => (Escaped r, active_combiners, disk, rs)
    | Returns fresh =>
        match xgb_fit fresh examples with
        | Raises r => (Escaped r, active_combiners, disk, rs)
        | Returns (combiner, metrics) =>
            (Answer {| combiner_id := uuid4;
                       tr_metrics := XGBoostMetrics metrics;
                       model_path := model_file uuid4 |},
             dict_set uuid4 (OfXGBoost combiner) active_combiners,
             dict_set (model_file uuid4) (OfXGBoost combiner) disk,
             rs)
        end
    end.

(** [DELETE /combiner/{combiner_id}]. *)
Definition delete_combiner (id : string)
    (active_combiners disk : dict trained_combiner)
    : answer bool * dict trained_combiner * dict trained_combiner :=
  let active_combiners :=
    match dict_get id active_combiners with
    | Some _ => dict_del id active_combiners
    | None => active_combiners
    end in
  let disk :=
    match dict_get (model_file id) disk with
    | Some _ => dict_del (model_file id) disk
    | None => disk
    end in
  (Answer true, active_combiners, disk).

End XGBoost.
End Combiner.

(** Sample data for the combiners: booster and scaler are trivial, the
    class probabilities and importances fixed. *)
Module CombinerCases.
Import Combiner.
Local Open Scope string_scope.

Definition signal (id d : string) (extra : list Q) : SignalFeatures :=
  {| signal_id := id; market_id := "m"; timestamp := "t"; direction := d;
     strength := 6 # 10; confidence := 7 # 10; features := extra |}.

(** A signal with two extra features. *)
Definition two_extras : SignalFeatures := signal "rsi" "LONG" [1 # 1; 2 # 1].

(** A combiner over the ids [rsi] and [rsi_fast], fitted, with the names
    [_build_feature_names] gives. *)
Definition fitted_pair : XGBoostCombiner unit unit :=
  {| signal_ids := ["rsi"; "rsi_fast"];
     n_features_per_signal := 4;
     model_params :=
       {| n_estimators := 100; max_depth := 4; learning_rate := 1 # 10;
          min_child_weight := 5; subsample := 8 # 10;
          colsample_bytree := 8 # 10; reg_alpha := 1 # 10; reg_lambda := 1;
          objective := "binary:logistic"; eval_metric := "auc";
          random_state := 42 |};
     model := Some tt;
     scaler := tt;
     feature_names := _build_feature_names ["rsi"; "rsi_fast"];
     is_fitted := true |}.

Definition identity_scaler (s : unit) (x : list float64)
    : outcome (list float64) :=
  Returns x.

(** A model that is sure at 0.8 of the positive class. *)
Definition confident (b : unit) (x : list float64) : outcome (Q * Q) :=
  Returns (2 # 10, 8 # 10).

(** Every feature equally important. *)
Definition flat_importances (b : unit) : list Q := repeat (1 # 22) 22.

(** Sampling that always picks the first example. *)
Definition first_only (n : nat) (rs : Np.RandomState)
    : list nat * Np.RandomState :=
  (repeat 0%nat n, rs).

(** A training step that succeeds without learning anything. *)
Definition no_training (c : XGBoostCombiner unit unit)
    (examples : list TrainingExample)
    : outcome (XGBoostCombiner unit unit * FitMetrics) :=
  Returns (c, {| train_auc := 1 # 2; cv_auc_mean := 1 # 2; cv_auc_std := 0;
                 brier_score := 1 # 4;
                 n_examples := Z.of_nat (length examples) |}).

(** A fitted member whose model answers the probability [p] whatever the
    features. *)
Definition member (p : Q) : XGBoostCombiner Q unit :=
  {| signal_ids := ["rsi"];
     n_features_per_signal := 4;
     model_params := model_params fitted_pair;
     model := Some p;
     scaler := tt;
     feature_names := _build_feature_names ["rsi"];
     is_fitted := true |}.

Definition answers (p : Q) (x : list float64) : outcome (Q * Q) :=
  Returns (1 - p, p).

(** The number of single precision nearest to [0.55], the literal [0.55]
    read in single precision and in double precision, and a fitted combiner
    whose model answers that probability. *)
Definition single_055 : Q := 9227469 # 16777216.

Definition read_single (x : Q) : Q :=
  if Qeq_bool x (55 # 100) then single_055
  else if Qeq_bool x (45 # 100) then 7549747 # 16777216
  else x.

Definition read_double (x : Q) : Q :=
  if Qeq_bool x (55 # 100) then 2476979795053773 # 4503599627370496
  else if Qeq_bool x (45 # 100) then 8106479329266893 # 18014398509481984
  else x.

Definition at_threshold (b : unit) (x : list float64) : outcome (Q * Q) :=
  Returns (1 - single_055, single_055).

(** A scaler fitted on 22 features. *)
Definition strict_scaler (s : unit) (x : list float64)
    : outcome (list float64) :=
  if (length x =? 22)%nat then Returns x else Raises (Exn ValueError).

Definition no_importances (p : Q) : list Q := [].

(** Two members at one half and one at nine tenths. *)
Definition split_vote : EnsembleCombiner Q unit :=
  {| ens_signal_ids := ["rsi"]; n_models := 3;
     models := [member (1 # 2); member (1 # 2); member (9 # 10)];
     ens_is_fitted := true |}.

Definition example_request : TrainingExampleRequest :=
  {| rq_signals := []; rq_ex_market_id := "m"; rq_ex_timestamp := "t";
     rq_actual_outcome := 1; rq_pnl := 0 |}.

Definition ensemble_request : TrainCombinerRequest :=
  {| tr_signal_ids := ["rsi"]; tr_examples := repeat example_request 20;
     tr_model_type := "ensemble" |}.

End CombinerCases.

(** * Properties *)

(** ** Numbers *)

Lemma Qgtb_true (x y : Q) : Qgtb x y = true <-> y < x.
Proof.
  unfold Qgtb. rewrite negb_true_iff. split; intro H.
  - apply Qnot_le_lt. intro L. apply Qle_bool_iff in L. congruence.
  - destruct (Qle_bool x y) eqn:E; [|reflexivity].
    apply Qle_bool_iff in E. lra.
Qed.

Lemma Qgtb_false (x y : Q) : Qgtb x y = false <-> x <= y.
Proof.
  unfold Qgtb. rewrite negb_false_iff. apply Qle_bool_iff.
Qed.

Lemma Qltb_true (x y : Q) : Qltb x y = true <-> x < y.
Proof. apply Qgtb_true. Qed.

Lemma Qltb_false (x y : Q) : Qltb x y = false <-> y <= x.
Proof. apply Qgtb_false. Qed.

Lemma len_cons {A} (x : A) (l : list A) : len (x :: l) == 1 + len l.
Proof.
  unfold len. cbn [length]. rewrite Nat2Z.inj_succ, <- Z.add_1_l.
  rewrite inject_Z_plus. reflexivity.
Qed.

Lemma len_nonneg {A} (l : list A) : 0 <= len l.
Proof.
  unfold len. change 0 with (inject_Z 0). rewrite <- Zle_Qle. lia.
Qed.

Lemma len_pos {A} (l : list A) : l <> [] -> 0 < len l.
Proof.
  destruct l as [|x l]; [congruence|]. intros _.
  rewrite len_cons. pose proof (len_nonneg l). lra.
Qed.

(** ** Slices and windows *)

Lemma slice_from_negative {A} (w : Z) (l : list A) :
  (1 <= w)%Z ->
  slice_from (- w) l = last_n (Z.to_nat w) l.
Proof.
  intros Hw. unfold slice_from, last_n.
  destruct (Z.ltb_spec (- w) 0) as [_|H]; [|lia].
  f_equal. lia.
Qed.

Lemma last_n_all {A} (n : nat) (l : list A) :
  (length l <= n)%nat -> last_n n l = l.
Proof.
  intros H. unfold last_n. replace (length l - n)%nat with O by lia.
  reflexivity.
Qed.

Lemma last_n_length {A} (n : nat) (l : list A) :
  length (last_n n l) = Nat.min n (length l).
Proof. unfold last_n. rewrite length_skipn. lia. Qed.

Lemma last_n_app {A} (n : nat) (a b : list A) :
  last_n n (last_n n a ++ b) = last_n n (a ++ b).
Proof.
  destruct (Nat.le_gt_cases (length a) n) as [H|H].
  - now rewrite (last_n_all a H).
  - assert (L : length (last_n n a) = n) by (rewrite last_n_length; lia).
    unfold last_n at 1 3. rewrite !length_app, L, !skipn_app, L.
    replace (n + length b - n)%nat with (length b) by lia.
    unfold last_n. rewrite skipn_skipn.
    f_equal; f_equal; lia.
Qed.

Lemma record_evaluation_history (self : OnlineBayesianOptimizer) w s :
  (1 <= window_size self)%Z ->
  evaluation_history (record_evaluation self w s)
  = last_n (Z.to_nat (window_size self)) (evaluation_history self ++ [(w, s)]).
Proof.
  intros Hw. unfold record_evaluation. cbn [evaluation_history].
  destruct (Z.gtb_spec
              (Z.of_nat (length (evaluation_history self ++ [(w, s)])))
              (window_size self)) as [H|H].
  - now apply slice_from_negative.
  - symmetry. apply last_n_all. lia.
Qed.

Lemma record_all_history (evals : list Evaluation) :
  forall self,
    (1 <= window_size self)%Z ->
    (length (evaluation_history self) <= Z.to_nat (window_size self))%nat ->
    evaluation_history (record_all self evals)
    = last_n (Z.to_nat (window_size self)) (evaluation_history self ++ evals).
Proof.
  induction evals as [|[w s] evals IH]; intros self Hw Hlen.
  - cbn. rewrite app_nil_r. symmetry. now apply last_n_all.
  - cbn [record_all fst snd]. rewrite IH.
    + cbn [record_evaluation window_size].
      rewrite record_evaluation_history by assumption.
      rewrite last_n_app, <- app_assoc. reflexivity.
    + assumption.
    + cbn [window_size record_evaluation].
      change (length (evaluation_history (record_evaluation self w s))
              <= Z.to_nat (window_size self))%nat.
      rewrite record_evaluation_history, last_n_length by assumption. lia.
Qed.

(** C2, for a window of at least one entry: the history never grows past
    [window_size], whatever state an evaluation is recorded in; and a session
    that starts empty retains exactly the last [window_size] evaluations
    recorded, oldest first. *)
Theorem window_is_fifo (self : OnlineBayesianOptimizer) :
  (1 <= window_size self)%Z ->
  (forall weights score,
      (Z.of_nat (length (evaluation_history
                           (record_evaluation self weights score)))
       <= window_size self)%Z)
  /\ (evaluation_history self = [] ->
      forall evals,
        let after := evaluation_history (record_all self evals) in
        (Z.of_nat (length after) <= window_size self)%Z
        /\ after = last_n (Z.to_nat (window_size self)) evals
        /\ (forall k, (0 < k)%nat ->
                      length evals = (Z.to_nat (window_size self) + k)%nat ->
                      after = skipn k evals
                      /\ length after = Z.to_nat (window_size self))).
Proof.
  intros Hw. split.
  - intros w s. rewrite record_evaluation_history, last_n_length by assumption.
    lia.
  - intros Hempty evals after.
    assert (E : after = last_n (Z.to_nat (window_size self)) evals).
    { subst after. rewrite record_all_history; rewrite ?Hempty; cbn; auto; lia. }
    rewrite E. split; [rewrite last_n_length; lia|]. split; [reflexivity|].
    intros k Hk Hlen. rewrite last_n_length. split; [|lia].
    unfold last_n. f_equal. lia.
Qed.

Lemma window_is_fifo_witness :
  (1 <= window_size (Built.online_AB 2 2))%Z
  /\ evaluation_history (record_all (Built.online_AB 2 2) Sample.three)
     = [(Sample.w2, 3); (Sample.w1, 2)].
Proof.
  split; [cbn; lia|].
  destruct (@window_is_fifo (Built.online_AB 2 2)) as [_ H]; [cbn; lia|].
  destruct (H eq_refl Sample.three) as (_ & _ & K).
  destruct (K 1%nat) as [E _]; [lia | reflexivity | exact E].
Defined.

(** C2 at a window of size zero: the trimming slice [history[-0:]] is the
    whole list and not the empty one, so the evaluation just recorded stays
    and the history is longer than the window, against the comment
    [Trim to window size] of the code. *)
Lemma window_zero_keeps_everything :
  OnlineBayesianOptimizer__init__ Sample.AB 0 2 (1 # 10)
  = Ok (Built.online_AB 0 2)
  /\ (window_size (record_evaluation (Built.online_AB 0 2) Sample.w1 1)
      < Z.of_nat (length (evaluation_history
                            (record_evaluation (Built.online_AB 0 2)
                               Sample.w1 1))))%Z.
Proof. split; [reflexivity | cbn; lia]. Qed.

(** ** The update cadence *)

Lemma should_update_value (self : OnlineBayesianOptimizer) :
  update_interval self <> 0%Z ->
  should_update self
  = Ok ((evaluation_count self mod update_interval self) =? 0)%Z.
Proof.
  intros H. unfold should_update.
  destruct (Z.eqb_spec (update_interval self) 0); [contradiction | reflexivity].
Qed.

(** C3 (as amended): for a non-zero interval [should_update] answers, and it
    answers true exactly when [evaluation_count] is a multiple of
    [update_interval], the multiple zero included. *)
Theorem should_update_iff_multiple (self : OnlineBayesianOptimizer) :
  update_interval self <> 0%Z ->
  exists b,
    should_update self = Ok b
    /\ (b = true <->
        exists k, evaluation_count self = (k * update_interval self)%Z).
Proof.
  intros H. eexists. split; [now apply should_update_value|].
  rewrite Z.eqb_eq, Z.mod_divide by assumption. reflexivity.
Qed.

Lemma should_update_iff_multiple_witness :
  update_interval (record_all (Built.online_AB 5 2) Sample.scenario) <> 0%Z
  /\ exists b,
       should_update (record_all (Built.online_AB 5 2) Sample.scenario) = Ok b
       /\ (b = true <->
           exists k,
             evaluation_count (record_all (Built.online_AB 5 2) Sample.scenario)
             = (k * update_interval
                      (record_all (Built.online_AB 5 2) Sample.scenario))%Z).
Proof.
  split; [cbn; lia|].
  apply (@should_update_iff_multiple
           (record_all (Built.online_AB 5 2) Sample.scenario)).
  cbn. lia.
Defined.

(** C3, as stated, fails on a fresh session: no evaluation has been
    recorded, zero is no positive multiple of the interval, and
    [should_update] answers true. *)
Lemma fresh_session_should_update :
  OnlineBayesianOptimizer__init__ Sample.AB 5 2 (1 # 10)
  = Ok (Built.online_AB 5 2)
  /\ evaluation_count (Built.online_AB 5 2) = 0%Z
  /\ should_update (Built.online_AB 5 2) = Ok true.
Proof. repeat split. Qed.

(** ** Maxima and their positions *)

Lemma is_max_le (a b : Q) (l1 l2 : list Q) :
  is_max a l1 -> is_max b l2 -> incl l1 l2 -> a <= b.
Proof.
  intros [Ha _] [_ Hb] Hincl.
  rewrite Forall_forall in Hb. apply Hb, Hincl, Ha.
Qed.

Lemma is_max_step (m x r : Q) (a : list Q) :
  is_max r ((if Qgtb x m then x else m) :: a) -> is_max r (m :: x :: a).
Proof.
  intros [Hin Hall]. inversion Hall as [|? ? Hm Ha]; subst.
  assert (m <= r /\ x <= r) as [Hmr Hxr].
  { destruct (Qgtb x m) eqn:E.
    - apply Qgtb_true in E. split; lra.
    - apply Qgtb_false in E. split; lra. }
  split.
  - destruct Hin as [Hin|Hin]; [|now right; right].
    rewrite <- Hin. destruct (Qgtb x m); [right; left | left]; reflexivity.
  - constructor; [assumption | constructor; assumption].
Qed.

Lemma max_from_is_max (a : list Q) :
  forall m, is_max (Np.max_from m a) (m :: a).
Proof.
  induction a as [|x a IH]; intros m.
  - split; [now left | constructor; [cbn; lra | constructor]].
  - apply is_max_step. apply IH.
Qed.

Lemma np_max_is_max (a : list Q) :
  a <> [] -> exists m, Np.max a = Ok m /\ is_max m a.
Proof.
  destruct a as [|x a]; [congruence|]. intros _.
  eexists. split; [reflexivity | apply max_from_is_max].
Qed.

Lemma nth_error_snoc {A} (p : list A) (x : A) (j : nat) (y : A) :
  nth_error (p ++ [x]) j = Some y ->
  (j < length p)%nat /\ nth_error p j = Some y \/ j = length p /\ y = x.
Proof.
  intros H. destruct (Nat.lt_ge_cases j (length p)) as [L|L].
  - left. split; [assumption|]. now rewrite nth_error_app1 in H.
  - right. rewrite nth_error_app2 in H by assumption.
    destruct (j - length p)%nat as [|d] eqn:E.
    + cbn in H. inversion H. split; [lia | reflexivity].
    + cbn in H. destruct d; discriminate.
Qed.

Lemma argmax_from_first (a : list Q) :
  forall (p : list Q) (m : Q) (best : nat),
    nth_error p best = Some m ->
    (forall j x, nth_error p j = Some x -> x <= m) ->
    (forall j x, (j < best)%nat -> nth_error p j = Some x -> x < m) ->
    first_argmax (p ++ a) (Np.argmax_from m best (length p) a).
Proof.
  induction a as [|x a IH]; intros p m best Hbest Hall Hbefore.
  - cbn. rewrite app_nil_r. exists m. auto.
  - assert (Hlt : (best < length p)%nat)
      by (apply nth_error_Some; congruence).
    cbn [Np.argmax_from].
    replace (p ++ x :: a) with ((p ++ [x]) ++ a)
      by (rewrite <- app_assoc; reflexivity).
    replace (S (length p)) with (length (p ++ [x]))
      by (rewrite length_app; cbn; lia).
    destruct (Qgtb x m) eqn:E.
    + apply Qgtb_true in E. apply IH.
      * rewrite nth_error_app2, Nat.sub_diag by lia. reflexivity.
      * intros j y Hj. apply nth_error_snoc in Hj as [[_ Hj]|[_ ->]].
        -- apply Hall in Hj. lra.
        -- lra.
      * intros j y Hjl Hj. apply nth_error_snoc in Hj as [[_ Hj]|[-> _]].
        -- apply Hall in Hj. lra.
        -- lia.
    + apply Qgtb_false in E. apply IH.
      * now rewrite nth_error_app1.
      * intros j y Hj. apply nth_error_snoc in Hj as [[_ Hj]|[_ ->]].
        -- now apply Hall in Hj.
        -- assumption.
      * intros j y Hjl Hj. apply nth_error_snoc in Hj as [[_ Hj]|[-> _]].
        -- now apply Hbefore in Hj.
        -- lia.
Qed.

Lemma np_argmax_first (a : list Q) :
  a <> [] -> exists i, Np.argmax a = Ok i /\ first_argmax a i.
Proof.
  destruct a as [|x a]; [congruence|]. intros _.
  eexists. split; [reflexivity|].
  apply (@argmax_from_first a [x] x 0%nat).
  - reflexivity.
  - intros [|[|j]] y Hj; cbn in Hj; try discriminate. inversion Hj. lra.
  - intros j y Hj. lia.
Qed.

Lemma first_argmax_in_range (l : list Q) (i : nat) :
  first_argmax l i -> (i < length l)%nat.
Proof.
  intros (m & Hm & _). apply nth_error_Some. congruence.
Qed.

Lemma argmin_from_bound (a : list Q) :
  forall m best i,
    (best < i)%nat -> (Np.argmin_from m best i a < i + length a)%nat.
Proof.
  induction a as [|x a IH]; intros m best i H; cbn [Np.argmin_from length].
  - lia.
  - destruct (Qltb x m).
    + specialize (IH x i (S i)). lia.
    + specialize (IH m best (S i)). lia.
Qed.

Lemma np_argmin_in_range (a : list Q) :
  a <> [] -> exists i, Np.argmin a = Ok i /\ (i < length a)%nat.
Proof.
  destruct a as [|x a]; [congruence|]. intros _.
  eexists. split; [reflexivity|].
  pose proof (@argmin_from_bound a x 0%nat 1%nat). cbn [length]. lia.
Qed.

(** ** Sums *)

Lemma sum_from (l : list Q) :
  forall a, fold_left Qplus l a == a + Np.sum l.
Proof.
  unfold Np.sum. induction l as [|x l IH]; intros a; cbn [fold_left].
  - lra.
  - rewrite (IH (a + x)), (IH (0 + x)). lra.
Qed.

Lemma sum_cons (x : Q) (l : list Q) : Np.sum (x :: l) == x + Np.sum l.
Proof.
  unfold Np.sum at 1. cbn [fold_left]. rewrite sum_from. lra.
Qed.

Lemma sum_ext (a b : list Q) : Forall2 Qeq a b -> Np.sum a == Np.sum b.
Proof.
  induction 1 as [|x y a b Hxy _ IH]; [reflexivity|].
  rewrite !sum_cons, Hxy, IH. reflexivity.
Qed.

Lemma sum_div_scalar (l : list Q) (c : Q) :
  Np.sum (Np.div_scalar l c) == Np.sum l / c.
Proof.
  unfold Np.div_scalar. induction l as [|x l IH]; cbn [map].
  - unfold Np.sum; cbn. unfold Qdiv. lra.
  - rewrite !sum_cons, IH. unfold Qdiv. lra.
Qed.

Lemma sum_ones_like (l : list Q) : Np.sum (Np.ones_like l) == len l.
Proof.
  unfold Np.ones_like. induction l as [|x l IH]; cbn [map].
  - reflexivity.
  - rewrite sum_cons, IH, len_cons. reflexivity.
Qed.

Lemma sum_constant (c : Q) {A} (l : list A) :
  Np.sum (map (fun _ => c) l) == len l * c.
Proof.
  induction l as [|x l IH]; cbn [map].
  - unfold Np.sum, len. cbn. change (inject_Z 0) with 0. lra.
  - rewrite sum_cons, IH, len_cons. lra.
Qed.

Lemma len_map {A B} (f : A -> B) (l : list A) : len (map f l) = len l.
Proof. unfold len. now rewrite length_map. Qed.

(** ** Normalization *)

Lemma normalize_positive (weights : list Q) :
  0 < Np.sum weights ->
  _normalize weights = Np.div_scalar weights (Np.sum weights).
Proof.
  intros H. unfold _normalize. apply Qgtb_true in H. now rewrite H.
Qed.

Lemma normalize_fallback (weights : list Q) :
  Np.sum weights <= 0 ->
  _normalize weights = Np.div_scalar (Np.ones_like weights) (len weights).
Proof.
  intros H. unfold _normalize. apply Qgtb_false in H. now rewrite H.
Qed.

Lemma normalize_length (weights : list Q) :
  length (_normalize weights) = length weights.
Proof.
  unfold _normalize, Np.div_scalar, Np.ones_like.
  destruct (Qgtb _ _); now rewrite ?length_map.
Qed.

Lemma normalize_sum (weights : list Q) :
  weights <> [] -> Np.sum (_normalize weights) == 1.
Proof.
  intros Hne. destruct (Qlt_le_dec 0 (Np.sum weights)) as [H|H].
  - rewrite normalize_positive, sum_div_scalar by assumption.
    field. lra.
  - rewrite normalize_fallback, sum_div_scalar, sum_ones_like by assumption.
    pose proof (len_pos Hne). field. lra.
Qed.

Lemma normalize_fallback_uniform (weights : list Q) :
  Np.sum weights <= 0 -> all_equal_to (1 / len weights) (_normalize weights).
Proof.
  intros H. rewrite normalize_fallback by assumption.
  unfold all_equal_to, Np.div_scalar, Np.ones_like.
  rewrite !Forall_map. apply Forall_forall. intros x _. reflexivity.
Qed.

Lemma normalize_uniform_iff (weights : list Q) :
  weights <> [] ->
  uniform_vector (_normalize weights)
  <-> Np.sum weights <= 0 \/ all_equal_to (Np.mean weights) weights.
Proof.
  intros Hne. pose proof (len_pos Hne) as Hlen.
  unfold uniform_vector.
  assert (L : len (_normalize weights) = len weights)
    by (unfold len; now rewrite normalize_length).
  rewrite L. clear L.
  destruct (Qlt_le_dec 0 (Np.sum weights)) as [H|H].
  - rewrite normalize_positive by assumption.
    unfold all_equal_to, Np.div_scalar, Np.mean. rewrite Forall_map.
    split.
    + intros Hall. right. revert Hall. apply Forall_impl. intros x Hx.
      assert (E : x == x / Np.sum weights * Np.sum weights) by (field; lra).
      rewrite E, Hx. field. lra.
    + intros [Hle|Hall]; [lra|]. revert Hall. apply Forall_impl.
      intros x Hx. rewrite Hx. field. lra.
  - split; [now left | intros _; now apply normalize_fallback_uniform].
Qed.

(** ** Dictionaries *)

Lemma combine_fst {A B} (a : list A) :
  forall b : list B, length a = length b -> map fst (combine a b) = a.
Proof.
  induction a as [|x a IH]; intros [|y b] H; cbn in *; try discriminate.
  - reflexivity.
  - f_equal. apply IH. lia.
Qed.

Lemma combine_snd {A B} (a : list A) :
  forall b : list B, length a = length b -> map snd (combine a b) = b.
Proof.
  induction a as [|x a IH]; intros [|y b] H; cbn in *; try discriminate.
  - reflexivity.
  - f_equal. apply IH. lia.
Qed.

Lemma dict_set_fresh {V} (k : string) (v : V) (d : dict V) :
  ~ In k (keys d) -> dict_set k v d = d ++ [(k, v)].
Proof.
  induction d as [|[k' v'] d IH]; intros Hk; cbn.
  - reflexivity.
  - destruct (String.eqb_spec k k') as [->|_].
    + exfalso. apply Hk. now left.
    + rewrite IH; [reflexivity|]. intros Hin. apply Hk. now right.
Qed.

Lemma dict_fold_nodup {V} (items : list (string * V)) :
  forall acc : dict V,
    NoDup (keys acc ++ map fst items) ->
    fold_left (fun d kv => dict_set (fst kv) (snd kv) d) items acc
    = acc ++ items.
Proof.
  induction items as [|[k v] items IH]; intros acc Hnd; cbn [fold_left map fst snd].
  - now rewrite app_nil_r.
  - cbn [map fst] in Hnd. rewrite dict_set_fresh.
    + rewrite IH.
      * now rewrite <- app_assoc.
      * unfold keys. rewrite map_app, <- app_assoc. exact Hnd.
    + intros Hin. apply NoDup_remove_2 in Hnd. apply Hnd.
      apply in_or_app. now left.
Qed.

Lemma dict_of_nodup {V} (items : list (string * V)) :
  NoDup (map fst items) -> dict_of items = items.
Proof. intros H. unfold dict_of. now rewrite dict_fold_nodup. Qed.

Lemma dict_set_In {V} (k : string) (v : V) (d : dict V) (kv : string * V) :
  In kv (dict_set k v d) -> kv = (k, v) \/ In kv d.
Proof.
  induction d as [|[k' v'] d IH]; cbn.
  - intros [H|[]]. now left.
  - destruct (String.eqb_spec k k') as [->|_]; cbn.
    + intros [H|H]; [now left | now right; right].
    + intros [H|H]; [now right; left|].
      destruct (IH H); [now left | now right; right].
Qed.

Lemma dict_of_In {V} (items : list (string * V)) (kv : string * V) :
  In kv (dict_of items) -> In kv items.
Proof.
  unfold dict_of.
  assert (G : forall acc,
             In kv (fold_left (fun d e => dict_set (fst e) (snd e) d) items acc)
             -> In kv acc \/ In kv items).
  { induction items as [|[k v] items IH]; intros acc H; cbn in *.
    - now left.
    - destruct (IH _ H) as [H1|H1]; [|now right; right].
      destruct (dict_set_In _ _ _ _ H1) as [->|H2];
        [right; now left | now left]. }
  intros H. destruct (G [] H) as [[]|H']. exact H'.
Qed.

Lemma dict_get_set_same {V} (k : string) (v : V) (d : dict V) :
  dict_get k (dict_set k v d) = Some v.
Proof.
  induction d as [|[k' v'] d IH]; cbn.
  - now rewrite String.eqb_refl.
  - destruct (String.eqb k k') eqn:E; cbn; rewrite E; [reflexivity | exact IH].
Qed.

Lemma dict_get_set_other {V} (k k' : string) (v : V) (d : dict V) :
  k' <> k -> dict_get k' (dict_set k v d) = dict_get k' d.
Proof.
  intros Hne. induction d as [|[k0 v0] d IH]; cbn.
  - destruct (String.eqb_spec k' k); [contradiction | reflexivity].
  - destruct (String.eqb_spec k k0) as [->|Hk]; cbn.
    + destruct (String.eqb_spec k' k0); [contradiction | reflexivity].
    + destruct (String.eqb k' k0); [reflexivity | exact IH].
Qed.

Lemma dict_get_absent {V} (k : string) (d : dict V) :
  dict_get k d = None <-> ~ In k (keys d).
Proof.
  induction d as [|[k' v'] d IH]; cbn.
  - intuition.
  - destruct (String.eqb_spec k k') as [->|Hk].
    + split; [discriminate | intros H; exfalso; apply H; now left].
    + rewrite IH. intuition congruence.
Qed.



(** ** Construction of the batch optimizer *)

Lemma dimensions_checked (bounds : list SignalBounds) :
  (Forall (fun s => min_weight s < max_weight s) bounds
   /\ exists dims,
       for_each (fun s => Skopt.Real_new (min_weight s) (max_weight s)
                            (signal_id s)) bounds = Ok dims)
  \/ (Exists (fun s => max_weight s <= min_weight s) bounds
      /\ for_each (fun s => Skopt.Real_new (min_weight s) (max_weight s)
                              (signal_id s)) bounds = Raise ValueError).
Proof.
  induction bounds as [|s bounds IH].
  - left. split; [constructor | now exists []].
  - cbn [for_each]. unfold Skopt.Real_new at 1 3.
    destruct (Qle_bool (max_weight s) (min_weight s)) eqn:E.
    + right. apply Qle_bool_iff in E. split; [now left | reflexivity].
    + assert (min_weight s < max_weight s).
      { apply Qnot_le_lt. intros L. apply Qle_bool_iff in L. congruence. }
      cbn [bind]. destruct IH as [[Hall [dims ->]]|[Hex ->]].
      * left. split; [now constructor | eexists; reflexivity].
      * right. split; [now right | reflexivity].
Qed.

Lemma batch_init_fields bounds normalize seed self :
  BayesianOptimizer__init__ bounds normalize seed = Ok self ->
  signal_bounds self = bounds
  /\ signal_ids self = map signal_id bounds
  /\ normalize_weights self = normalize
  /\ Forall (fun s => min_weight s < max_weight s) bounds.
Proof.
  unfold BayesianOptimizer__init__.
  destruct (dimensions_checked bounds) as [[Hall [dims ->]]|[_ ->]]; cbn.
  - intros H. inversion H. cbn. auto.
  - discriminate.
Qed.

Lemma weights_to_dict_lossless bounds seed self (weights : list Q) :
  BayesianOptimizer__init__ bounds true seed = Ok self ->
  NoDup (map signal_id bounds) ->
  length weights = length bounds ->
  keys (_weights_to_dict self weights) = map signal_id bounds
  /\ values (_weights_to_dict self weights) = _normalize weights.
Proof.
  intros Hinit Hnd Hlen.
  apply batch_init_fields in Hinit as (_ & Hids & Hnorm & _).
  unfold _weights_to_dict. rewrite Hnorm, Hids.
  assert (L : length (map signal_id bounds) = length (_normalize weights))
    by (rewrite length_map, normalize_length; lia).
  rewrite dict_of_nodup.
  - unfold keys, values. now rewrite combine_fst, combine_snd.
  - now rewrite combine_fst.
Qed.

Lemma sum_pointwise_le {A} (f g : A -> Q) (l : list A) :
  (forall w, In w l -> f w <= g w) ->
  Np.sum (map f l) <= Np.sum (map g l).
Proof.
  induction l as [|x l IH]; intros H; cbn [map].
  - apply Qle_refl.
  - rewrite !sum_cons.
    pose proof (H x (or_introl eq_refl)).
    assert (Np.sum (map f l) <= Np.sum (map g l))
      by (apply IH; intros w Hw; apply H; now right).
    lra.
Qed.

Lemma sum_affine (a b : Q) (l : list Q) :
  Np.sum (map (fun w => w * a + b) l) == Np.sum l * a + len l * b.
Proof.
  induction l as [|x l IH]; cbn [map].
  - unfold Np.sum, len. cbn. change (inject_Z 0) with 0. lra.
  - rewrite !sum_cons, IH, len_cons. lra.
Qed.

Lemma sum_nonneg (l : list Q) : Forall (fun w => 0 <= w) l -> 0 <= Np.sum l.
Proof.
  induction 1 as [|x l Hx _ IH].
  - unfold Np.sum. cbn. lra.
  - rewrite sum_cons. lra.
Qed.

Lemma underflow_unit_small : 0 <= underflow_unit /\ 1000000 * underflow_unit <= 1 # 10000000000.
Proof. split; vm_compute; discriminate. Qed.

Lemma rounded_normalize_length np_sum fdiv (weights : list Q) :
  length (Rounded._normalize np_sum fdiv weights) = length weights.
Proof.
  unfold Rounded._normalize, Np.ones_like.
  destruct (Qgtb _ _); now rewrite ?length_map.
Qed.

Lemma rounded_normalize_positive np_sum fdiv (weights : list Q) :
  0 < np_sum weights ->
  Rounded._normalize np_sum fdiv weights
  = map (fun w => fdiv w (np_sum weights)) weights.
Proof.
  intros H. unfold Rounded._normalize. apply Qgtb_true in H. now rewrite H.
Qed.

Lemma rounded_normalize_fallback np_sum fdiv (weights : list Q) :
  np_sum weights <= 0 ->
  Rounded._normalize np_sum fdiv weights
  = map (fun _ => fdiv 1 (len weights)) weights.
Proof.
  intros H. unfold Rounded._normalize, Np.ones_like.
  apply Qgtb_false in H. rewrite H. now rewrite map_map.
Qed.

Lemma rounded_fallback_sum np_sum fdiv (weights : list Q) :
  weights <> [] ->
  np_sum weights <= 0 ->
  rounds unit_roundoff 0 (1 / len weights) (fdiv 1 (len weights)) ->
  1 - (1 # 1000000000)
  <= Np.sum (Rounded._normalize np_sum fdiv weights)
  <= 1 + (1 # 1000000000).
Proof.
  intros Hne Ht [H1 H2]. pose proof (len_pos Hne) as Hn.
  rewrite rounded_normalize_fallback by assumption.
  rewrite sum_constant. set (n := len weights) in *.
  assert (E1 : n * (1 / n * (1 - unit_roundoff)) == 1 - unit_roundoff)
    by (field; lra).
  assert (E2 : n * (1 / n * (1 + unit_roundoff)) == 1 + unit_roundoff)
    by (field; lra).
  assert (L1 : n * (1 / n * (1 - unit_roundoff) - 0) <= n * fdiv 1 n).
  { rewrite !(Qmult_comm n). apply Qmult_le_compat_r; lra. }
  assert (L2 : n * fdiv 1 n <= n * (1 / n * (1 + unit_roundoff) + 0)).
  { rewrite !(Qmult_comm n). apply Qmult_le_compat_r; lra. }
  unfold unit_roundoff in *. split; lra.
Qed.

Lemma rounded_normalize_sum np_sum fdiv (weights : list Q) :
  weights <> [] ->
  len weights <= 1000000 ->
  Forall (fun w => 0 <= w) weights ->
  binary64_arithmetic np_sum fdiv weights ->
  1 - (1 # 1000000000)
  <= Np.sum (Rounded._normalize np_sum fdiv weights)
  <= 1 + (1 # 1000000000).
Proof.
  intros Hne Hmax Hpos (Hsum & Hdiv & Hone).
  pose proof (len_pos Hne) as Hn.
  destruct underflow_unit_small as [Heta0 Heta].
  set (n := len weights) in *. set (S := Np.sum weights) in *.
  set (t := np_sum weights) in *.
  destruct (Qlt_le_dec 0 t) as [Ht|Ht].
  - rewrite rounded_normalize_positive by assumption. fold t.
    unfold rounds in Hsum, Hdiv.
    assert (HS : 0 <= S) by (apply sum_nonneg; assumption).
    assert (Hnu : n * unit_roundoff <= 1 # 9000000000).
    { unfold unit_roundoff. lra. }
    assert (Hnu0 : 0 <= n * unit_roundoff).
    { unfold unit_roundoff. lra. }
    set (x := S / t).
    assert (Hx : x * t == S) by (unfold x; field; lra).
    assert (Hx0 : 0 <= x).
    { unfold x. apply Qle_shift_div_l; [assumption | lra]. }
    assert (Hup : Np.sum (map (fun w => fdiv w t) weights)
                  <= x * (1 + unit_roundoff) + n * underflow_unit).
    { apply Qle_trans
        with (Np.sum (map (fun w => w * ((1 + unit_roundoff) / t)
                                    + underflow_unit) weights)).
      - apply sum_pointwise_le. intros w Hw. destruct (Hdiv w Hw) as [_ H].
        assert (E : w * ((1 + unit_roundoff) / t)
                    == w / t * (1 + unit_roundoff)) by (field; lra).
        rewrite E. exact H.
      - rewrite sum_affine. fold S n. unfold x.
        assert (E : S * ((1 + unit_roundoff) / t)
                    == S / t * (1 + unit_roundoff)) by (field; lra).
        rewrite E. apply Qle_refl. }
    assert (Hlo : x * (1 - unit_roundoff) - n * underflow_unit
                  <= Np.sum (map (fun w => fdiv w t) weights)).
    { apply Qle_trans
        with (Np.sum (map (fun w => w * ((1 - unit_roundoff) / t)
                                    + - underflow_unit) weights)).
      - rewrite sum_affine. fold S n. unfold x.
        assert (E : S * ((1 - unit_roundoff) / t)
                    == S / t * (1 - unit_roundoff)) by (field; lra).
        rewrite E. lra.
      - apply sum_pointwise_le. intros w Hw. destruct (Hdiv w Hw) as [H _].
        assert (E : w * ((1 - unit_roundoff) / t)
                    == w / t * (1 - unit_roundoff)) by (field; lra).
        rewrite E. lra. }
    (* bounds on x *)
    assert (Hx1 : x * (1 - n * unit_roundoff) <= 1).
    { assert (E : x * (1 - n * unit_roundoff)
                  == S * (1 - n * unit_roundoff) / t) by (unfold x; field; lra).
      rewrite E. apply Qle_shift_div_r; [assumption | lra]. }
    assert (Hx2 : 1 <= x * (1 + n * unit_roundoff)).
    { assert (E : x * (1 + n * unit_roundoff)
                  == S * (1 + n * unit_roundoff) / t) by (unfold x; field; lra).
      rewrite E. apply Qle_shift_div_l; [assumption | lra]. }
    assert (Hxa : x * (n * unit_roundoff) <= x * (1 # 9000000000)).
    { rewrite !(Qmult_comm x). apply Qmult_le_compat_r; assumption. }
    assert (Hxb : 0 <= x * (n * unit_roundoff))
      by (apply Qmult_le_0_compat; assumption).
    assert (Hneta : n * underflow_unit <= 1 # 10000000000).
    { assert (n * underflow_unit <= 1000000 * underflow_unit)
        by (apply Qmult_le_compat_r; assumption).
      lra. }
    assert (Hneta0 : 0 <= n * underflow_unit)
      by (apply Qmult_le_0_compat; lra).
    unfold unit_roundoff in *. split; lra.
  - now apply rounded_fallback_sum.
Qed.

Lemma rounded_weights_to_dict_lossless np_sum fdiv bounds normalize seed self
    (weights : list Q) :
  BayesianOptimizer__init__ bounds normalize seed = Ok self ->
  NoDup (map signal_id bounds) ->
  length weights = length bounds ->
  keys (Rounded._weights_to_dict np_sum fdiv self weights)
  = map signal_id bounds
  /\ values (Rounded._weights_to_dict np_sum fdiv self weights)
     = if normalize then Rounded._normalize np_sum fdiv weights else weights.
Proof.
  intros Hinit Hnd Hlen.
  apply batch_init_fields in Hinit as (_ & Hids & Hnorm & _).
  unfold Rounded._weights_to_dict. rewrite Hnorm, Hids.
  set (ws := if normalize then Rounded._normalize np_sum fdiv weights
             else weights).
  assert (L : length (map signal_id bounds) = length ws).
  { subst ws. rewrite length_map.
    destruct normalize; [rewrite rounded_normalize_length|]; lia. }
  rewrite dict_of_nodup.
  - unfold keys, values. now rewrite combine_fst, combine_snd.
  - now rewrite combine_fst.
Qed.

Lemma exact_arithmetic_instance (weights : list Q) :
  Rounded._normalize Np.sum Qdiv weights = _normalize weights.
Proof.
  unfold Rounded._normalize, _normalize, Np.div_scalar. reflexivity.
Qed.

(** C1 (as amended).  With the sum and the quotients rounded, a positive
    computed sum divides every component by it and any other sum yields
    [1/n] everywhere, so the result is the uniform vector whenever the raw
    sum is not positive.  With arithmetic that rounds as binary64 does, the
    returned components sum to 1 within [1e-9] when no component is
    negative and there are at most a million of them, and also whenever the
    computed sum is not positive.  Over pairwise distinct
    signal ids the dictionary returned in simplex mode carries exactly these
    components, one per signal.  In exact arithmetic the components sum to 1
    for every non-empty array, and the result is the uniform vector exactly
    when the raw sum is not positive or all raw components are equal. *)
Theorem normalize_on_simplex
    (np_sum : list Q -> Q) (fdiv : Q -> Q -> Q) (weights : list Q) :
  weights <> [] ->
  length (Rounded._normalize np_sum fdiv weights) = length weights
  /\ (0 < np_sum weights ->
      Rounded._normalize np_sum fdiv weights
      = map (fun w => fdiv w (np_sum weights)) weights)
  /\ (np_sum weights <= 0 ->
      Rounded._normalize np_sum fdiv weights
      = map (fun _ => fdiv 1 (len weights)) weights)
  /\ (len weights <= 1000000 ->
      Forall (fun w => 0 <= w) weights ->
      binary64_arithmetic np_sum fdiv weights ->
      1 - (1 # 1000000000)
      <= Np.sum (Rounded._normalize np_sum fdiv weights)
      <= 1 + (1 # 1000000000))
  /\ (np_sum weights <= 0 ->
      rounds unit_roundoff 0 (1 / len weights) (fdiv 1 (len weights)) ->
      1 - (1 # 1000000000)
      <= Np.sum (Rounded._normalize np_sum fdiv weights)
      <= 1 + (1 # 1000000000))
  /\ (forall bounds seed self,
        BayesianOptimizer__init__ bounds true seed = Ok self ->
        NoDup (map signal_id bounds) ->
        length weights = length bounds ->
        keys (Rounded._weights_to_dict np_sum fdiv self weights)
        = map signal_id bounds
        /\ values (Rounded._weights_to_dict np_sum fdiv self weights)
           = Rounded._normalize np_sum fdiv weights)
  /\ (Rounded._normalize Np.sum Qdiv weights = _normalize weights
      /\ Np.sum (_normalize weights) == 1
      /\ (uniform_vector (_normalize weights)
          <-> Np.sum weights <= 0 \/ all_equal_to (Np.mean weights) weights)).
Proof.
  intros Hne. split; [apply rounded_normalize_length|].
  split; [apply rounded_normalize_positive|].
  split; [apply rounded_normalize_fallback|].
  split; [now apply rounded_normalize_sum|].
  split; [now apply rounded_fallback_sum|].
  split.
  - intros bounds seed self Hinit Hnd Hlen.
    exact (@rounded_weights_to_dict_lossless np_sum fdiv bounds true seed self
             weights Hinit Hnd Hlen).
  - split; [apply exact_arithmetic_instance|].
    split; [now apply normalize_sum | now apply normalize_uniform_iff].
Qed.

Lemma normalize_on_simplex_witness :
  [Binary64.to_Q Sample.tenth; Binary64.to_Q Sample.three_tenths] <> []
  /\ binary64_arithmetic Binary64.np_sum Binary64.fdiv
       [Binary64.to_Q Sample.tenth; Binary64.to_Q Sample.three_tenths]
  /\ Forall2 Qeq
       (Rounded._normalize Binary64.np_sum Binary64.fdiv
          [Binary64.to_Q Sample.tenth; Binary64.to_Q Sample.three_tenths])
       (map Binary64.to_Q
          (Binary64._normalize [Sample.tenth; Sample.three_tenths]))
  /\ 1 - (1 # 1000000000)
     <= Np.sum (Rounded._normalize Binary64.np_sum Binary64.fdiv
                  [Binary64.to_Q Sample.tenth;
                   Binary64.to_Q Sample.three_tenths])
     <= 1 + (1 # 1000000000).
Proof.
  assert (Hne : [Binary64.to_Q Sample.tenth;
                 Binary64.to_Q Sample.three_tenths] <> []) by discriminate.
  assert (Hb : binary64_arithmetic Binary64.np_sum Binary64.fdiv
                 [Binary64.to_Q Sample.tenth;
                  Binary64.to_Q Sample.three_tenths]).
  { split; [|split].
    - split; vm_compute; discriminate.
    - intros w [<-|[<-|[]]]; split; vm_compute; discriminate.
    - split; vm_compute; discriminate. }
  split; [exact Hne|]. split; [exact Hb|]. split.
  { repeat (constructor; [vm_compute; reflexivity|]). constructor. }
  destruct (@normalize_on_simplex Binary64.np_sum Binary64.fdiv
              [Binary64.to_Q Sample.tenth; Binary64.to_Q Sample.three_tenths]
              Hne)
    as (_ & _ & _ & H & _).
  apply H; [vm_compute; discriminate | | exact Hb].
  repeat constructor; vm_compute; discriminate.
Defined.

(** C1, as stated, fails four ways: a positive raw sum can give the uniform
    vector; over the empty signal set the returned vector sums to 0; over
    two bounds sharing one id the returned dictionary keeps one entry; and in
    binary64 the array [[1e16, 2.5, -1e16, 0.5]], whose computed sum is
    [2.5], is returned as [[4e15, 1, -4e15, 0.2]], which sums to 1.2. *)
Lemma normalize_claim_fails :
  (0 < Np.sum [1; 1] /\ uniform_vector (_normalize [1; 1]))
  /\ (BayesianOptimizer__init__ [] true 42 = Ok Built.batch_empty
      /\ Np.sum (values (_weights_to_dict Built.batch_empty [])) == 0)
  /\ (BayesianOptimizer__init__ Sample.twins true 42 = Ok Built.batch_twins
      /\ Np.sum (values (_weights_to_dict Built.batch_twins [3 # 10; 7 # 10]))
         == 7 # 10)
  /\ (Binary64.sum [1e16; 2.5; -1e16; 0.5]%float = 2.5%float
      /\ Binary64._normalize [1e16; 2.5; -1e16; 0.5]%float
         = [4e15; 1; -4e15; 0x1.999999999999ap-3]%float
      /\ Binary64.sum (Binary64._normalize [1e16; 2.5; -1e16; 0.5]%float)
         = 0x1.3333333333333p+0%float
      /\ 1 + (1 # 1000000000)
         < Np.sum (map Binary64.to_Q
                     (Binary64._normalize [1e16; 2.5; -1e16; 0.5]%float))).
Proof.
  split; [|split; [|split]].
  - split; [reflexivity|]. repeat constructor; reflexivity.
  - split; reflexivity.
  - split; reflexivity.
  - repeat split; vm_compute; reflexivity.
Qed.





(** ** The batch run *)

Lemma last_item_snoc {A} (l : list A) (x : A) : last_item (l ++ [x]) = Ok x.
Proof. unfold last_item. now rewrite rev_unit. Qed.

Lemma is_max_snoc (prev x : Q) (l : list Q) :
  is_max prev l -> is_max (if Qgtb x prev then x else prev) (l ++ [x]).
Proof.
  intros [Hin Hall]. split.
  - apply in_or_app. destruct (Qgtb x prev); [right; now left | now left].
  - apply Forall_app. split.
    + revert Hall. apply Forall_impl. intros y Hy.
      destruct (Qgtb x prev) eqn:E; [apply Qgtb_true in E; lra | assumption].
    + constructor; [|constructor].
      destruct (Qgtb x prev) eqn:E; [lra | now apply Qgtb_false in E].
Qed.

Lemma running_maxima_snoc (conv scores : list Q) (score : Q) :
  running_maxima conv scores ->
  exists c,
    (if (length conv =? 0)%nat then Ok (conv ++ [score])
     else prev <- last_item conv ;;
          if Qgtb score prev then Ok (conv ++ [score])
          else Ok (conv ++ [prev])) = Ok (conv ++ [c])
    /\ running_maxima (conv ++ [c]) (scores ++ [score]).
Proof.
  intros [Hlen Hmax].
  assert (Hold : forall i y,
             (i < length conv)%nat -> nth_error conv i = Some y ->
             is_max y (firstn (S i) (scores ++ [score]))).
  { intros i y Hi Hy. rewrite firstn_app.
    replace (S i - length scores)%nat with O by lia.
    cbn [firstn]. rewrite app_nil_r. now apply Hmax. }
  assert (Hfull : firstn (S (length conv)) (scores ++ [score])
                  = scores ++ [score]).
  { apply firstn_all2. rewrite length_app. cbn. lia. }
  destruct conv as [|c0 conv0].
  - destruct scores; [|discriminate].
    exists score. split; [reflexivity|]. split; [reflexivity|].
    intros [|i] c Hc; cbn in Hc; [|destruct i; discriminate].
    inversion Hc; subst. split; [now left | constructor; [lra|constructor]].
  - set (conv := c0 :: conv0) in *.
    destruct (@exists_last _ conv) as (conv' & prev & E); [discriminate|].
    clearbody conv. subst conv.
    assert (Hprev : is_max prev scores).
    { rewrite <- (firstn_all scores), <- Hlen, length_app, Nat.add_1_r.
      apply Hmax. rewrite nth_error_app2, Nat.sub_diag by lia.
      reflexivity. }
    exists (if Qgtb score prev then score else prev).
    split.
    + replace (length (conv' ++ [prev]) =? 0)%nat with false
        by (rewrite length_app; cbn; symmetry; apply Nat.eqb_neq; lia).
      rewrite last_item_snoc. cbn [bind].
      now destruct (Qgtb score prev).
    + split; [rewrite !length_app in *; cbn in *; lia|].
      intros i c Hc. apply nth_error_snoc in Hc as [[Hi Hc]|[-> ->]].
      * now apply Hold.
      * rewrite Hfull. now apply is_max_snoc.
Qed.

Lemma wrapped_objective_step self objective_fn (x : list Q) (log : RunLog) :
  running_maxima (log_convergence log) (log_scores log) ->
  exists log',
    wrapped_objective self objective_fn x log
    = Ok (- objective_fn (_weights_to_dict self x), log')
    /\ log_scores log'
       = log_scores log ++ [objective_fn (_weights_to_dict self x)]
    /\ log_weights log' = log_weights log ++ [_weights_to_dict self x]
    /\ running_maxima (log_convergence log') (log_scores log').
Proof.
  intros Hinv. unfold wrapped_objective.
  destruct (running_maxima_snoc (objective_fn (_weights_to_dict self x)) Hinv)
    as (c & -> & Hinv').
  cbn [bind]. eexists. split; [reflexivity|]. cbn. auto.
Qed.

Lemma gp_loop_log gp_ask self objective_fn cfg (n : nat) :
  forall seen log,
    running_maxima (log_convergence log) (log_scores log) ->
    exists seen' log',
      gp_loop gp_ask (wrapped_objective self objective_fn) cfg n seen log
      = Ok (seen', log')
      /\ running_maxima (log_convergence log') (log_scores log')
      /\ length (log_scores log') = (length (log_scores log) + n)%nat
      /\ length seen' = (length seen + n)%nat.
Proof.
  induction n as [|n IH]; intros seen log Hinv; cbn [gp_loop].
  - exists seen, log. split; [reflexivity|]. split; [assumption|]. lia.
  - destruct (@wrapped_objective_step self objective_fn (gp_ask cfg seen)
                log Hinv)
      as (log1 & -> & Hs & _ & Hinv1).
    cbn [bind fst snd].
    destruct (IH (seen ++ [(gp_ask cfg seen,
                            - objective_fn
                                (_weights_to_dict self (gp_ask cfg seen)))])
                 log1 Hinv1)
      as (seen' & log' & -> & Hinv' & Hl & Hn).
    exists seen', log'. split; [reflexivity|]. split; [assumption|]. split.
    + rewrite Hl, Hs, length_app. cbn. lia.
    + rewrite Hn, length_app. cbn. lia.
Qed.

Lemma firstn_incl_succ {A} (l : list A) :
  forall n, incl (firstn n l) (firstn (S n) l).
Proof.
  induction l as [|x l IH]; intros [|n]; cbn; intros y Hy; try contradiction.
  destruct Hy as [->|Hy]; [now left | right; now apply (IH n)].
Qed.

Lemma non_decreasing_pointwise (l : list Q) :
  (forall i x y,
      nth_error l i = Some x -> nth_error l (S i) = Some y -> x <= y) ->
  non_decreasing l.
Proof.
  induction l as [|x [|y l] IH]; intros H; cbn; auto.
  split.
  - apply (H 0%nat); reflexivity.
  - apply IH. intros i a b Ha Hb. apply (H (S i)); assumption.
Qed.

Lemma running_maxima_non_decreasing (conv scores : list Q) :
  running_maxima conv scores -> non_decreasing conv.
Proof.
  intros [_ Hmax]. apply non_decreasing_pointwise. intros i x y Hx Hy.
  apply (is_max_le (Hmax _ _ Hx) (Hmax _ _ Hy)). apply firstn_incl_succ.
Qed.

Lemma running_maxima_last (conv scores : list Q) :
  running_maxima conv scores -> conv <> [] ->
  exists m, last_item conv = Ok m /\ is_max m scores.
Proof.
  intros [Hlen Hmax] Hne.
  destruct (exists_last Hne) as (conv' & m & ->).
  exists m. split; [apply last_item_snoc|].
  rewrite <- (firstn_all scores), <- Hlen, length_app, Nat.add_1_r.
  apply Hmax. rewrite nth_error_app2, Nat.sub_diag by lia. reflexivity.
Qed.

(** C4: a batch run whose arguments [gp_minimize] accepts returns; its
    [convergence_history] has one entry per evaluation, entry [i] is the
    greatest of the scores [0..i], the entries never decrease, and the last
    one is the greatest of [all_scores]. *)
Theorem convergence_is_running_max
    gp_ask self objective_fn (n_calls n_initial_points : Z) acq_func :
  (0 < n_initial_points <= n_calls)%Z ->
  exists res,
    optimize gp_ask self objective_fn n_calls n_initial_points acq_func
    = Ok res
    /\ length (all_scores res) = Z.to_nat n_calls
    /\ length (convergence_history res) = Z.to_nat n_calls
    /\ (forall i c,
          nth_error (convergence_history res) i = Some c ->
          is_max c (firstn (S i) (all_scores res)))
    /\ non_decreasing (convergence_history res)
    /\ (exists m,
          last_item (convergence_history res) = Ok m
          /\ is_max m (all_scores res)).
Proof.
  intros [Hinit Hcalls]. unfold optimize, gp_minimize.
  cbn [gp_n_initial_points gp_n_calls].
  destruct (Z.leb_spec n_initial_points 0) as [?|_]; [lia|].
  destruct (Z.ltb_spec n_calls n_initial_points) as [?|_]; [lia|].
  assert (Hempty : running_maxima (log_convergence empty_log)
                                  (log_scores empty_log)).
  { split; [reflexivity|]. intros [|i] c Hc; discriminate. }
  match goal with
  | |- context [gp_loop _ _ ?cfg ?n [] empty_log] =>
      destruct (@gp_loop_log gp_ask self objective_fn cfg n [] empty_log Hempty)
        as (seen & log & -> & Hinv & Hl & Hn)
  end.
  cbn [bind fst snd length Nat.add] in *.
  assert (Hseen : map snd seen <> []).
  { intros E. apply (f_equal (@length _)) in E.
    rewrite length_map in E. cbn in E. lia. }
  destruct (np_argmin_in_range Hseen) as (best & -> & Hbest).
  rewrite length_map in Hbest. cbn [bind]. unfold index.
  destruct (nth_error seen best) as [xy|] eqn:E;
    [|apply nth_error_None in E; exfalso; lia].
  cbn [bind]. cbn in Hl. eexists. split; [reflexivity|].
  cbn [all_scores convergence_history fst snd].
  destruct Hinv as [Hlen Hmax].
  split; [assumption|]. split; [congruence|]. split; [assumption|].
  split; [now apply (@running_maxima_non_decreasing _ (log_scores log))|].
  apply running_maxima_last; [now split|].
  intros E'. rewrite E' in Hlen. cbn in Hlen. lia.
Qed.

Lemma convergence_is_running_max_witness :
  (0 < 1 <= 3)%Z
  /\ exists res,
       optimize (fun _ seen => [inject_Z (Z.of_nat (length seen)); 1])
         Built.batch_AB
         (fun w => match dict_get "A" w with Some a => a | None => 0 end)
         3 1 "EI" = Ok res
       /\ length (convergence_history res) = 3%nat
       /\ non_decreasing (convergence_history res).
Proof.
  split; [lia|].
  destruct (@convergence_is_running_max
              (fun _ seen => [inject_Z (Z.of_nat (length seen)); 1])
              Built.batch_AB
              (fun w => match dict_get "A" w with Some a => a | None => 0 end)
              3 1 "EI")
    as (res & H & _ & Hl & _ & Hnd & _); [lia|].
  exists res. repeat split; assumption.
Defined.

(** ** The online optimizer *)

Lemma online_init_fields bounds window update exploration s0 :
  OnlineBayesianOptimizer__init__ bounds window update exploration = Ok s0 ->
  BayesianOptimizer__init__ bounds true 42 = Ok (optimizer s0)
  /\ window_size s0 = window
  /\ update_interval s0 = update
  /\ evaluation_history s0 = []
  /\ current_weights s0 = initial_weights bounds
  /\ evaluation_count s0 = 0%Z.
Proof.
  unfold OnlineBayesianOptimizer__init__.
  destruct (BayesianOptimizer__init__ bounds true 42) as [opt|e]; cbn.
  - intros H. inversion H. cbn. auto 10.
  - discriminate.
Qed.

Lemma record_all_current_weights (evals : list Evaluation) :
  forall self, current_weights (record_all self evals) = current_weights self.
Proof.
  induction evals as [|e evals IH]; intros; cbn; [|rewrite IH]; reflexivity.
Qed.

Lemma get_best_weights_nonempty (self : OnlineBayesianOptimizer) :
  evaluation_history self <> [] ->
  exists i w score,
    get_best_weights self = Ok w
    /\ nth_error (evaluation_history self) i = Some (w, score)
    /\ first_argmax (map snd (evaluation_history self)) i.
Proof.
  intros Hne. unfold get_best_weights.
  destruct (evaluation_history self) as [|e h] eqn:E; [congruence|].
  assert (Hs : map snd (e :: h) <> []) by discriminate.
  destruct (np_argmax_first Hs) as (i & -> & Hi). cbn [bind].
  pose proof (first_argmax_in_range Hi) as Hr. rewrite length_map in Hr.
  unfold index. destruct (nth_error (e :: h) i) as [[w score]|] eqn:En;
    [|apply nth_error_None in En; exfalso;
      exact (Nat.lt_irrefl _ (Nat.lt_le_trans _ _ _ Hr En))].
  cbn [bind fst]. exists i, w, score. auto.
Qed.

Lemma initial_weights_distinct (bounds : list SignalBounds) :
  NoDup (map signal_id bounds) ->
  initial_weights bounds
  = map (fun s => (signal_id s, initial_weight s)) bounds.
Proof.
  intros H. unfold initial_weights. apply dict_of_nodup.
  now rewrite map_map.
Qed.

Lemma initial_weights_entries (bounds : list SignalBounds) :
  (forall id v, In (id, v) (initial_weights bounds) ->
                exists s, In s bounds /\ signal_id s = id
                          /\ initial_weight s = v)
  /\ (forall s, In s bounds ->
                dict_get (signal_id s) (initial_weights bounds) <> None).
Proof.
  unfold initial_weights. split.
  - intros id v Hin. apply dict_of_In, in_map_iff in Hin.
    destruct Hin as (s & E & Hs). inversion E; subst. now exists s.
  - intros s Hs. unfold dict_of.
    assert (G : forall (items : list (string * Q)) (acc : dict Q),
               In (signal_id s) (map fst items)
               \/ dict_get (signal_id s) acc <> None ->
               dict_get (signal_id s)
                 (fold_left (fun d kv => dict_set (fst kv) (snd kv) d)
                    items acc) <> None).
    { induction items as [|[k v] items IH]; intros acc H;
        cbn [fold_left map fst snd] in *.
      - destruct H as [[]|H]. exact H.
      - apply IH. destruct (String.eqb_spec (signal_id s) k) as [E|Hne].
        + right. rewrite E, dict_get_set_same. discriminate.
        + destruct H as [[E|H]|H]; [congruence | now left |].
          right. now rewrite dict_get_set_other. }
    apply G. left. rewrite map_map. cbn [fst]. now apply in_map.
Qed.

(** C6: with an empty history [get_best_weights] returns [current_weights]
    unchanged.  That dictionary is the one [__init__] builds from the
    [initial_weight] of every bound: every entry is the initial weight of a
    signal, every signal has an entry, and over distinct signal ids the
    entries are the pairs [(signal_id, initial_weight)] in the order of the
    bounds; no sequence of recordings changes it.  With a non-empty history
    the answer is the weights of the first entry of the window whose score
    is the greatest. *)
Theorem best_weights_first_maximum (self : OnlineBayesianOptimizer) :
  (evaluation_history self = [] ->
   get_best_weights self = Ok (current_weights self))
  /\ (evaluation_history self <> [] ->
      exists i w score,
        get_best_weights self = Ok w
        /\ nth_error (evaluation_history self) i = Some (w, score)
        /\ first_argmax (map snd (evaluation_history self)) i)
  /\ (forall bounds window update exploration s0,
        OnlineBayesianOptimizer__init__ bounds window update exploration
        = Ok s0 ->
        exists initial,
          get_best_weights s0 = Ok initial
          /\ (forall id v, In (id, v) initial ->
                           exists s, In s bounds /\ signal_id s = id
                                     /\ initial_weight s = v)
          /\ (forall s, In s bounds -> dict_get (signal_id s) initial <> None)
          /\ (NoDup (map signal_id bounds) ->
              initial = map (fun s => (signal_id s, initial_weight s)) bounds)
          /\ (forall evals,
                self = record_all s0 evals ->
                current_weights self = initial
                /\ (evaluation_history self = [] ->
                    get_best_weights self = Ok initial))).
Proof.
  split; [|split].
  - intros E. unfold get_best_weights. now rewrite E.
  - apply get_best_weights_nonempty.
  - intros bounds window update exploration s0 Hinit.
    apply online_init_fields in Hinit as (_ & _ & _ & Hh & Hc & _).
    exists (initial_weights bounds).
    destruct (initial_weights_entries bounds) as [Hfrom Hall].
    split; [unfold get_best_weights; now rewrite Hh, Hc|].
    split; [exact Hfrom|]. split; [exact Hall|].
    split; [apply initial_weights_distinct|].
    intros evals ->.
    assert (Hcw : current_weights (record_all s0 evals)
                  = initial_weights bounds)
      by (now rewrite record_all_current_weights).
    split; [exact Hcw|].
    intros E. unfold get_best_weights. now rewrite E, Hcw.
Qed.

(** The scenario of the specification: [should_update] is false after the
    first recording and true after the second, and the best weights are
    those of the second. *)
Example scenario_best_weights :
  OnlineBayesianOptimizer__init__ Sample.AB 5 2 (1 # 10)
  = Ok (Built.online_AB 5 2)
  /\ should_update (record_evaluation (Built.online_AB 5 2) Sample.w1 1)
     = Ok false
  /\ should_update (record_all (Built.online_AB 5 2) Sample.scenario)
     = Ok true
  /\ get_best_weights (record_all (Built.online_AB 5 2) Sample.scenario)
     = Ok Sample.w2.
Proof. repeat split. Qed.

(** ** Statistics *)

Lemma square_of_abs (d : Q) : Qabs d * Qabs d == d * d.
Proof.
  destruct (Qlt_le_dec d 0) as [H|H].
  - rewrite Qabs_neg by lra. ring.
  - rewrite Qabs_pos by lra. ring.
Qed.

Lemma squared_deviations (mu : Q) (l : list Q) :
  Forall2 Qeq (map (fun d => Qabs d * Qabs d) (Np.sub_scalar l mu))
              (map (fun x => (x - mu) * (x - mu)) l).
Proof.
  unfold Np.sub_scalar. induction l as [|x l IH]; cbn [map].
  - constructor.
  - constructor; [apply square_of_abs | exact IH].
Qed.

Lemma std_radicand (l : list Q) :
  Np.mean (map (fun d => Qabs d * Qabs d) (Np.sub_scalar l (Np.mean l)))
  == population_variance l.
Proof.
  unfold population_variance. unfold Np.mean at 1.
  unfold Np.sub_scalar. rewrite !len_map.
  rewrite (sum_ext (squared_deviations (Np.mean l) l)). reflexivity.
Qed.

Lemma slice_to_short {A} (k : nat) (l : list A) :
  (k <= length l)%nat -> slice_to (Z.of_nat k) l = firstn k l.
Proof.
  intros H. unfold slice_to.
  destruct (Z.ltb_spec (Z.of_nat k) 0) as [?|_]; [lia|].
  f_equal. lia.
Qed.

(** C8 (as amended): over a non-empty window the report holds the count,
    the greatest score, the mean, the square root of the population variance
    and a [recent_trend] that is the mean of the last ten scores minus the
    mean of the first ten when there are at least twenty, and 0 otherwise;
    over an empty window the report is the four-entry dictionary of the
    guard: a zero count and no value for the greatest score, the mean and
    the deviation. *)
Theorem statistics_of_window (sqrt : Q -> Q) (self : OnlineBayesianOptimizer) :
  (evaluation_history self = [] ->
   get_statistics sqrt self
   = Ok [("n_evaluations", Int 0); ("best_score", None_);
         ("avg_score", None_); ("score_std", None_)]%string)
  /\ (evaluation_history self <> [] ->
      exists best variance,
        is_max best (map snd (evaluation_history self))
        /\ variance == population_variance (map snd (evaluation_history self))
        /\ get_statistics sqrt self
           = Ok [("n_evaluations",
                  Int (Z.of_nat (length (evaluation_history self))));
                 ("best_score", Float best);
                 ("avg_score",
                  Float (Np.mean (map snd (evaluation_history self))));
                 ("score_std", Float (sqrt variance));
                 ("recent_trend",
                  Float (if (20 <=? length (evaluation_history self))%nat
                         then Np.mean (last_n 10
                                 (map snd (evaluation_history self)))
                              - Np.mean (firstn 10
                                   (map snd (evaluation_history self)))
                         else 0))]%string).
Proof.
  split.
  - intros E. unfold get_statistics. now rewrite E.
  - intros Hne. unfold get_statistics.
    destruct (evaluation_history self) as [|e h] eqn:E; [congruence|].
    set (scores := map snd (e :: h)).
    assert (Hs : scores <> []) by discriminate.
    destruct (np_max_is_max Hs) as (best & -> & Hbest). cbn [bind].
    exists best. eexists. split; [exact Hbest|].
    split; [apply std_radicand|].
    unfold Np.std. do 6 f_equal.
    assert (L : length scores = length (e :: h))
      by (subst scores; now rewrite length_map).
    rewrite L.
    destruct (Nat.leb_spec 20 (length (e :: h))) as [H20|_]; [|reflexivity].
    replace (slice_from (-10) scores) with (last_n 10 scores)
      by (symmetry; apply (@slice_from_negative _ 10%Z); lia).
    replace (slice_to 10 scores) with (firstn 10 scores)
      by (symmetry; apply (@slice_to_short _ 10%nat); lia).
    reflexivity.
Qed.

(** C8, as stated, fails on the empty window: the report has no
    [recent_trend] entry, and the greatest score is reported as absent. *)
Lemma empty_window_statistics :
  exists d,
    get_statistics (fun x => x) (Built.online_AB 5 2) = Ok d
    /\ dict_get "recent_trend" d = None
    /\ dict_get "best_score" d = Some None_
    /\ dict_get "n_evaluations" d = Some (Int 0).
Proof. eexists. repeat split. Qed.

(** ** Session creation *)

Lemma online_init_result bounds window update exploration :
  (Forall (fun s => min_weight s < max_weight s) bounds
   /\ exists s0,
       OnlineBayesianOptimizer__init__ bounds window update exploration
       = Ok s0)
  \/ (Exists (fun s => max_weight s <= min_weight s) bounds
      /\ OnlineBayesianOptimizer__init__ bounds window update exploration
         = Raise ValueError).
Proof.
  unfold OnlineBayesianOptimizer__init__, BayesianOptimizer__init__.
  destruct (dimensions_checked bounds) as [[Hall [dims ->]]|[Hex ->]]; cbn.
  - left. split; [assumption | eexists; reflexivity].
  - right. split; [assumption | reflexivity].
Qed.

(** C9 (as amended): creation fails, and then leaves the registry as it
    was, exactly when some interval has its upper end at or below its lower
    end; every other request, an empty signal set or an initial weight outside
    its interval included, registers a fresh session under the new id. *)
Theorem create_fails_only_on_empty_interval
    (request : OptimizeRequest) (uuid4 : string) (registry : Registry) :
  ((exists b, In b (rq_signal_bounds request)
              /\ rq_max_weight b <= rq_min_weight b) ->
   create_optimizer request uuid4 registry = (Raise ValueError, registry))
  /\ ((forall b, In b (rq_signal_bounds request) ->
                 rq_min_weight b < rq_max_weight b) ->
      exists session,
        create_optimizer request uuid4 registry
        = (Ok {| optimizer_id := uuid4;
                 rsp_signal_ids := map rq_signal_id (rq_signal_bounds request);
                 rsp_initial_weights :=
                   initial_weights (request_bounds request) |},
           dict_set uuid4 session registry)
        /\ evaluation_history session = []
        /\ evaluation_count session = 0%Z
        /\ current_weights session
           = initial_weights (request_bounds request)).
Proof.
  unfold create_optimizer.
  destruct (online_init_result (request_bounds request) 100 10 (1 # 10))
    as [[Hall [s0 Hs0]]|[Hex Hraise]].
  - split.
    + intros (b & Hb & Hbad). exfalso.
      unfold request_bounds in Hall. rewrite Forall_map, Forall_forall in Hall.
      specialize (Hall b Hb). cbn in Hall. lra.
    + intros _. rewrite Hs0. exists s0.
      apply online_init_fields in Hs0 as (_ & _ & _ & Hh & Hc & Hn).
      rewrite Hc. unfold request_bounds at 1. rewrite map_map. cbn.
      auto.
  - split.
    + intros _. now rewrite Hraise.
    + intros Hok. exfalso.
      unfold request_bounds in Hex. rewrite Exists_map, Exists_exists in Hex.
      destruct Hex as (b & Hb & Hbad). specialize (Hok b Hb). cbn in Hbad.
      lra.
Qed.

(** C9, as stated, fails: a request with no signal at all, and a request
    whose initial weight 5 lies outside [[0, 1]], each register a session. *)
Lemma invalid_requests_are_registered :
  (rq_signal_bounds (Sample.request []) = []
   /\ exists rsp session,
       create_optimizer (Sample.request []) "u" []
       = (Ok rsp, [("u"%string, session)]))
  /\ (Exists invalid_bound Sample.stray
      /\ exists rsp session,
          create_optimizer (Sample.request Sample.stray) "u" []
          = (Ok rsp, [("u"%string, session)])
          /\ dict_get "A" (current_weights session) = Some 5).
Proof.
  split.
  - split; [reflexivity|]. do 2 eexists. reflexivity.
  - split.
    + left. right. cbn. lra.
    + do 2 eexists. split; reflexivity.
Qed.

(** ** Random points *)

Lemma uniform_within (lo hi : Q) (rs : Np.RandomState) :
  unit_draws rs -> lo <= hi ->
  lo <= fst (Np.uniform lo hi rs) <= hi
  /\ unit_draws (snd (Np.uniform lo hi rs)).
Proof.
  intros Hu Hle. unfold Np.uniform, Np.random_sample. cbn [fst snd].
  destruct (Hu (Np.cursor rs)) as [H0 H1]. split; [|exact Hu].
  set (u := Np.stream rs (Np.cursor rs)) in *.
  assert (0 <= (hi - lo) * u) by (apply Qmult_le_0_compat; lra).
  assert (0 <= (hi - lo) * (1 - u)) by (apply Qmult_le_0_compat; lra).
  split; lra.
Qed.

Lemma random_point_within (bounds : list SignalBounds) :
  forall rs,
    unit_draws rs ->
    Forall (fun s => min_weight s < max_weight s) bounds ->
    Forall2 within bounds (fst (random_point bounds rs))
    /\ unit_draws (snd (random_point bounds rs)).
Proof.
  induction bounds as [|s bounds IH]; intros rs Hu Hb; cbn [random_point].
  - split; [constructor | exact Hu].
  - inversion Hb as [|? ? Hs Hb']; subst.
    destruct (@uniform_within (min_weight s) (max_weight s) rs Hu) as [Hw Hu1];
      [lra|].
    destruct (Np.uniform (min_weight s) (max_weight s) rs) as [w rs1].
    cbn [fst snd] in Hw, Hu1.
    destruct (@IH rs1 Hu1 Hb') as [Hws Hu2].
    destruct (random_point bounds rs1) as [ws rs2]. cbn [fst snd] in *.
    split; [constructor; assumption | exact Hu2].
Qed.

Lemma within_entries (bounds : list SignalBounds) (p : list Q) :
  Forall2 within bounds p ->
  forall id v,
    In (id, v) (combine (map signal_id bounds) p) ->
    exists s, In s bounds /\ signal_id s = id /\ within s v.
Proof.
  induction 1 as [|s w bounds p Hw _ IH]; intros id v Hin; cbn in Hin.
  - contradiction.
  - destruct Hin as [E|Hin].
    + inversion E; subst. exists s. split; [now left | auto].
    + destruct (IH id v Hin) as (s' & Hs' & Hid & Hv).
      exists s'. split; [now right | auto].
Qed.

Lemma simplex_dict bounds seed self (p : list Q) :
  BayesianOptimizer__init__ bounds true seed = Ok self ->
  Forall2 within bounds p ->
  bounds <> [] -> NoDup (map signal_id bounds) ->
  keys (_weights_to_dict self p) = map signal_id bounds
  /\ Np.sum (values (_weights_to_dict self p)) == 1.
Proof.
  intros Hinit Hp Hne Hnd.
  assert (Hlen : length p = length bounds)
    by (symmetry; apply (Forall2_length Hp)).
  destruct (@weights_to_dict_lossless bounds seed self p Hinit Hnd Hlen)
    as [Hk Hv].
  split; [assumption|]. rewrite Hv. apply normalize_sum.
  intros ->. destruct bounds; [congruence | discriminate].
Qed.

Lemma within_nonneg (bounds : list SignalBounds) (p : list Q) :
  Forall2 within bounds p ->
  Forall (fun s => 0 <= min_weight s) bounds ->
  Forall (fun w => 0 <= w) p.
Proof.
  induction 1 as [|s w bounds p [Hw _] _ IH]; intros Hb.
  - constructor.
  - inversion Hb; subst. constructor; [lra | now apply IH].
Qed.

Lemma rounded_raw_dict_within np_sum fdiv bounds seed self (p : list Q) :
  BayesianOptimizer__init__ bounds false seed = Ok self ->
  Forall2 within bounds p ->
  forall id v,
    In (id, v) (Rounded._weights_to_dict np_sum fdiv self p) ->
    exists s, In s bounds /\ signal_id s = id /\ within s v.
Proof.
  intros Hinit Hp id v Hin.
  apply batch_init_fields in Hinit as (_ & Hids & Hnorm & _).
  unfold Rounded._weights_to_dict in Hin. rewrite Hnorm, Hids in Hin.
  apply dict_of_In in Hin. now apply (within_entries Hp).
Qed.

(** C5 (as amended): below three evaluated points [suggest_next] with
    [n_suggestions = 2] returns exactly two dictionaries, each built from a
    point drawn inside the declared intervals and, over distinct signal
    ids, with one entry per signal.  Without simplex mode the value of
    every signal lies in its interval.  In simplex mode the values are the
    normalized draws, which need not lie in the intervals; when no interval
    reaches below zero, there are at most a million signals and the
    arithmetic rounds as binary64 does, they sum to 1 within [1e-9]; in
    exact arithmetic they sum to 1 whatever the intervals. *)
Theorem cold_start_suggestions
    (np_sum : list Q -> Q) (fdiv : Q -> Q -> Q) (cdf pdf : Q -> Q)
    (gp : list (list Q) -> list Q -> list (list Q) -> list Q * list Q)
    bounds normalize seed self (points : list Evaluation)
    (rs : Np.RandomState) :
  BayesianOptimizer__init__ bounds normalize seed = Ok self ->
  (length points < 3)%nat ->
  unit_draws rs ->
  let p1 := fst (random_point bounds rs) in
  let rs1 := snd (random_point bounds rs) in
  let p2 := fst (random_point bounds rs1) in
  let rs2 := snd (random_point bounds rs1) in
  let to_dict := Rounded._weights_to_dict np_sum fdiv self in
  Rounded.suggest_next np_sum fdiv cdf pdf gp self points 2 rs
  = (Ok [to_dict p1; to_dict p2], rs2)
  /\ Forall2 within bounds p1
  /\ Forall2 within bounds p2
  /\ (forall p,
        In p [p1; p2] ->
        (NoDup (map signal_id bounds) ->
         keys (to_dict p) = map signal_id bounds)
        /\ (normalize = false ->
            (forall id v,
                In (id, v) (to_dict p) ->
                exists s, In s bounds /\ signal_id s = id /\ within s v)
            /\ (NoDup (map signal_id bounds) ->
                Forall2 within bounds (values (to_dict p))))
        /\ (normalize = true ->
            NoDup (map signal_id bounds) ->
            values (to_dict p) = Rounded._normalize np_sum fdiv p
            /\ (bounds <> [] ->
                len bounds <= 1000000 ->
                Forall (fun s => 0 <= min_weight s) bounds ->
                binary64_arithmetic np_sum fdiv p ->
                1 - (1 # 1000000000)
                <= Np.sum (values (to_dict p))
                <= 1 + (1 # 1000000000))
            /\ (bounds <> [] ->
                suggest_next cdf pdf gp self points 2 rs
                = (Ok [_weights_to_dict self p1; _weights_to_dict self p2],
                   rs2)
                /\ Np.sum (values (_weights_to_dict self p)) == 1))).
Proof.
  intros Hinit Hlen Hu p1 rs1 p2 rs2 to_dict. subst to_dict.
  pose proof (batch_init_fields _ _ _ Hinit) as (Hb & _ & _ & Hvalid).
  destruct (@random_point_within bounds rs Hu Hvalid) as [H1 Hu1].
  fold p1 rs1 in H1, Hu1.
  destruct (@random_point_within bounds rs1 Hu1 Hvalid) as [H2 _].
  fold p2 in H2.
  assert (Hrun : forall (A : Type) (f : list Q -> A),
             (let (w1, r1) := random_point bounds rs in
              let (rest, r2) :=
                (let (w2, r2) := random_point bounds r1 in
                 (f w2 :: [], r2)) in
              (f w1 :: rest, r2))
             = ([f p1; f p2], rs2)).
  { intros A f. subst p1 rs1 p2 rs2.
    destruct (random_point bounds rs) as [w1 r1]. cbn [fst snd].
    destruct (random_point bounds r1) as [w2 r2]. reflexivity. }
  split.
  { unfold Rounded.suggest_next.
    destruct (Nat.ltb_spec (length points) 3) as [_|?]; [|lia].
    change (Z.to_nat 2) with 2%nat. cbn [Rounded.random_suggestions].
    rewrite Hb. rewrite (Hrun _ (Rounded._weights_to_dict np_sum fdiv self)).
    reflexivity. }
  split; [assumption|]. split; [assumption|].
  assert (Hp : forall p, In p [p1; p2] -> Forall2 within bounds p).
  { intros p [<-|[<-|[]]]; assumption. }
  intros p Hin. specialize (Hp p Hin).
  assert (Hl : length p = length bounds)
    by (symmetry; apply (Forall2_length Hp)).
  split; [|split].
  - intros Hnd.
    now destruct (@rounded_weights_to_dict_lossless np_sum fdiv bounds
                    normalize seed self p Hinit Hnd Hl).
  - intros ->. split.
    + now apply (@rounded_raw_dict_within np_sum fdiv bounds seed self p).
    + intros Hnd.
      destruct (@rounded_weights_to_dict_lossless np_sum fdiv bounds
                  false seed self p Hinit Hnd Hl) as [_ ->].
      exact Hp.
  - intros -> Hnd.
    destruct (@rounded_weights_to_dict_lossless np_sum fdiv bounds
                true seed self p Hinit Hnd Hl) as [_ Hv].
    split; [exact Hv|]. split.
    + intros Hne Hmax Hmin Harith. rewrite Hv.
      apply rounded_normalize_sum; try assumption.
      * intros ->. destruct bounds; [congruence | discriminate].
      * unfold len in *. now rewrite Hl.
      * now apply (within_nonneg Hp).
    + intros Hne. split.
      * unfold suggest_next.
        destruct (Nat.ltb_spec (length points) 3) as [_|?]; [|lia].
        change (Z.to_nat 2) with 2%nat. cbn [random_suggestions].
        rewrite Hb. rewrite (Hrun _ (_weights_to_dict self)). reflexivity.
      * now apply (@simplex_dict bounds seed self p Hinit Hp Hne Hnd).
Qed.

Lemma cold_start_suggestions_witness :
  BayesianOptimizer__init__ Sample.AB true 42 = Ok Built.batch_AB
  /\ (length (@nil Evaluation) < 3)%nat
  /\ unit_draws Sample.halves
  /\ (exists d1 d2 rs',
        Rounded.suggest_next Binary64.np_sum Binary64.fdiv
          (fun z => z) (fun z => z) Sample.flat_gp
          Built.batch_AB [] 2 Sample.halves
        = (Ok [d1; d2], rs')
        /\ keys d1 = ["A"; "B"]%string
        /\ 1 - (1 # 1000000000) <= Np.sum (values d1)
           <= 1 + (1 # 1000000000)).
Proof.
  assert (Hu : unit_draws Sample.halves) by (intros i; cbn; lra).
  split; [reflexivity|]. split; [cbn; lia|]. split; [exact Hu|].
  destruct (@cold_start_suggestions Binary64.np_sum Binary64.fdiv
              (fun z => z) (fun z => z) Sample.flat_gp
              Sample.AB true 42 Built.batch_AB [] Sample.halves
              eq_refl (Nat.lt_0_succ 2) Hu)
    as (H & _ & _ & Hall).
  destruct (Hall _ (or_introl eq_refl)) as (Hk & _ & Hs).
  assert (Hnd : NoDup (map signal_id Sample.AB)).
  { cbn. repeat constructor; cbn; intuition discriminate. }
  destruct (Hs eq_refl Hnd) as (_ & Hsum & _).
  do 3 eexists. split; [exact H|]. split; [exact (Hk Hnd)|].
  apply Hsum.
  - discriminate.
  - vm_compute. discriminate.
  - repeat constructor; vm_compute; discriminate.
  - split; [|split].
    + split; vm_compute; discriminate.
    + intros w [<-|[<-|[]]]; split; vm_compute; discriminate.
    + split; vm_compute; discriminate.
Defined.

(** C5, as stated, fails in simplex mode.  With three signals confined to
    [[0.9, 1]] every draw is normalized to about a third, below the lower
    end of its interval.  And in binary64, over four intervals of different
    sign and size, the point drawn at the midpoints, [[1e16, 2.5, -1e16,
    0.5]], is returned with the values [[4e15, 1, -4e15, 0.2]], which sum to
    1.2. *)
Lemma normalized_suggestion_leaves_bounds :
  (BayesianOptimizer__init__ Sample.high3 true 42 = Ok Built.batch_high3
   /\ exists d1 d2 rs' v,
        suggest_next (fun z => z) (fun z => z) Sample.flat_gp
          Built.batch_high3 [] 2 Sample.halves
        = (Ok [d1; d2], rs')
        /\ dict_get "A" d1 = Some v
        /\ v == 1 # 3
        /\ v < min_weight (Sample.bound "A" (9 # 10) 1 (9 # 10)))
  /\ (BayesianOptimizer__init__ Sample.mixed4 true 42 = Ok Built.batch_mixed4
      /\ exists d1 d2 rs',
           Rounded.suggest_next Binary64.np_sum Binary64.fdiv
             (fun z => z) (fun z => z) Sample.flat_gp
             Built.batch_mixed4 [] 2 Sample.halves
           = (Ok [d1; d2], rs')
           /\ Forall2 Qeq (values d1)
                [4000000000000000; 1; -4000000000000000;
                 Binary64.to_Q 0x1.999999999999ap-3%float]
           /\ 1 + (1 # 1000000000) < Np.sum (values d1)).
Proof.
  split.
  - split; [reflexivity|].
    do 4 eexists. split; [vm_compute; reflexivity|].
    split; [vm_compute; reflexivity|]. split; reflexivity.
  - split; [reflexivity|].
    do 3 eexists. split; [vm_compute; reflexivity|]. split.
    + repeat (constructor; [vm_compute; reflexivity|]). constructor.
    + vm_compute. reflexivity.
Qed.

(** ** Acquisition *)




Section Acquisition.
Variables cdf pdf : Q -> Q.
Variable gp : list (list Q) -> list Q -> list (list Q) -> list Q * list Q.
(** The surrogate answers one mean and one deviation per candidate. *)
Hypothesis gp_shape :
  forall X y c, length (fst (gp X y c)) = length c
                /\ length (snd (gp X y c)) = length c.





End Acquisition.



(** * Further properties *)

(** ** Counting recordings *)

Lemma slice_from_shorter {A} (k : Z) (l : list A) :
  (length (slice_from k l) <= length l)%nat.
Proof. unfold slice_from. rewrite length_skipn. lia. Qed.

Lemma record_evaluation_grows_by_one (self : OnlineBayesianOptimizer) w s :
  (length (evaluation_history (record_evaluation self w s))
   <= S (length (evaluation_history self)))%nat.
Proof.
  unfold record_evaluation. cbn [evaluation_history].
  destruct (_ >? _)%Z.
  - etransitivity; [apply slice_from_shorter|].
    rewrite length_app. cbn. lia.
  - rewrite length_app. cbn. lia.
Qed.

Lemma record_all_counts (evals : list Evaluation) :
  forall self,
    evaluation_count (record_all self evals)
    = (evaluation_count self + Z.of_nat (length evals))%Z
    /\ update_interval (record_all self evals) = update_interval self
    /\ ((Z.of_nat (length (evaluation_history self))
         <= evaluation_count self)%Z ->
        (Z.of_nat (length (evaluation_history (record_all self evals)))
         <= evaluation_count (record_all self evals))%Z).
Proof.
  induction evals as [|[w s] evals IH]; intros self; cbn [record_all fst snd].
  - cbn [length]. split; [lia|]. split; [reflexivity | auto].
  - destruct (IH (record_evaluation self w s)) as (Hc & Hu & Hh).
    split; [|split].
    + rewrite Hc. cbn [record_evaluation evaluation_count length]. lia.
    + rewrite Hu. reflexivity.
    + intros Hle. apply Hh.
      pose proof (record_evaluation_grows_by_one self w s) as G.
      cbn [record_evaluation evaluation_count] in *. lia.
Qed.

(** X1: a session counts every recording.  After any sequence of
    recordings on a session [__init__] built, [evaluation_count] is the
    number of recordings, whatever the window evicted, and the history is
    never longer than the count. *)
Theorem count_survives_eviction
    bounds (window update : Z) (exploration : Q) s0
    (evals : list Evaluation) :
  OnlineBayesianOptimizer__init__ bounds window update exploration = Ok s0 ->
  evaluation_count (record_all s0 evals) = Z.of_nat (length evals)
  /\ (Z.of_nat (length (evaluation_history (record_all s0 evals)))
      <= evaluation_count (record_all s0 evals))%Z.
Proof.
  intros Hinit.
  apply online_init_fields in Hinit as (_ & _ & _ & Hh & _ & Hc).
  destruct (record_all_counts evals s0) as (Hcount & _ & Hlen).
  split; [rewrite Hcount, Hc; lia|].
  apply Hlen. rewrite Hh, Hc. cbn. lia.
Qed.

Lemma count_survives_eviction_witness :
  OnlineBayesianOptimizer__init__ Sample.AB 2 2 (1 # 10)
  = Ok (Built.online_AB 2 2)
  /\ evaluation_count (record_all (Built.online_AB 2 2) Sample.three) = 3%Z
  /\ length (evaluation_history (record_all (Built.online_AB 2 2) Sample.three))
     = 2%nat.
Proof.
  split; [reflexivity|].
  destruct (@count_survives_eviction Sample.AB 2 2 (1 # 10)
              (Built.online_AB 2 2) Sample.three eq_refl) as [Hc _].
  split; [exact Hc | reflexivity].
Defined.

(** X2: the cadence over a run.  On a session [__init__] built with a
    non-zero [update_interval], after [n] recordings [should_update] answers
    true exactly when the interval divides [n]. *)
Theorem cadence_over_a_run
    bounds (window update : Z) (exploration : Q) s0
    (evals : list Evaluation) :
  OnlineBayesianOptimizer__init__ bounds window update exploration = Ok s0 ->
  update <> 0%Z ->
  exists b,
    should_update (record_all s0 evals) = Ok b
    /\ (b = true <-> (update | Z.of_nat (length evals))%Z).
Proof.
  intros Hinit Hu.
  apply online_init_fields in Hinit as (_ & _ & Hupd & _ & _ & Hc).
  destruct (record_all_counts evals s0) as (Hcount & Hint & _).
  rewrite should_update_value by (rewrite Hint, Hupd; exact Hu).
  eexists. split; [reflexivity|].
  rewrite Hcount, Hint, Hc, Hupd, Z.add_0_l, Z.eqb_eq.
  now rewrite Z.mod_divide.
Qed.

Lemma cadence_over_a_run_witness :
  OnlineBayesianOptimizer__init__ Sample.AB 5 2 (1 # 10)
  = Ok (Built.online_AB 5 2)
  /\ 2%Z <> 0%Z
  /\ exists b,
       should_update (record_all (Built.online_AB 5 2) Sample.three) = Ok b
       /\ (b = true <-> (2 | Z.of_nat (length Sample.three))%Z).
Proof.
  split; [reflexivity|]. split; [discriminate|].
  apply (@cadence_over_a_run Sample.AB 5 2 (1 # 10)
           (Built.online_AB 5 2) Sample.three eq_refl).
  discriminate.
Defined.

(** ** The best entry and the statistics *)

Lemma argmax_from_holds_max (a : list Q) :
  forall (p : list Q) (m : Q) (best : nat),
    nth_error p best = Some m ->
    nth_error (p ++ a) (Np.argmax_from m best (length p) a)
    = Some (Np.max_from m a).
Proof.
  induction a as [|x a IH]; intros p m best Hbest.
  - cbn. now rewrite app_nil_r.
  - assert (Hlt : (best < length p)%nat)
      by (apply nth_error_Some; congruence).
    cbn [Np.argmax_from]. unfold Np.max_from. cbn [fold_left].
    replace (p ++ x :: a) with ((p ++ [x]) ++ a)
      by (rewrite <- app_assoc; reflexivity).
    replace (S (length p)) with (length (p ++ [x]))
      by (rewrite length_app; cbn; lia).
    destruct (Qgtb x m).
    + apply IH. rewrite nth_error_app2, Nat.sub_diag by lia. reflexivity.
    + apply IH. now rewrite nth_error_app1.
Qed.

Lemma argmax_points_at_max (a : list Q) (i : nat) (m : Q) :
  Np.argmax a = Ok i -> Np.max a = Ok m -> nth_error a i = Some m.
Proof.
  destruct a as [|x a]; [discriminate|]. cbn. intros Hi Hm.
  inversion Hi; inversion Hm; subst.
  apply (@argmax_from_holds_max a [x] x 0%nat). reflexivity.
Qed.

(** X3: the two reports agree.  Over a non-empty window the weights that
    [get_best_weights] returns were recorded with the score that
    [get_statistics] reports as [best_score]; no recorded score is above it,
    and [n_evaluations] is the length of the window. *)
Theorem best_weights_match_best_score
    (sqrt : Q -> Q) (self : OnlineBayesianOptimizer) :
  evaluation_history self <> [] ->
  exists w s stats,
    get_best_weights self = Ok w
    /\ In (w, s) (evaluation_history self)
    /\ (forall w' s', In (w', s') (evaluation_history self) -> s' <= s)
    /\ get_statistics sqrt self = Ok stats
    /\ dict_get "best_score" stats = Some (Float s)
    /\ dict_get "n_evaluations" stats
       = Some (Int (Z.of_nat (length (evaluation_history self)))).
Proof.
  intros Hne. unfold get_best_weights, get_statistics.
  destruct (evaluation_history self) as [|e h] eqn:E; [congruence|].
  set (scores := map snd (e :: h)).
  assert (Hs : scores <> []) by discriminate.
  destruct (np_max_is_max Hs) as (best & Hmax & [_ Hall]).
  destruct (np_argmax_first Hs) as (i & Hi & Hfirst).
  pose proof (argmax_points_at_max _ Hi Hmax) as Hnth.
  rewrite Hi, Hmax. cbn [bind]. unfold index.
  subst scores. rewrite nth_error_map in Hnth.
  unfold Evaluation, Weights, dict in *.
  destruct (nth_error (e :: h) i) as [[w s]|] eqn:En;
    cbn in Hnth; [|discriminate Hnth].
  injection Hnth as Hsb. cbn [bind fst].
  exists w, s. eexists.
  split; [reflexivity|]. split; [now apply (nth_error_In _ i)|].
  split.
  - intros w' s' Hin. rewrite Forall_forall in Hall. rewrite Hsb.
    apply Hall. now apply (in_map snd) in Hin.
  - split; [reflexivity|]. rewrite Hsb. cbn. split; reflexivity.
Qed.

Lemma best_weights_match_best_score_witness :
  evaluation_history (record_all (Built.online_AB 5 2) Sample.scenario) <> []
  /\ exists w s stats,
       get_best_weights (record_all (Built.online_AB 5 2) Sample.scenario)
       = Ok w
       /\ In (w, s)
             (evaluation_history
                (record_all (Built.online_AB 5 2) Sample.scenario))
       /\ get_statistics (fun x => x)
            (record_all (Built.online_AB 5 2) Sample.scenario) = Ok stats
       /\ dict_get "best_score" stats = Some (Float s).
Proof.
  split; [discriminate|].
  destruct (@best_weights_match_best_score (fun x => x)
              (record_all (Built.online_AB 5 2) Sample.scenario))
    as (w & s & stats & H1 & H2 & _ & H3 & H4 & _);
    [discriminate|].
  exists w, s, stats. auto 10.
Defined.

(** ** The result of a batch run *)

Lemma Qopp_opp_eq (q : Q) : - - q = q.
Proof. destruct q as [n d]. unfold Qopp. cbn. now rewrite Z.opp_involutive. Qed.

Lemma Qltb_opp (x m : Q) : Qltb (- x) (- m) = Qgtb x m.
Proof.
  unfold Qltb, Qgtb. f_equal.
  destruct (Qle_bool x m) eqn:E.
  - apply Qle_bool_iff. apply Qle_bool_iff in E. lra.
  - destruct (Qle_bool (- m) (- x)) eqn:E'; [|reflexivity].
    apply Qle_bool_iff in E'.
    assert (L : x <= m) by lra. apply Qle_bool_iff in L. congruence.
Qed.

Lemma argmin_from_negated (a : list Q) :
  forall m best i,
    Np.argmin_from (- m) best i (map Qopp a) = Np.argmax_from m best i a.
Proof.
  induction a as [|x a IH]; intros m best i; cbn [map Np.argmin_from Np.argmax_from].
  - reflexivity.
  - rewrite Qltb_opp. destruct (Qgtb x m); apply IH.
Qed.

Lemma argmin_negated (a : list Q) : Np.argmin (map Qopp a) = Np.argmax a.
Proof.
  destruct a as [|x a]; [reflexivity|]. cbn [map Np.argmin Np.argmax].
  now rewrite argmin_from_negated.
Qed.

Lemma gp_loop_matches gp_ask self objective_fn cfg (n : nat) :
  forall seen log,
    running_maxima (log_convergence log) (log_scores log) ->
    log_matches self objective_fn seen log ->
    exists seen' log',
      gp_loop gp_ask (wrapped_objective self objective_fn) cfg n seen log
      = Ok (seen', log')
      /\ running_maxima (log_convergence log') (log_scores log')
      /\ log_matches self objective_fn seen' log'
      /\ length (log_scores log') = (length (log_scores log) + n)%nat.
Proof.
  induction n as [|n IH]; intros seen log Hinv Hm; cbn [gp_loop].
  - exists seen, log. split; [reflexivity|]. split; [assumption|].
    split; [assumption | lia].
  - destruct (@wrapped_objective_step self objective_fn (gp_ask cfg seen)
                log Hinv)
      as (log1 & -> & Hs & Hw & Hinv1).
    cbn [bind fst snd].
    set (x := gp_ask cfg seen) in *.
    set (wd := _weights_to_dict self x) in *.
    assert (Hm1 : log_matches self objective_fn
                    (seen ++ [(x, - objective_fn wd)]) log1).
    { destruct Hm as (Hmw & Hms & Hmv). unfold log_matches.
      rewrite Hw, Hs, !map_app, <- Hmw, <- Hms, <- Hmv. cbn. auto. }
    destruct (IH _ log1 Hinv1 Hm1) as (seen' & log' & -> & Hinv' & Hm' & Hl).
    exists seen', log'. split; [reflexivity|]. split; [assumption|].
    split; [assumption|]. rewrite Hl, Hs, length_app. cbn. lia.
Qed.

Lemma optimize_run gp_ask self objective_fn
    (n_calls n_initial_points : Z) acq_func :
  (0 < n_initial_points <= n_calls)%Z ->
  exists res (seen : list (list Q * Q)) i,
    optimize gp_ask self objective_fn n_calls n_initial_points acq_func
    = Ok res
    /\ running_maxima (convergence_history res) (all_scores res)
    /\ all_weights res
       = map (fun xy => _weights_to_dict self (fst xy)) seen
    /\ all_scores res = map objective_fn (all_weights res)
    /\ length (all_scores res) = Z.to_nat n_calls
    /\ n_iterations res = n_calls
    /\ first_argmax (all_scores res) i
    /\ nth_error (all_scores res) i = Some (best_score res)
    /\ nth_error (all_weights res) i = Some (best_weights res).
Proof.
  intros [Hinit Hcalls]. unfold optimize, gp_minimize.
  cbn [gp_n_initial_points gp_n_calls].
  destruct (Z.leb_spec n_initial_points 0) as [?|_]; [lia|].
  destruct (Z.ltb_spec n_calls n_initial_points) as [?|_]; [lia|].
  assert (Hempty : running_maxima (log_convergence empty_log)
                                  (log_scores empty_log)).
  { split; [reflexivity|]. intros [|i] c Hc; discriminate. }
  assert (Hm0 : log_matches self objective_fn [] empty_log)
    by (repeat split).
  match goal with
  | |- context [gp_loop _ _ ?cfg ?n [] empty_log] =>
      destruct (@gp_loop_matches gp_ask self objective_fn cfg n []
                  empty_log Hempty Hm0)
        as (seen & log & -> & Hinv & (Hmw & Hms & Hmv) & Hl)
  end.
  cbn [bind fst snd] in *. cbn in Hl.
  assert (Hne : log_scores log <> []).
  { intros E. rewrite E in Hl. cbn in Hl. lia. }
  rewrite Hmv, argmin_negated.
  destruct (np_argmax_first Hne) as (i & -> & Hfirst). cbn [bind].
  destruct Hfirst as (s & Hsi & Hfirst).
  assert (Hy : nth_error (map snd seen) i = Some (- s))
    by (rewrite Hmv, nth_error_map, Hsi; reflexivity).
  rewrite nth_error_map in Hy. unfold index.
  destruct (nth_error seen i) as [[x y]|] eqn:Ex; [|discriminate Hy].
  cbn in Hy. injection Hy as ->. cbn [bind fst snd].
  eexists. exists seen, i. split; [reflexivity|].
  cbn [convergence_history all_scores all_weights best_score best_weights
       n_iterations res_x res_fun].
  split; [assumption|]. split; [assumption|]. split; [assumption|].
  split; [assumption|]. split; [rewrite Hl; lia|].
  split; [exists s; auto|]. split; [now rewrite Qopp_opp_eq|].
  rewrite Hmw, nth_error_map, Ex. reflexivity.
Qed.

(** X4: the best point of a batch run.  In a run that [gp_minimize]
    accepts, [best_score] is the greatest of [all_scores], it stands at the
    first index where that score occurs, [best_weights] is the entry of
    [all_weights] at that index, the last entry of [convergence_history]
    equals it, and [n_iterations] is [n_calls]. *)
Theorem best_point_of_a_run gp_ask self objective_fn
    (n_calls n_initial_points : Z) acq_func :
  (0 < n_initial_points <= n_calls)%Z ->
  exists res i last,
    optimize gp_ask self objective_fn n_calls n_initial_points acq_func
    = Ok res
    /\ n_iterations res = n_calls
    /\ first_argmax (all_scores res) i
    /\ nth_error (all_scores res) i = Some (best_score res)
    /\ nth_error (all_weights res) i = Some (best_weights res)
    /\ last_item (convergence_history res) = Ok last
    /\ last == best_score res.
Proof.
  intros H.
  destruct (@optimize_run gp_ask self objective_fn n_calls n_initial_points
              acq_func H)
    as (res & seen & i & Hres & Hinv & _ & _ & Hlen & Hn & Hfirst & Hs & Hw).
  assert (Hne : convergence_history res <> []).
  { destruct Hinv as [Hl _]. intros E. rewrite E in Hl. cbn in Hl. lia. }
  destruct (running_maxima_last Hinv Hne) as (last & Hlast & [Hin Hall]).
  exists res, i, last. repeat split; try assumption.
  destruct Hfirst as (m & Hm & Hge & _).
  rewrite Hs in Hm. injection Hm as <-.
  apply Qle_antisym.
  - destruct (In_nth_error _ _ Hin) as [j Hj]. exact (Hge j last Hj).
  - rewrite Forall_forall in Hall. apply Hall. now apply (nth_error_In _ i).
Qed.

Lemma best_point_of_a_run_witness :
  (0 < 1 <= 3)%Z
  /\ exists res i,
       optimize (fun _ seen => [inject_Z (Z.of_nat (length seen)); 1])
         Built.batch_AB
         (fun w => match dict_get "A" w with Some a => a | None => 0 end)
         3 1 "EI" = Ok res
       /\ nth_error (all_scores res) i = Some (best_score res)
       /\ nth_error (all_weights res) i = Some (best_weights res).
Proof.
  split; [lia|].
  destruct (@best_point_of_a_run
              (fun _ seen => [inject_Z (Z.of_nat (length seen)); 1])
              Built.batch_AB
              (fun w => match dict_get "A" w with Some a => a | None => 0 end)
              3 1 "EI")
    as (res & i & last & H & _ & _ & Hs & Hw & _); [lia|].
  exists res, i. auto.
Defined.

Lemma asked_in_turn_snoc gp_ask cfg (seen : list (list Q * Q)) (y : Q) :
  asked_in_turn gp_ask cfg seen ->
  asked_in_turn gp_ask cfg (seen ++ [(gp_ask cfg seen, y)]).
Proof.
  intros H i x y' Hi.
  destruct (Nat.lt_ge_cases i (length seen)) as [Hlt|Hge].
  - rewrite nth_error_app1 in Hi by assumption.
    rewrite firstn_app.
    replace (i - length seen)%nat with 0%nat by lia.
    cbn [firstn]. rewrite app_nil_r. now apply (H i x y').
  - rewrite nth_error_app2 in Hi by assumption.
    destruct (i - length seen)%nat as [|k] eqn:E; cbn in Hi.
    + injection Hi as <- _.
      assert (i = length seen) by lia. subst i.
      rewrite firstn_app, firstn_all, Nat.sub_diag. cbn [firstn].
      now rewrite app_nil_r.
    + destruct k; discriminate Hi.
Qed.

Lemma gp_loop_asks gp_ask (St : Type)
    (func : list Q -> St -> result (Q * St)) cfg (n : nat) :
  forall seen st seen' st',
    gp_loop gp_ask func cfg n seen st = Ok (seen', st') ->
    asked_in_turn gp_ask cfg seen ->
    asked_in_turn gp_ask cfg seen'.
Proof.
  induction n as [|n IH]; intros seen st seen' st' Hrun Hasked;
    cbn [gp_loop] in Hrun.
  - injection Hrun as <- _. exact Hasked.
  - destruct (func (gp_ask cfg seen) st) as [[y st1]|e]; [|discriminate Hrun].
    cbn [bind fst snd] in Hrun.
    apply (IH _ _ _ _ Hrun). now apply asked_in_turn_snoc.
Qed.

(** X5: what the objective saw is what the run reports.  In a run that
    [gp_minimize] accepts, the library asks for [n_calls] points in turn,
    each chosen from the points and values before it; [all_weights] holds,
    in that order, the dictionary [_weights_to_dict] builds from each of
    those points; the score at each index is the objective at the weights of
    that index; and the value handed back to the library for each point is
    that score negated. *)
Theorem scores_belong_to_weights gp_ask self objective_fn
    (n_calls n_initial_points : Z) acq_func :
  (0 < n_initial_points <= n_calls)%Z ->
  exists res (seen : list (list Q * Q)),
    optimize gp_ask self objective_fn n_calls n_initial_points acq_func
    = Ok res
    /\ length seen = Z.to_nat n_calls
    /\ asked_in_turn gp_ask
         {| gp_dimensions := dimensions self;
            gp_n_calls := n_calls;
            gp_n_initial_points := n_initial_points;
            gp_acq_func := acq_func;
            gp_random_state := random_state self |} seen
    /\ all_weights res = map (fun xy => _weights_to_dict self (fst xy)) seen
    /\ all_scores res = map objective_fn (all_weights res)
    /\ map snd seen = map Qopp (all_scores res).
Proof.
  intros [Hinit Hcalls]. unfold optimize, gp_minimize.
  cbn [gp_n_initial_points gp_n_calls].
  destruct (Z.leb_spec n_initial_points 0) as [?|_]; [lia|].
  destruct (Z.ltb_spec n_calls n_initial_points) as [?|_]; [lia|].
  assert (Hempty : running_maxima (log_convergence empty_log)
                                  (log_scores empty_log)).
  { split; [reflexivity|]. intros [|i] c Hc; discriminate. }
  assert (Hm0 : log_matches self objective_fn [] empty_log)
    by (repeat split).
  match goal with
  | |- context [gp_loop _ _ ?cfg ?n [] empty_log] =>
      destruct (@gp_loop_matches gp_ask self objective_fn cfg n []
                  empty_log Hempty Hm0)
        as (seen & log & Hrun & Hinv & (Hmw & Hms & Hmv) & Hl);
      pose proof (@gp_loop_asks gp_ask _ _ cfg n [] empty_log seen log Hrun)
        as Hasked;
      rewrite Hrun
  end.
  cbn [bind fst snd] in *. cbn in Hl.
  assert (Hne : log_scores log <> []).
  { intros E. rewrite E in Hl. cbn in Hl. lia. }
  rewrite Hmv, argmin_negated.
  destruct (np_argmax_first Hne) as (i & -> & Hfirst). cbn [bind].
  destruct Hfirst as (s & Hsi & Hfirst).
  assert (Hy : nth_error (map snd seen) i = Some (- s))
    by (rewrite Hmv, nth_error_map, Hsi; reflexivity).
  rewrite nth_error_map in Hy. unfold index.
  destruct (nth_error seen i) as [[x y]|] eqn:Ex; [|discriminate Hy].
  cbn [bind fst snd].
  eexists. exists seen. split; [reflexivity|].
  cbn [all_scores all_weights].
  split.
  { apply (f_equal (@length _)) in Hmv. rewrite !length_map in Hmv.
    rewrite Hmv, Hl. reflexivity. }
  split.
  { apply Hasked. intros [|j] x' y' Hj; discriminate Hj. }
  split; [assumption|]. split; assumption.
Qed.

Lemma scores_belong_to_weights_witness :
  (0 < 1 <= 3)%Z
  /\ exists res (seen : list (list Q * Q)),
       optimize (fun _ seen => [inject_Z (Z.of_nat (length seen)); 1])
         Built.batch_AB
         (fun w => match dict_get "A" w with Some a => a | None => 0 end)
         3 1 "EI" = Ok res
       /\ length seen = 3%nat
       /\ all_weights res
          = map (fun xy => _weights_to_dict Built.batch_AB (fst xy)) seen
       /\ all_scores res
          = map (fun w => match dict_get "A" w with Some a => a | None => 0 end)
                (all_weights res).
Proof.
  split; [lia|].
  destruct (@scores_belong_to_weights
              (fun _ seen => [inject_Z (Z.of_nat (length seen)); 1])
              Built.batch_AB
              (fun w => match dict_get "A" w with Some a => a | None => 0 end)
              3 1 "EI")
    as (res & seen & H & Hl & _ & Hw & Hs & _); [lia|].
  exists res, seen. auto.
Defined.

Lemma in_firstn {A} (n : nat) (l : list A) (x : A) :
  In x (firstn n l) -> In x l.
Proof.
  intros H. rewrite <- (firstn_skipn n l). apply in_or_app. now left.
Qed.

(** X6: infeasible points cost the penalty and are never evaluated.  In a
    constrained run that [gp_minimize] accepts, the score logged for a
    weight vector is the penalty when the predicate rejects it and the
    objective otherwise; when the predicate rejects everything, every score,
    every entry of the convergence history and the best score are the
    penalty. *)
Theorem infeasible_points_score_the_penalty gp_ask self objective_fn
    (feasible : Weights -> bool) (n_calls n_initial_points : Z) (penalty : Q) :
  (0 < n_initial_points <= n_calls)%Z ->
  exists res,
    optimize_with_constraints gp_ask self objective_fn (Some feasible)
      n_calls n_initial_points penalty = Ok res
    /\ all_scores res
       = map (fun w => if feasible w then objective_fn w else penalty)
             (all_weights res)
    /\ ((forall w, feasible w = false) ->
        Forall (eq penalty) (all_scores res)
        /\ Forall (eq penalty) (convergence_history res)
        /\ best_score res = penalty).
Proof.
  intros H. unfold optimize_with_constraints.
  match goal with
  | |- context [optimize _ _ ?f _ _ _] =>
      destruct (@optimize_run gp_ask self f n_calls n_initial_points "EI" H)
        as (res & seen & i & Hres & [_ Hinv] & _ & Hs & _ & _ & _ & Hb & _)
  end.
  exists res. split; [assumption|]. split.
  - rewrite Hs at 1. apply map_ext. intros w. now destruct (feasible w).
  - intros Hnone.
    assert (Hall : Forall (eq penalty) (all_scores res)).
    { rewrite Hs. apply Forall_map, Forall_forall. intros w _.
      now rewrite Hnone. }
    split; [assumption|]. rewrite Forall_forall in Hall. split.
    + apply Forall_forall. intros c Hc.
      destruct (In_nth_error _ _ Hc) as [j Hj].
      destruct (Hinv j c Hj) as [Hin _].
      apply Hall. now apply (in_firstn (S j)).
    + symmetry. apply Hall. now apply (nth_error_In _ i).
Qed.

Lemma infeasible_points_score_the_penalty_witness :
  (0 < 1 <= 3)%Z
  /\ exists res,
       optimize_with_constraints
         (fun _ seen => [inject_Z (Z.of_nat (length seen)); 1])
         Built.batch_AB (fun _ => 7) (Some (fun _ => false)) 3 1 (-1000)
       = Ok res
       /\ Forall (eq (-1000)) (all_scores res)
       /\ best_score res = -1000.
Proof.
  split; [lia|].
  destruct (@infeasible_points_score_the_penalty
              (fun _ seen => [inject_Z (Z.of_nat (length seen)); 1])
              Built.batch_AB (fun _ => 7) (fun _ => false) 3 1 (-1000))
    as (res & H & _ & Hnone); [lia|].
  destruct (Hnone (fun _ => eq_refl)) as (Hs & _ & Hb).
  exists res. auto.
Defined.

(** ** Feature importance *)

(** X7: importance without data.  Below five evaluated points
    [get_feature_importance] never raises and never looks at the points: it
    gives every signal the score [1/n], and over distinct signal ids the
    scores have one entry per signal and, when there is a signal, sum to 1. *)
Theorem importance_without_data
    (fitted : list (list Q) -> list Q -> result (list Q))
    (self : BayesianOptimizer) (points : list Evaluation) :
  (length points < 5)%nat ->
  exists d,
    get_feature_importance fitted self points = Ok d
    /\ (forall id v, In (id, v) d ->
                     In id (signal_ids self)
                     /\ v = 1 / len (signal_ids self))
    /\ (NoDup (signal_ids self) ->
        keys d = signal_ids self
        /\ (signal_ids self <> [] -> Np.sum (values d) == 1)).
Proof.
  intros Hlen. unfold get_feature_importance.
  destruct (Nat.ltb_spec (length points) 5) as [_|?]; [|lia].
  eexists. split; [reflexivity|]. split.
  - intros id v Hin. apply dict_of_In, in_map_iff in Hin.
    destruct Hin as (s & E & Hs). inversion E; subst. auto.
  - intros Hnd. rewrite dict_of_nodup
      by (rewrite map_map; cbn; now rewrite map_id).
    unfold keys, values. rewrite !map_map. cbn [fst snd].
    split; [apply map_id|].
    intros Hne. rewrite sum_constant. pose proof (len_pos Hne). field. lra.
Qed.

Lemma importance_without_data_witness :
  (length Sample.scenario < 5)%nat
  /\ exists d,
       get_feature_importance (fun _ _ => Ok []) Built.batch_AB Sample.scenario
       = Ok d
       /\ keys d = signal_ids Built.batch_AB
       /\ Np.sum (values d) == 1.
Proof.
  split; [cbn; lia|].
  destruct (@importance_without_data (fun _ _ => Ok []) Built.batch_AB
              Sample.scenario)
    as (d & H & _ & Hd); [cbn; lia|].
  assert (Hnd : NoDup (signal_ids Built.batch_AB)).
  { cbn. repeat constructor; cbn; intuition discriminate. }
  destruct (Hd Hnd) as [Hk Hs].
  exists d. split; [assumption|]. split; [assumption|].
  apply Hs. discriminate.
Defined.

Lemma sum_positive (l : list Q) :
  l <> [] -> Forall (fun x => 0 < x) l -> 0 < Np.sum l.
Proof.
  intros Hne Hall. induction Hall as [|x l Hx Hall IH]; [congruence|].
  rewrite sum_cons. destruct l as [|y l].
  - unfold Np.sum. cbn. lra.
  - assert (0 < Np.sum (y :: l)) by (apply IH; discriminate). lra.
Qed.

Lemma reciprocal_positive (a : Q) : 0 < a -> 0 < 1 / a.
Proof.
  intros H. unfold Qdiv. rewrite Qmult_1_l. now apply Qinv_lt_0_compat.
Qed.

Lemma reciprocal_antitone (a b : Q) : 0 < a -> a <= b -> 1 / b <= 1 / a.
Proof.
  intros Ha Hab. unfold Qdiv. rewrite !Qmult_1_l.
  apply Qle_shift_inv_l; [assumption|].
  assert (Hb : 0 < b) by lra.
  assert (E : / b * a == a / b) by (field; lra). rewrite E.
  apply Qle_shift_div_r; [assumption | lra].
Qed.

Lemma quotient_monotone (x y s : Q) : 0 < s -> x <= y -> x / s <= y / s.
Proof.
  intros Hs Hxy. unfold Qdiv. apply Qmult_le_compat_r; [assumption|].
  apply Qlt_le_weak. now apply Qinv_lt_0_compat.
Qed.

(** X8: importance from a fitted kernel.  With five or more evaluated
    points that name every signal and a fit that returns, the answer depends
    on the number of signals.  With a single signal the call raises
    [TypeError]: the length scale of the fitted kernel is a number, which
    [zip] cannot iterate.  With two or more signals of distinct ids and one
    positive length scale per signal, the call returns one positive score
    per signal, and a signal with a shorter length scale gets a score at
    least as great. *)
Theorem importance_from_length_scales
    (fitted : list (list Q) -> list Q -> result (list Q))
    (self : BayesianOptimizer) (points : list Evaluation) X ls :
  (5 <= length points)%nat ->
  design_matrix self points = Ok X ->
  fitted X (map snd points) = Ok ls ->
  (length (signal_ids self) = 1%nat ->
   get_feature_importance fitted self points = Raise TypeError)
  /\ ((2 <= length (signal_ids self))%nat ->
      NoDup (signal_ids self) ->
      length ls = length (signal_ids self) ->
      Forall (fun l => 0 < l) ls ->
      exists d,
        get_feature_importance fitted self points = Ok d
        /\ keys d = signal_ids self
        /\ Forall (fun v => 0 < v) (values d)
        /\ (forall i j li lj vi vj,
              nth_error ls i = Some li ->
              nth_error ls j = Some lj ->
              nth_error (values d) i = Some vi ->
              nth_error (values d) j = Some vj ->
              li <= lj -> vj <= vi)).
Proof.
  intros Hlen HX Hfit. unfold get_feature_importance.
  destruct (Nat.ltb_spec (length points) 5) as [?|_]; [lia|].
  rewrite HX. cbn [bind]. rewrite Hfit. cbn [bind]. split.
  - intros ->. reflexivity.
  - intros Hn Hnd Hshape Hpos.
    destruct (Nat.leb_spec (length (signal_ids self)) 1) as [?|_]; [lia|].
    set (raw := map (fun l => 1 / (l + epsilon)) ls).
    assert (Heps : 0 < epsilon) by reflexivity.
    assert (Hraw : Forall (fun v => 0 < v) raw).
    { subst raw. apply Forall_map. revert Hpos. apply Forall_impl.
      intros l Hl. apply reciprocal_positive. lra. }
    assert (Hrawne : raw <> []).
    { subst raw. intros E. apply (f_equal (@length _)) in E.
      rewrite length_map, Hshape in E. cbn in E. lia. }
    pose proof (sum_positive Hrawne Hraw) as Hsum.
    assert (Hl : length (signal_ids self)
                 = length (Np.div_scalar raw (Np.sum raw))).
    { unfold Np.div_scalar. subst raw. now rewrite !length_map. }
    eexists. split; [reflexivity|].
    rewrite dict_of_nodup by (now rewrite combine_fst).
    unfold keys, values. rewrite combine_fst, combine_snd by assumption.
    split; [reflexivity|]. split.
    + unfold Np.div_scalar. apply Forall_map. revert Hraw. apply Forall_impl.
      intros v Hv. unfold Qdiv. apply Qmult_lt_0_compat; [assumption|].
      now apply Qinv_lt_0_compat.
    + intros i j li lj vi vj Hli Hlj Hvi Hvj Hle.
      unfold Np.div_scalar in Hvi, Hvj. subst raw.
      rewrite !nth_error_map in Hvi, Hvj.
      rewrite Hli in Hvi. rewrite Hlj in Hvj.
      cbn in Hvi, Hvj. injection Hvi as <-. injection Hvj as <-.
      apply quotient_monotone; [assumption|].
      rewrite Forall_forall in Hpos.
      pose proof (Hpos li (nth_error_In _ _ Hli)).
      apply reciprocal_antitone; lra.
Qed.

Lemma importance_from_length_scales_witness :
  (5 <= length Cases.five)%nat
  /\ design_matrix Built.batch_AB Cases.five = Ok Cases.five_rows
  /\ Cases.two_scales Cases.five_rows (map snd Cases.five) = Ok [1; 2]
  /\ (exists d,
        get_feature_importance Cases.two_scales Built.batch_AB Cases.five
        = Ok d
        /\ keys d = signal_ids Built.batch_AB)
  /\ get_feature_importance Cases.two_scales Cases.lone Cases.five_lone
     = Raise TypeError.
Proof.
  assert (Hnd : NoDup (signal_ids Built.batch_AB)).
  { cbn. repeat constructor; cbn; intuition discriminate. }
  assert (Hpos : Forall (fun l : Q => 0 < l) [1; 2]).
  { repeat constructor. }
  split; [cbn; lia|]. split; [reflexivity|]. split; [reflexivity|].
  split.
  - destruct (@importance_from_length_scales Cases.two_scales Built.batch_AB
                Cases.five Cases.five_rows [1; 2])
      as [_ H]; [cbn; lia | reflexivity | reflexivity |].
    destruct H as (d & H & Hk & _);
      [cbn; lia | exact Hnd | reflexivity | exact Hpos |].
    exists d. auto.
  - destruct (@importance_from_length_scales Cases.two_scales Cases.lone
                Cases.five_lone [[1]; [1]; [1]; [1]; [1]] [1; 2])
      as [H _]; [cbn; lia | reflexivity | reflexivity |].
    apply H. reflexivity.
Defined.

(** ** Missing keys *)

Lemma row_result (w : Weights) (ids : list string) :
  (exists row, for_each (dict_item w) ids = Ok row)
  \/ (exists k, for_each (dict_item w) ids = Raise (KeyError k)
                /\ In k ids /\ dict_get k w = None).
Proof.
  induction ids as [|id ids IH]; cbn [for_each].
  - left. now exists [].
  - unfold dict_item at 1 3. destruct (dict_get id w) as [v|] eqn:E; cbn [bind].
    + destruct IH as [[row ->]|(k & -> & Hk & Hnone)]; cbn [bind].
      * left. eexists. reflexivity.
      * right. exists k. split; [reflexivity|]. split; [now right | assumption].
    + right. exists id. split; [reflexivity|]. split; [now left | assumption].
Qed.

Lemma row_present (w : Weights) (ids : list string) row :
  for_each (dict_item w) ids = Ok row ->
  forall id, In id ids -> dict_get id w <> None.
Proof.
  revert row. induction ids as [|id0 ids IH]; intros row H id Hin.
  - destruct Hin.
  - cbn [for_each] in H. unfold dict_item at 1 in H.
    destruct (dict_get id0 w) as [v|] eqn:E; [|discriminate H].
    cbn [bind] in H.
    destruct (for_each (dict_item w) ids) as [row'|e] eqn:E'; [|discriminate H].
    destruct Hin as [<-|Hin]; [congruence|]. now apply (IH row').
Qed.

Lemma design_matrix_missing_key (self : BayesianOptimizer)
    (points : list Evaluation) :
  (exists p id, In p points /\ In id (signal_ids self)
                /\ dict_get id (fst p) = None) ->
  exists k p,
    design_matrix self points = Raise (KeyError k)
    /\ In p points /\ In k (signal_ids self) /\ dict_get k (fst p) = None.
Proof.
  unfold design_matrix, Evaluation, Weights in *.
  induction points as [|p0 points IH]; intros (p & id & Hp & Hid & Hnone).
  - destruct Hp.
  - cbn [for_each]. cbv beta.
    destruct (row_result (fst p0) (signal_ids self))
      as [[row Hrow]|(k & Hrow & Hk & Hknone)]; rewrite Hrow; cbn [bind].
    + destruct Hp as [->|Hp].
      * exfalso. now apply (row_present _ _ Hrow id).
      * destruct IH as (k & q & -> & Hq & Hk & Hknone);
          [now exists p, id|].
        exists k, q. cbn [bind]. split; [reflexivity|].
        split; [now right | auto].
    + exists k, p0. split; [reflexivity|]. split; [now left | auto].
Qed.

(** X9: a missing key.  When some evaluated point does not give a weight
    for some signal, both model-fitting paths raise [KeyError] on a signal id
    that a point lacks: [suggest_next] with three or more points, before it
    draws any random number, and [get_feature_importance] with five or
    more. *)
Theorem missing_signal_raises_key_error
    (cdf pdf : Q -> Q)
    (gp : list (list Q) -> list Q -> list (list Q) -> list Q * list Q)
    (fitted : list (list Q) -> list Q -> result (list Q))
    (self : BayesianOptimizer) (points : list Evaluation)
    (n : Z) (rs : Np.RandomState) :
  (exists p id, In p points /\ In id (signal_ids self)
                /\ dict_get id (fst p) = None) ->
  exists k p,
    In p points /\ In k (signal_ids self) /\ dict_get k (fst p) = None
    /\ ((3 <= length points)%nat ->
        suggest_next cdf pdf gp self points n rs = (Raise (KeyError k), rs))
    /\ ((5 <= length points)%nat ->
        get_feature_importance fitted self points = Raise (KeyError k)).
Proof.
  intros Hmiss.
  destruct (design_matrix_missing_key self points Hmiss)
    as (k & p & HX & Hp & Hk & Hnone).
  exists k, p. repeat split; try assumption.
  - intros Hlen. unfold suggest_next.
    destruct (Nat.ltb_spec (length points) 3) as [?|_]; [lia|].
    now rewrite HX.
  - intros Hlen. unfold get_feature_importance.
    destruct (Nat.ltb_spec (length points) 5) as [?|_]; [lia|].
    now rewrite HX.
Qed.

Lemma missing_signal_raises_key_error_witness :
  (exists p id, In p Cases.lacking /\ In id (signal_ids Built.batch_AB)
                /\ dict_get id (fst p) = None)
  /\ exists k,
       suggest_next (fun z => z) (fun z => z) Sample.flat_gp Built.batch_AB
         Cases.lacking 1 Sample.halves
       = (Raise (KeyError k), Sample.halves).
Proof.
  assert (Hmiss : exists p id,
             In p Cases.lacking /\ In id (signal_ids Built.batch_AB)
             /\ dict_get id (fst p) = None).
  { exists ([("A"%string, 1)], 2), "B"%string.
    split; [right; right; now left|]. split; [right; now left | reflexivity]. }
  split; [exact Hmiss|].
  destruct (@missing_signal_raises_key_error (fun z => z) (fun z => z)
              Sample.flat_gp (fun _ _ => Ok []) Built.batch_AB Cases.lacking 1
              Sample.halves Hmiss)
    as (k & p & _ & _ & _ & H3 & _).
  exists k. apply H3. cbn. lia.
Defined.

(** ** The cold start *)

Lemma random_point_draws (bounds : list SignalBounds) :
  forall rs,
    length (fst (random_point bounds rs)) = length bounds
    /\ Np.cursor (snd (random_point bounds rs))
       = (Np.cursor rs + length bounds)%nat
    /\ Np.stream (snd (random_point bounds rs)) = Np.stream rs.
Proof.
  induction bounds as [|s bounds IH]; intros rs; cbn [random_point].
  - cbn. repeat split. lia.
  - unfold Np.uniform, Np.random_sample.
    match goal with
    | |- context [random_point bounds ?r] =>
        destruct (IH r) as (Hl & Hc & Hs);
        destruct (random_point bounds r) as [ws rs2]
    end.
    cbn [fst snd length Np.cursor Np.stream] in *.
    repeat split; [lia | lia | assumption].
Qed.

Lemma random_suggestions_draws (self : BayesianOptimizer) (n : nat) :
  forall rs,
    length (fst (random_suggestions self n rs)) = n
    /\ Np.cursor (snd (random_suggestions self n rs))
       = (Np.cursor rs + n * length (signal_bounds self))%nat
    /\ Np.stream (snd (random_suggestions self n rs)) = Np.stream rs.
Proof.
  induction n as [|n IH]; intros rs; cbn [random_suggestions].
  - cbn. repeat split. lia.
  - destruct (random_point_draws (signal_bounds self) rs) as (_ & Hc1 & Hs1).
    destruct (random_point (signal_bounds self) rs) as [p rs1].
    cbn [fst snd] in Hc1, Hs1.
    destruct (IH rs1) as (Hl & Hc & Hs).
    destruct (random_suggestions self n rs1) as [ws rs2].
    cbn [fst snd length] in *.
    repeat split; [lia | lia | congruence].
Qed.

(** X10: the cold start.  Below three evaluated points [suggest_next]
    never raises and returns exactly [n_suggestions] dictionaries (none for a
    negative number); it takes exactly one draw per signal and suggestion
    from the random source; and its answer does not depend on the evaluated
    points it was given. *)
Theorem cold_start_draws
    (cdf pdf : Q -> Q)
    (gp : list (list Q) -> list Q -> list (list Q) -> list Q * list Q)
    (self : BayesianOptimizer) (points : list Evaluation)
    (n : Z) (rs : Np.RandomState) :
  (length points < 3)%nat ->
  exists ws rs',
    suggest_next cdf pdf gp self points n rs = (Ok ws, rs')
    /\ length ws = Z.to_nat n
    /\ Np.cursor rs'
       = (Np.cursor rs + Z.to_nat n * length (signal_bounds self))%nat
    /\ Np.stream rs' = Np.stream rs
    /\ (forall points' : list Evaluation,
          (length points' < 3)%nat ->
          suggest_next cdf pdf gp self points' n rs = (Ok ws, rs')).
Proof.
  intros Hlen. unfold suggest_next.
  destruct (Nat.ltb_spec (length points) 3) as [_|?]; [|lia].
  destruct (random_suggestions_draws self (Z.to_nat n) rs) as (Hl & Hc & Hs).
  destruct (random_suggestions self (Z.to_nat n) rs) as [ws rs'].
  cbn [fst snd] in *.
  exists ws, rs'. repeat split; try assumption.
  intros points' Hlen'.
  destruct (Nat.ltb_spec (length points') 3) as [_|?]; [reflexivity | lia].
Qed.

Lemma cold_start_draws_witness :
  (length Sample.scenario < 3)%nat
  /\ exists ws rs',
       suggest_next (fun z => z) (fun z => z) Sample.flat_gp Built.batch_AB
         Sample.scenario 3 Sample.halves = (Ok ws, rs')
       /\ length ws = 3%nat
       /\ Np.cursor rs' = 6%nat.
Proof.
  split; [cbn; lia|].
  destruct (@cold_start_draws (fun z => z) (fun z => z) Sample.flat_gp
              Built.batch_AB Sample.scenario 3 Sample.halves)
    as (ws & rs' & H & Hl & Hc & _); [cbn; lia|].
  exists ws, rs'. split; [assumption|]. split; [exact Hl | exact Hc].
Defined.

(** ** The next weights of a young session *)

(** X11: a session with fewer than five evaluations in its window.  For
    an optimizer [__init__] built and draws in the unit interval,
    [get_next_weights] never raises and never consults the surrogate: it
    returns either [current_weights] unchanged or the dictionary of a point
    drawn inside the declared intervals; with an [exploration_rate] of zero
    or less it always returns [current_weights], and with a rate of one or
    more it always returns a drawn point. *)
Theorem young_session_next_weights
    (cdf pdf : Q -> Q)
    (gp : list (list Q) -> list Q -> list (list Q) -> list Q * list Q)
    bounds normalize seed (self : OnlineBayesianOptimizer)
    (rs : Np.RandomState) :
  BayesianOptimizer__init__ bounds normalize seed = Ok (optimizer self) ->
  (length (evaluation_history self) < 5)%nat ->
  unit_draws rs ->
  exists w rs',
    get_next_weights cdf pdf gp self rs = (Ok w, rs')
    /\ (w = current_weights self
        \/ exists p, Forall2 within bounds p
                     /\ w = _weights_to_dict (optimizer self) p)
    /\ (exploration_rate self <= 0 -> w = current_weights self)
    /\ (1 <= exploration_rate self ->
        exists p, Forall2 within bounds p
                  /\ w = _weights_to_dict (optimizer self) p).
Proof.
  intros Hinit Hlen Hu.
  pose proof (batch_init_fields _ _ _ Hinit) as (Hb & _ & _ & Hvalid).
  unfold get_next_weights, Np.random_sample.
  destruct (Hu (Np.cursor rs)) as [H0 H1].
  set (u := Np.stream rs (Np.cursor rs)) in *.
  set (rs1 := {| Np.stream := Np.stream rs; Np.cursor := S (Np.cursor rs) |}).
  assert (Hu1 : unit_draws rs1) by exact Hu.
  destruct (Qltb u (exploration_rate self)) eqn:E.
  - apply Qltb_true in E. unfold suggest_next. cbn [length Nat.ltb Nat.leb].
    change (Z.to_nat 1) with 1%nat. cbn [random_suggestions]. rewrite Hb.
    destruct (@random_point_within bounds rs1 Hu1 Hvalid) as [Hp _].
    destruct (random_point bounds rs1) as [p rs2]. cbn [fst] in Hp.
    cbn [bind index nth_error].
    do 2 eexists. split; [reflexivity|].
    split; [right; now exists p|]. split; [intros; lra|].
    intros _. now exists p.
  - apply Qltb_false in E.
    destruct (Nat.ltb_spec (length (evaluation_history self)) 5) as [_|?];
      [|lia].
    do 2 eexists. split; [reflexivity|]. split; [now left|].
    split; [reflexivity|]. intros; lra.
Qed.

Lemma young_session_next_weights_witness :
  BayesianOptimizer__init__ Sample.AB true 42
  = Ok (optimizer (Built.online_AB 5 2))
  /\ (length (evaluation_history (Built.online_AB 5 2)) < 5)%nat
  /\ unit_draws Sample.halves
  /\ exists w rs',
       get_next_weights (fun z => z) (fun z => z) Sample.flat_gp
         (Built.online_AB 5 2) Sample.halves = (Ok w, rs').
Proof.
  assert (Hu : unit_draws Sample.halves) by (intros i; cbn; lra).
  split; [reflexivity|]. split; [cbn; lia|]. split; [exact Hu|].
  destruct (@young_session_next_weights (fun z => z) (fun z => z)
              Sample.flat_gp Sample.AB true 42 (Built.online_AB 5 2)
              Sample.halves eq_refl (Nat.lt_0_succ 4) Hu)
    as (w & rs' & H & _).
  exists w, rs'. exact H.
Defined.

(** ** The registry of sessions *)

Lemma keys_set_present {V} (k : string) (v : V) (d : dict V) :
  dict_get k d <> None -> keys (dict_set k v d) = keys d.
Proof.
  induction d as [|[k' v'] d IH]; cbn; intros H.
  - congruence.
  - destruct (String.eqb k k'); cbn; [reflexivity|]. f_equal. now apply IH.
Qed.

Lemma well_keyed_set {V} (k : string) (v : V) (d : dict V) :
  well_keyed d -> well_keyed (dict_set k v d).
Proof.
  unfold well_keyed. intros H.
  destruct (dict_get k d) as [v0|] eqn:E.
  - rewrite keys_set_present by congruence. exact H.
  - apply dict_get_absent in E. rewrite dict_set_fresh by assumption.
    unfold keys in *. rewrite map_app. cbn.
    apply (NoDup_Add (a := k) (l := map fst d)).
    + clear. induction (map fst d) as [|x l IH]; cbn; constructor; exact IH.
    + split; assumption.
Qed.

Lemma dict_get_del_other {V} (k k' : string) (d : dict V) :
  k' <> k -> dict_get k' (dict_del k d) = dict_get k' d.
Proof.
  intros Hne. induction d as [|[k0 v0] d IH]; cbn; [reflexivity|].
  destruct (String.eqb_spec k k0) as [->|Hk]; cbn.
  - destruct (String.eqb_spec k' k0); [contradiction | reflexivity].
  - destruct (String.eqb k' k0); [reflexivity | exact IH].
Qed.

Lemma keys_del_subset {V} (k x : string) (d : dict V) :
  In x (keys (dict_del k d)) -> In x (keys d).
Proof.
  induction d as [|[k0 v0] d IH]; cbn; [auto|].
  destruct (String.eqb k k0); cbn; [now right|].
  intros [H|H]; [now left | right; now apply IH].
Qed.

Lemma well_keyed_del {V} (k : string) (d : dict V) :
  well_keyed d -> well_keyed (dict_del k d).
Proof.
  unfold well_keyed. induction d as [|[k0 v0] d IH]; cbn; intros H.
  - constructor.
  - inversion H as [|? ? Hnotin Hnd]; subst.
    destruct (String.eqb k k0); cbn; [assumption|].
    constructor; [|now apply IH].
    intros Hin. apply Hnotin. now apply (keys_del_subset k).
Qed.

Lemma dict_get_del_same {V} (k : string) (d : dict V) :
  well_keyed d -> dict_get k (dict_del k d) = None.
Proof.
  unfold well_keyed. induction d as [|[k0 v0] d IH]; cbn; intros H.
  - reflexivity.
  - inversion H as [|? ? Hnotin Hnd]; subst.
    destruct (String.eqb_spec k k0) as [->|Hk]; cbn.
    + now apply dict_get_absent.
    + destruct (String.eqb_spec k k0); [contradiction | now apply IH].
Qed.

Lemma dict_del_set_fresh {V} (k : string) (v : V) (d : dict V) :
  dict_get k d = None -> dict_del k (dict_set k v d) = d.
Proof.
  induction d as [|[k0 v0] d IH]; cbn.
  - intros _. now rewrite String.eqb_refl.
  - destruct (String.eqb k k0) eqn:E; [discriminate|].
    intros H. cbn. rewrite E. f_equal. now apply IH.
Qed.

(** X12: a created session is found.  After a request whose intervals all
    have their lower end below the upper end, the registry maps the new id to
    a session with no evaluation, every other id is looked up as before, the
    registry still has one entry per id, and the best-weights handler answers
    for the new id with the initial weights and the statistics of an empty
    window. *)
Theorem created_session_is_found
    (sqrt : Q -> Q) (request : OptimizeRequest) (uuid4 : string)
    (registry : Registry) :
  (forall b, In b (rq_signal_bounds request) ->
             rq_min_weight b < rq_max_weight b) ->
  exists rsp session registry',
    create_optimizer request uuid4 registry = (Ok rsp, registry')
    /\ dict_get uuid4 registry' = Some session
    /\ evaluation_count session = 0%Z
    /\ evaluation_history session = []
    /\ (forall other, other <> uuid4 ->
                      dict_get other registry' = dict_get other registry)
    /\ (well_keyed registry -> well_keyed registry')
    /\ Server.get_best_weights sqrt uuid4 registry'
       = Server.Reply
           {| Server.rsp_best_weights :=
                initial_weights (request_bounds request);
              Server.best_statistics :=
                [("n_evaluations", Int 0); ("best_score", None_);
                 ("avg_score", None_); ("score_std", None_)]%string |}.
Proof.
  intros Hok. unfold create_optimizer.
  destruct (online_init_result (request_bounds request) 100 10 (1 # 10))
    as [[_ [s0 Hs0]]|[Hex _]].
  - rewrite Hs0.
    apply online_init_fields in Hs0 as (_ & _ & _ & Hh & Hc & Hn).
    do 2 eexists. exists (dict_set uuid4 s0 registry).
    split; [reflexivity|]. split; [apply dict_get_set_same|].
    split; [assumption|]. split; [assumption|].
    split; [intros other Hne; now apply dict_get_set_other|].
    split; [apply well_keyed_set|].
    unfold Server.get_best_weights. rewrite dict_get_set_same.
    unfold get_best_weights, get_statistics. now rewrite Hh, Hc.
  - exfalso. unfold request_bounds in Hex.
    rewrite Exists_map, Exists_exists in Hex.
    destruct Hex as (b & Hb & Hbad). specialize (Hok b Hb). cbn in Hbad. lra.
Qed.

Lemma created_session_is_found_witness :
  (forall b, In b (rq_signal_bounds (Sample.request Sample.AB)) ->
             rq_min_weight b < rq_max_weight b)
  /\ exists rsp session registry',
       create_optimizer (Sample.request Sample.AB) "u" [] = (Ok rsp, registry')
       /\ dict_get "u" registry' = Some session
       /\ evaluation_count session = 0%Z.
Proof.
  assert (Hok : forall b, In b (rq_signal_bounds (Sample.request Sample.AB)) ->
                          rq_min_weight b < rq_max_weight b).
  { intros b [<-|[<-|[]]]; reflexivity. }
  split; [exact Hok|].
  destruct (@created_session_is_found (fun x => x)
              (Sample.request Sample.AB) "u" [] Hok)
    as (rsp & session & registry' & H & Hg & Hc & _).
  exists rsp, session, registry'. auto.
Defined.

(** X13: deleting a session.  On a registry with one entry per id,
    deleting an unknown id answers 404 and changes nothing; deleting a known
    id removes exactly that id; and creating a session under an unused id and
    deleting it again gives back the registry as it was. *)
Theorem delete_removes_one_session
    (optimizer_id : string) (registry : Registry) :
  well_keyed registry ->
  (dict_get optimizer_id registry = None ->
   Server.delete_optimizer optimizer_id registry
   = (Server.HTTPException 404 "Optimizer not found", registry)
   /\ forall request rsp registry',
        create_optimizer request optimizer_id registry = (Ok rsp, registry') ->
        Server.delete_optimizer optimizer_id registry'
        = (Server.Reply true, registry))
  /\ (dict_get optimizer_id registry <> None ->
      exists registry',
        Server.delete_optimizer optimizer_id registry
        = (Server.Reply true, registry')
        /\ dict_get optimizer_id registry' = None
        /\ (forall other, other <> optimizer_id ->
                          dict_get other registry' = dict_get other registry)
        /\ well_keyed registry').
Proof.
  intros Hwk. unfold Server.delete_optimizer. split.
  - intros Hnone. rewrite Hnone. split; [reflexivity|].
    intros request rsp registry' Hcreate. unfold create_optimizer in Hcreate.
    destruct (OnlineBayesianOptimizer__init__ _ _ _ _) as [s0|e];
      [|discriminate Hcreate].
    injection Hcreate as _ <-.
    rewrite dict_get_set_same. now rewrite dict_del_set_fresh.
  - intros Hsome. destruct (dict_get optimizer_id registry) as [s|] eqn:E;
      [|congruence].
    eexists. split; [reflexivity|].
    split; [now apply dict_get_del_same|].
    split; [intros other Hne; now apply dict_get_del_other|].
    now apply well_keyed_del.
Qed.

Lemma delete_removes_one_session_witness :
  well_keyed [("u"%string, Built.online_AB 100 10)]
  /\ exists registry',
       Server.delete_optimizer "u" [("u"%string, Built.online_AB 100 10)]
       = (Server.Reply true, registry')
       /\ dict_get "u" registry' = None.
Proof.
  assert (Hwk : well_keyed [("u"%string, Built.online_AB 100 10)]).
  { unfold well_keyed. cbn. repeat constructor. intros []. }
  split; [exact Hwk|].
  destruct (@delete_removes_one_session "u"
              [("u"%string, Built.online_AB 100 10)] Hwk) as [_ H].
  destruct H as (registry' & Hd & Hg & _); [discriminate|].
  exists registry'. auto.
Defined.

(** X14: recording through the service touches one session.  For an
    unknown id the handler answers 404 and leaves the registry as it was; for
    a known id the registry afterwards maps that id to the session with the
    evaluation recorded, maps every other id as before, and has the same
    ids in the same order. *)
Theorem recording_touches_one_session
    (sqrt : Q -> Q) (request : Server.EvaluationRequest)
    (registry : Registry) :
  (dict_get (Server.ev_optimizer_id request) registry = None ->
   Server.record_evaluation sqrt request registry
   = (Server.HTTPException 404 "Optimizer not found", registry))
  /\ (forall session,
        dict_get (Server.ev_optimizer_id request) registry = Some session ->
        exists answer registry',
          Server.record_evaluation sqrt request registry = (answer, registry')
          /\ dict_get (Server.ev_optimizer_id request) registry'
             = Some (record_evaluation session (Server.ev_weights request)
                       (Server.ev_score request))
          /\ (forall other, other <> Server.ev_optimizer_id request ->
                            dict_get other registry' = dict_get other registry)
          /\ keys registry' = keys registry).
Proof.
  unfold Server.record_evaluation. split.
  - intros ->. reflexivity.
  - intros session Hs. rewrite Hs.
    set (s' := record_evaluation session _ _).
    exists (fst (Server.record_evaluation sqrt request registry)),
           (dict_set (Server.ev_optimizer_id request) s' registry).
    split.
    + unfold Server.record_evaluation. rewrite Hs. fold s'.
      destruct (should_update s'); [destruct (get_statistics sqrt s')|];
        reflexivity.
    + split; [apply dict_get_set_same|].
      split; [intros other Hne; now apply dict_get_set_other|].
      apply keys_set_present. congruence.
Qed.

Lemma record_all_snoc (evals : list Evaluation) (e : Evaluation) :
  forall self,
    record_all self (evals ++ [e])
    = record_evaluation (record_all self evals) (fst e) (snd e).
Proof.
  induction evals as [|e0 evals IH]; intros self; cbn [record_all app].
  - reflexivity.
  - apply IH.
Qed.

Lemma statistics_count (sqrt : Q -> Q) (self : OnlineBayesianOptimizer) :
  evaluation_history self <> [] ->
  exists stats,
    get_statistics sqrt self = Ok stats
    /\ dict_get "n_evaluations" stats
       = Some (Int (Z.of_nat (length (evaluation_history self)))).
Proof.
  intros Hne. unfold get_statistics.
  destruct (evaluation_history self) as [|e h] eqn:E; [congruence|].
  assert (Hs : map snd (e :: h) <> []) by discriminate.
  destruct (np_max_is_max Hs) as (best & -> & _). cbn [bind].
  eexists. split; reflexivity.
Qed.

(** X15: the cadence as the service reports it.  For a session the
    service created (window 100, interval 10) that has had [n] evaluations
    recorded, recording one more through the handler answers with
    [should_update] true exactly when [n + 1] is a multiple of ten and with
    [n_evaluations] equal to the smaller of [n + 1] and 100, and leaves the
    session with that evaluation recorded last. *)
Theorem service_reports_the_cadence
    (sqrt : Q -> Q) bounds s0 (evals : list Evaluation)
    (request : Server.EvaluationRequest) (registry : Registry) :
  OnlineBayesianOptimizer__init__ bounds 100 10 (1 # 10) = Ok s0 ->
  dict_get (Server.ev_optimizer_id request) registry
  = Some (record_all s0 evals) ->
  exists stats registry',
    Server.record_evaluation sqrt request registry
    = (Server.Reply
         {| Server.recorded := true;
            Server.rsp_should_update :=
              (Z.of_nat (S (length evals)) mod 10 =? 0)%Z;
            Server.rsp_statistics := stats |},
       registry')
    /\ dict_get (Server.ev_optimizer_id request) registry'
       = Some (record_all s0
                 (evals ++ [(Server.ev_weights request,
                             Server.ev_score request)]))
    /\ dict_get "n_evaluations" stats
       = Some (Int (Z.of_nat (Nat.min (S (length evals)) 100))).
Proof.
  intros Hinit Hs.
  apply online_init_fields in Hinit as (_ & Hw & Hu & Hh & _ & Hc).
  set (e := (Server.ev_weights request, Server.ev_score request)).
  set (s' := record_all s0 (evals ++ [e])).
  assert (Es' : record_evaluation (record_all s0 evals)
                  (Server.ev_weights request) (Server.ev_score request) = s')
    by (subst s'; now rewrite record_all_snoc).
  destruct (record_all_counts (evals ++ [e]) s0) as (Hcount & Hint & _).
  fold s' in Hcount, Hint.
  assert (Hupd : should_update s'
                 = Ok (Z.of_nat (S (length evals)) mod 10 =? 0)%Z).
  { rewrite should_update_value by (rewrite Hint, Hu; discriminate).
    rewrite Hcount, Hint, Hc, Hu, length_app. cbn [length].
    do 3 f_equal. lia. }
  assert (Hhist : evaluation_history s' = last_n 100 (evals ++ [e])).
  { subst s'. rewrite record_all_history; rewrite ?Hw, ?Hh; cbn; auto; lia. }
  assert (Hlen : length (evaluation_history s')
                 = Nat.min (S (length evals)) 100).
  { rewrite Hhist, last_n_length, length_app. cbn [length]. lia. }
  destruct (@statistics_count sqrt s') as (stats & Hstats & Hn).
  { intros E. rewrite E in Hlen. cbn in Hlen. lia. }
  exists stats, (dict_set (Server.ev_optimizer_id request) s' registry).
  unfold Server.record_evaluation. rewrite Hs, Es', Hupd, Hstats.
  split; [reflexivity|]. split; [apply dict_get_set_same|].
  now rewrite Hn, Hlen.
Qed.

Lemma service_reports_the_cadence_witness :
  OnlineBayesianOptimizer__init__ Sample.AB 100 10 (1 # 10)
  = Ok (Built.online_AB 100 10)
  /\ dict_get "u" [("u"%string,
                    record_all (Built.online_AB 100 10) Sample.scenario)]
     = Some (record_all (Built.online_AB 100 10) Sample.scenario)
  /\ exists stats registry',
       Server.record_evaluation (fun x => x)
         {| Server.ev_optimizer_id := "u";
            Server.ev_weights := Sample.w1;
            Server.ev_score := 2 |}
         [("u"%string, record_all (Built.online_AB 100 10) Sample.scenario)]
       = (Server.Reply
            {| Server.recorded := true;
               Server.rsp_should_update := false;
               Server.rsp_statistics := stats |},
          registry')
       /\ dict_get "n_evaluations" stats = Some (Int 3).
Proof.
  split; [reflexivity|]. split; [reflexivity|].
  destruct (@service_reports_the_cadence (fun x => x) Sample.AB
              (Built.online_AB 100 10) Sample.scenario
              {| Server.ev_optimizer_id := "u";
                 Server.ev_weights := Sample.w1;
                 Server.ev_score := 2 |}
              [("u"%string,
                record_all (Built.online_AB 100 10) Sample.scenario)]
              eq_refl eq_refl)
    as (stats & registry' & H & _ & Hn).
  exists stats, registry'. split; [exact H | exact Hn].
Defined.

(** ** The feature vector of the combiner *)

Lemma flat_map_length_le {A B} (f : A -> list B) (k : nat) (l : list A) :
  (forall x, In x l -> (length (f x) <= k)%nat) ->
  (length (flat_map f l) <= k * length l)%nat.
Proof.
  induction l as [|x l IH]; intros H; cbn [flat_map length].
  - lia.
  - rewrite length_app.
    pose proof (H x (or_introl eq_refl)).
    assert (length (flat_map f l) <= k * length l)%nat
      by (apply IH; intros y Hy; apply H; now right).
    lia.
Qed.

Lemma flat_map_length_eq {A B} (f : A -> list B) (k : nat) (l : list A) :
  (forall x, In x l -> length (f x) = k) ->
  length (flat_map f l) = (k * length l)%nat.
Proof.
  induction l as [|x l IH]; intros H; cbn [flat_map length].
  - lia.
  - rewrite length_app, (H x (or_introl eq_refl)), IH; [lia|].
    intros y Hy. apply H. now right.
Qed.

Lemma flat_map_length_lt {A B} (f : A -> list B) (k : nat) (l : list A) x0 :
  (forall x, In x l -> (length (f x) <= k)%nat) ->
  In x0 l -> (length (f x0) < k)%nat ->
  (length (flat_map f l) < k * length l)%nat.
Proof.
  induction l as [|x l IH]; intros H Hin Hlt; cbn [flat_map length].
  - destruct Hin.
  - rewrite length_app.
    pose proof (H x (or_introl eq_refl)) as Hx.
    assert (Hrest : (length (flat_map f l) <= k * length l)%nat)
      by (apply flat_map_length_le; intros y Hy; apply H; now right).
    destruct Hin as [->|Hin]; [lia|].
    assert (length (flat_map f l) < k * length l)%nat
      by (apply IH; auto; intros y Hy; apply H; now right).
    lia.
Qed.

Lemma slice_to_four {A} (l : list A) :
  length (slice_to 4 l) = Nat.min 4 (length l).
Proof.
  unfold slice_to. destruct (Z.ltb_spec 4 0) as [?|_]; [lia|].
  rewrite length_firstn. lia.
Qed.

Lemma signal_block_length (m : dict Combiner.SignalFeatures) (sid : string) :
  (length (Combiner.signal_block m sid) <= 8)%nat
  /\ (forall s, dict_get sid m = Some s ->
                length (Combiner.signal_block m sid)
                = match Combiner.features s with
                  | [] => 8%nat
                  | _ :: _ => (4 + Nat.min 4 (length (Combiner.features s)))%nat
                  end)
  /\ (dict_get sid m = None -> length (Combiner.signal_block m sid) = 8%nat).
Proof.
  unfold Combiner.signal_block.
  destruct (dict_get sid m) as [s|].
  - assert (E : length
                  ([Combiner.dir_encoding (Combiner.direction s);
                    Combiner.strength s; Combiner.confidence s;
                    Combiner.strength s * Combiner.confidence s]
                   ++ match Combiner.features s with
                      | [] => repeat 0 4
                      | _ :: _ => slice_to 4 (Combiner.features s)
                      end)
                = match Combiner.features s with
                  | [] => 8%nat
                  | _ :: _ => (4 + Nat.min 4 (length (Combiner.features s)))%nat
                  end).
    { rewrite length_app. destruct (Combiner.features s) as [|x l] eqn:F.
      - reflexivity.
      - rewrite slice_to_four. reflexivity. }
    split; [|split].
    + rewrite E. destruct (Combiner.features s); lia.
    + intros s' Hs'. injection Hs' as <-. exact E.
    + discriminate.
  - split; [cbn; lia|]. split; [discriminate | reflexivity].
Qed.

Lemma feature_names_length (ids : list string) :
  length (Combiner._build_feature_names ids) = (8 * length ids + 6)%nat.
Proof.
  unfold Combiner._build_feature_names. rewrite length_app.
  rewrite (@flat_map_length_eq _ _ _ 8); [cbn; lia|].
  intros x _. reflexivity.
Qed.

Lemma dict_get_In {V} (k : string) (v : V) (d : dict V) :
  dict_get k d = Some v -> In (k, v) d.
Proof.
  induction d as [|[k' v'] d IH]; cbn; [discriminate|].
  destruct (String.eqb_spec k k') as [->|_].
  - intros H. injection H as ->. now left.
  - intros H. right. now apply IH.
Qed.

Section FeatureVector.
Variables Booster Scaler : Type.
Variable sqrt : Q -> Q.

(** X16: feature vector against feature names.  The vector
    [_build_feature_vector] builds is never longer than the list of names
    [_build_feature_names] builds, [8 n + 6] for [n] signal ids.  They have
    the same length when every given signal carries no extra feature or at
    least four; a signal id whose signal carries one, two or three extra
    features makes the vector shorter than the names. *)
Theorem feature_vector_against_names
    (self : Combiner.XGBoostCombiner Booster Scaler)
    (given : list Combiner.SignalFeatures) :
  let names := Combiner._build_feature_names (Combiner.signal_ids self) in
  let vector := Combiner._build_feature_vector sqrt self given in
  let signal_map :=
    dict_of (map (fun s => (Combiner.signal_id s, s)) given) in
  length names = (8 * length (Combiner.signal_ids self) + 6)%nat
  /\ (length vector <= length names)%nat
  /\ ((forall s, In s given ->
                 Combiner.features s = []
                 \/ (4 <= length (Combiner.features s))%nat) ->
      length vector = length names)
  /\ (forall sid s,
        In sid (Combiner.signal_ids self) ->
        dict_get sid signal_map = Some s ->
        (0 < length (Combiner.features s) < 4)%nat ->
        (length vector < length names)%nat).
Proof.
  intros names vector signal_map.
  assert (Hn : length names = (8 * length (Combiner.signal_ids self) + 6)%nat)
    by apply feature_names_length.
  assert (Hv : length vector
               = (length (flat_map (Combiner.signal_block signal_map)
                            (Combiner.signal_ids self)) + 6)%nat).
  { subst vector. unfold Combiner._build_feature_vector.
    rewrite length_app, length_map. reflexivity. }
  split; [exact Hn|]. rewrite Hv, Hn. split; [|split].
  - pose proof (@flat_map_length_le _ _ (Combiner.signal_block signal_map) 8
                  (Combiner.signal_ids self)) as H.
    specialize (H (fun x _ => proj1 (signal_block_length signal_map x))). lia.
  - intros Hall.
    rewrite (@flat_map_length_eq _ _ _ 8); [lia|].
    intros sid _.
    destruct (signal_block_length signal_map sid) as (_ & Hsome & Hnone).
    destruct (dict_get sid signal_map) as [s|] eqn:E; [|now apply Hnone].
    rewrite (Hsome s eq_refl).
    assert (Hin : In s given).
    { apply dict_get_In, dict_of_In, in_map_iff in E.
      destruct E as (s' & E' & Hs'). now inversion E'; subst. }
    destruct (Hall s Hin) as [->|H4]; [reflexivity|].
    destruct (Combiner.features s); [reflexivity|]. lia.
  - intros sid s Hsid Hs Hshort.
    pose proof (@flat_map_length_lt _ _ (Combiner.signal_block signal_map) 8
                  (Combiner.signal_ids self) sid
                  (fun x _ => proj1 (signal_block_length signal_map x)) Hsid)
      as H.
    destruct (signal_block_length signal_map sid) as (_ & Hsome & _).
    rewrite (Hsome s Hs) in H.
    destruct (Combiner.features s) as [|x l]; [cbn in Hshort; lia|].
    assert (4 + Nat.min 4 (length (x :: l)) < 8)%nat by lia.
    specialize (H H0). lia.
Qed.

End FeatureVector.

Lemma feature_vector_against_names_witness :
  In "rsi"%string (Combiner.signal_ids CombinerCases.fitted_pair)
  /\ (length (Combiner._build_feature_vector (fun x => x)
                CombinerCases.fitted_pair
                [CombinerCases.two_extras])
      < length (Combiner._build_feature_names
                  (Combiner.signal_ids CombinerCases.fitted_pair)))%nat.
Proof.
  split; [now left|].
  destruct (@feature_vector_against_names unit unit (fun x => x)
              CombinerCases.fitted_pair
              [CombinerCases.two_extras])
    as (_ & _ & _ & H).
  apply (H "rsi"%string CombinerCases.two_extras).
  - now left.
  - reflexivity.
  - cbn. lia.
Defined.

(** ** The decision of the combiner *)

Lemma prefix_trans (a b k : string) :
  String.prefix a b = true -> String.prefix b k = true ->
  String.prefix a k = true.
Proof.
  revert b k. induction a as [|x a IH]; intros b k Hab Hbk.
  - destruct k; reflexivity.
  - destruct b as [|y b]; [destruct k; discriminate Hab|].
    destruct k as [|z k]; [discriminate Hbk|].
    cbn in *.
    destruct (Ascii.ascii_dec x y) as [->|]; [|discriminate].
    destruct (Ascii.ascii_dec y z) as [->|]; [|discriminate].
    now apply (IH b k).
Qed.

Lemma sum_filter_mono (p q : string * Q -> bool) (l : list (string * Q)) :
  (forall x, In x l -> p x = true -> q x = true) ->
  (forall x, In x l -> 0 <= snd x) ->
  Np.sum (map snd (filter p l)) <= Np.sum (map snd (filter q l)).
Proof.
  induction l as [|x l IH]; intros Hpq Hpos; cbn [filter map].
  - apply Qle_refl.
  - assert (IH' : Np.sum (map snd (filter p l))
                  <= Np.sum (map snd (filter q l))).
    { apply IH; intros y Hy; [apply Hpq | apply Hpos]; now right. }
    pose proof (Hpos x (or_introl eq_refl)) as Hx.
    pose proof (Hpq x (or_introl eq_refl)) as Hx'.
    destruct (p x) eqn:P.
    + rewrite (Hx' eq_refl). cbn [map]. rewrite !sum_cons. lra.
    + destruct (q x); cbn [map]; [rewrite sum_cons; lra | exact IH'].
Qed.

Lemma dict_get_of_graph {V} (f : string -> V) (ids : list string)
    (sid : string) :
  In sid ids ->
  dict_get sid (dict_of (map (fun s => (s, f s)) ids)) = Some (f sid).
Proof.
  unfold dict_of.
  assert (G : forall acc,
             In sid ids \/ dict_get sid acc = Some (f sid) ->
             dict_get sid
               (fold_left (fun d kv => dict_set (fst kv) (snd kv) d)
                  (map (fun s => (s, f s)) ids) acc)
             = Some (f sid)).
  { induction ids as [|s ids IH]; intros acc H; cbn [map fold_left].
    - destruct H as [[]|H]; exact H.
    - apply IH. cbn [fst snd].
      destruct (String.eqb_spec sid s) as [->|Hne].
      + right. apply dict_get_set_same.
      + destruct H as [[E|H]|H].
        * congruence.
        * now left.
        * right. rewrite dict_get_set_other by assumption. exact H. }
  intros H. apply G. now left.
Qed.

Section CombinerProperties.
Variables Booster Scaler : Type.
Variable StandardScaler : Scaler.
Variable sqrt : Q -> Q.
Variable scaler_transform :
  Scaler -> list Combiner.float64 -> Combiner.outcome (list Combiner.float64).
Variable predict_proba :
  Booster -> list Combiner.float64 -> Combiner.outcome (Q * Q).
Variable feature_importances_ : Booster -> list Q.
Variable literal : Q -> Q.
Variable fl : Q -> Q.
Variable np_random_choice :
  nat -> Np.RandomState -> list nat * Np.RandomState.
Variable xgb_fit :
  Combiner.XGBoostCombiner Booster Scaler -> list Combiner.TrainingExample ->
  Combiner.outcome
    (Combiner.XGBoostCombiner Booster Scaler * Combiner.FitMetrics).

Local Abbreviation predict :=
  (Combiner.predict sqrt scaler_transform predict_proba feature_importances_
     literal fl).
Local Abbreviation fit :=
  (Combiner.fit StandardScaler sqrt np_random_choice xgb_fit).
Local Abbreviation train_combiner :=
  (Combiner.train_combiner StandardScaler sqrt np_random_choice xgb_fit).

(** X17: the decision bands of [XGBoostCombiner.predict].  An unfitted
    combiner, or one without a model, raises [ValueError]; an exception of
    the scaler or of the model escapes as it is; nothing else is raised.
    When the call returns, the confidence is the probability of the positive
    class and the edge is that probability less one half, rounded.  The
    direction is LONG when the probability is above the literal [0.55] as
    NumPy reads it, with the edge doubled as strength; SHORT when it is
    below the literal [0.45], with twice one half less the probability; and
    NEUTRAL with strength 0 in between, both ends included. *)
Theorem predict_decision_bands
    (self : Combiner.XGBoostCombiner Booster Scaler)
    (given : list Combiner.SignalFeatures) :
  match predict self given with
  | Combiner.Returns out =>
      exists booster scaled proba,
        Combiner.is_fitted self = true
        /\ Combiner.model self = Some booster
        /\ scaler_transform (Combiner.scaler self)
             (Combiner._build_feature_vector sqrt self given)
           = Combiner.Returns scaled
        /\ predict_proba booster scaled = Combiner.Returns proba
        /\ Combiner.out_confidence out = snd proba
        /\ Combiner.predicted_edge out = fl (snd proba - (1 # 2))
        /\ ((Combiner.out_direction out = "LONG"%string
             /\ literal (55 # 100) < snd proba
             /\ Combiner.out_strength out
                = fl (Combiner.predicted_edge out * 2))
            \/ (Combiner.out_direction out = "SHORT"%string
                /\ snd proba <= literal (55 # 100)
                /\ snd proba < literal (45 # 100)
                /\ Combiner.out_strength out
                   = fl (fl ((1 # 2) - snd proba) * 2))
            \/ (Combiner.out_direction out = "NEUTRAL"%string
                /\ literal (45 # 100) <= snd proba <= literal (55 # 100)
                /\ Combiner.out_strength out = 0))
  | Combiner.Raises r =>
      (r = Combiner.Exn ValueError
       /\ (Combiner.is_fitted self = false \/ Combiner.model self = None))
      \/ (exists booster,
             Combiner.is_fitted self = true
             /\ Combiner.model self = Some booster
             /\ (scaler_transform (Combiner.scaler self)
                   (Combiner._build_feature_vector sqrt self given)
                 = Combiner.Raises r
                 \/ exists scaled,
                      scaler_transform (Combiner.scaler self)
                        (Combiner._build_feature_vector sqrt self given)
                      = Combiner.Returns scaled
                      /\ predict_proba booster scaled = Combiner.Raises r))
  end.
Proof.
  unfold Combiner.predict.
  destruct (Combiner.is_fitted self) eqn:Hf;
    [|left; split; [reflexivity | now left]].
  destruct (Combiner.model self) as [booster|] eqn:Hm;
    [|left; split; [reflexivity | now right]].
  destruct (scaler_transform _ _) as [scaled|r] eqn:Hs;
    [|right; exists booster; auto].
  destruct (predict_proba booster scaled) as [proba|r] eqn:Hp;
    [|right; exists booster; split; [reflexivity|]; split; [reflexivity|];
      right; exists scaled; auto].
  cbv zeta. cbn [Combiner.out_direction Combiner.out_strength
                 Combiner.out_confidence Combiner.predicted_edge].
  exists booster, scaled, proba.
  do 6 (split; [first [reflexivity | assumption]|]).
  unfold Qgtb, Qltb.
  destruct (Qle_bool (snd proba) (literal (55 # 100))) eqn:Hhi;
    cbn [negb fst snd].
  - apply Qle_bool_iff in Hhi.
    destruct (Qle_bool (literal (45 # 100)) (snd proba)) eqn:Hlo;
      cbn [negb fst snd].
    + apply Qle_bool_iff in Hlo. right. right. auto.
    + right. left. split; [reflexivity|]. split; [assumption|].
      split; [|reflexivity].
      apply Qnot_le_lt. intros H. apply Qle_bool_iff in H. congruence.
  - left. split; [reflexivity|]. split; [|reflexivity].
    apply Qnot_le_lt. intros H. apply Qle_bool_iff in H. congruence.
Qed.

(** At the threshold itself the answer follows NumPy's reading of the
    literal.  A probability that is the number of single precision nearest
    to 0.55 is NEUTRAL when the comparison is made in single precision, and
    LONG when it is made in double precision; and on a vector shorter than
    the scaler was fitted with, the scaler's exception is what [predict]
    raises. *)
Example predict_at_the_threshold :
  (exists out,
      Combiner.predict (fun x => x) CombinerCases.identity_scaler
        CombinerCases.at_threshold CombinerCases.flat_importances
        CombinerCases.read_single (fun x => x) CombinerCases.fitted_pair []
      = Combiner.Returns out
      /\ Combiner.out_direction out = "NEUTRAL"%string
      /\ Combiner.out_strength out = 0)
  /\ (exists out,
        Combiner.predict (fun x => x) CombinerCases.identity_scaler
          CombinerCases.at_threshold CombinerCases.flat_importances
          CombinerCases.read_double (fun x => x) CombinerCases.fitted_pair []
        = Combiner.Returns out
        /\ Combiner.out_direction out = "LONG"%string)
  /\ Combiner.predict (fun x => x) CombinerCases.strict_scaler
       CombinerCases.at_threshold CombinerCases.flat_importances
       CombinerCases.read_single (fun x => x) CombinerCases.fitted_pair
       [CombinerCases.two_extras]
     = Combiner.Raises (Combiner.Exn ValueError).
Proof.
  split; [|split].
  - eexists. split; [vm_compute; reflexivity|]. split; reflexivity.
  - eexists. split; [vm_compute; reflexivity|]. reflexivity.
  - vm_compute. reflexivity.
Qed.

(** X18: an id that is the beginning of another id is credited with the
    other's features as well.  [predict] sums, for each signal id, the
    importances of the feature names that start with the id.  When the
    importances are not negative and an id [a] is a prefix of an id [b], the
    importance reported for [a] is at least the one reported for [b]: the
    features of [b] are counted for both. *)
Theorem prefix_ids_share_importance
    (self : Combiner.XGBoostCombiner Booster Scaler)
    (given : list Combiner.SignalFeatures) (out : Combiner.CombinerOutput)
    (a b : string) :
  predict self given = Combiner.Returns out ->
  (forall booster, Combiner.model self = Some booster ->
                   Forall (fun v => 0 <= v) (feature_importances_ booster)) ->
  In a (Combiner.signal_ids self) ->
  In b (Combiner.signal_ids self) ->
  String.prefix a b = true ->
  exists ia ib,
    dict_get a (Combiner.feature_importance out) = Some ia
    /\ dict_get b (Combiner.feature_importance out) = Some ib
    /\ ib <= ia.
Proof.
  unfold Combiner.predict. intros Hout Hpos Ha Hb Hab.
  destruct (Combiner.is_fitted self); [|discriminate Hout].
  destruct (Combiner.model self) as [booster|]; [|discriminate Hout].
  destruct (scaler_transform _ _) as [scaled|]; [|discriminate Hout].
  destruct (predict_proba booster scaled) as [proba|]; [|discriminate Hout].
  injection Hout as <-. cbn [Combiner.feature_importance].
  set (importance :=
         dict_of (combine (Combiner.feature_names self)
                    (feature_importances_ booster))).
  exists (Combiner.importance_of importance a),
         (Combiner.importance_of importance b).
  split; [now apply (dict_get_of_graph (Combiner.importance_of importance))|].
  split; [now apply (dict_get_of_graph (Combiner.importance_of importance))|].
  unfold Combiner.importance_of. apply sum_filter_mono.
  - intros kv _ H. now apply (prefix_trans a b).
  - intros [k v] Hin. cbn [snd].
    apply dict_of_In, in_combine_r in Hin.
    specialize (Hpos booster eq_refl).
    rewrite Forall_forall in Hpos. now apply Hpos.
Qed.

(** ** The ensemble *)

Lemma random_state_keyword (ids : list string) (v : Q) :
  Combiner.XGBoostCombiner__init__ Booster StandardScaler ids
    [("random_state"%string, v)]
  = Combiner.Raises
      (Combiner.TypeError
         "XGBoostCombiner.__init__() got an unexpected keyword argument 'random_state'").
Proof. reflexivity. Qed.

Lemma for_each_index_in_range {A} (l : list A) (indices : list nat) :
  Forall (fun j => (j < length l)%nat) indices ->
  exists sample, for_each (index l) indices = Ok sample.
Proof.
  induction 1 as [|j indices Hj _ [sample IH]].
  - now exists [].
  - cbn [for_each]. unfold index at 1.
    destruct (nth_error l j) as [x|] eqn:E.
    + cbn [bind]. rewrite IH. cbn [bind]. now exists (x :: sample).
    + apply nth_error_None in E. lia.
Qed.

Lemma fit_round_raises (ids : list string)
    (examples : list Combiner.TrainingExample) (i : Z) (rounds : nat)
    (trained : list (Combiner.XGBoostCombiner Booster Scaler))
    (all_metrics : list Combiner.FitMetrics) (rs : Np.RandomState) :
  exists r,
    Combiner.fit_rounds StandardScaler np_random_choice xgb_fit ids examples i
      (S rounds) trained all_metrics rs
    = (Combiner.Raises r, trained, snd (np_random_choice (length examples) rs))
    /\ (Forall (fun j => (j < length examples)%nat)
          (fst (np_random_choice (length examples) rs)) ->
        r = Combiner.TypeError
              "XGBoostCombiner.__init__() got an unexpected keyword argument 'random_state'").
Proof.
  cbn [Combiner.fit_rounds].
  destruct (np_random_choice (length examples) rs) as [indices rs1].
  cbn [fst snd].
  destruct (for_each (index examples) indices) as [sample|e] eqn:E.
  - rewrite random_state_keyword. eexists. split; [reflexivity | auto].
  - exists (Combiner.Exn e). split; [reflexivity|].
    intros Hin. destruct (for_each_index_in_range examples Hin) as [s Hs].
    congruence.
Qed.

(** X19: [EnsembleCombiner.fit] trains nothing.  With at least one model
    to train the call never returns: the first round passes the keyword
    [random_state], which [XGBoostCombiner.__init__] does not take, so it
    raises before any model is trained.  The list of models is left empty and
    the ensemble stays as fitted as it was.  When the sampled indices are
    within the examples, as [np.random.choice] gives them, the exception is
    that [TypeError]. *)
Theorem ensemble_fit_trains_nothing
    (self : Combiner.EnsembleCombiner Booster Scaler)
    (examples : list Combiner.TrainingExample) (rs : Np.RandomState) :
  (1 <= Combiner.n_models self)%Z ->
  exists r self' rs',
    fit self examples rs = (Combiner.Raises r, self', rs')
    /\ Combiner.models self' = []
    /\ Combiner.ens_is_fitted self' = Combiner.ens_is_fitted self
    /\ (Forall (fun j => (j < length examples)%nat)
          (fst (np_random_choice (length examples) rs)) ->
        r = Combiner.TypeError
              "XGBoostCombiner.__init__() got an unexpected keyword argument 'random_state'").
Proof.
  intros Hn. unfold Combiner.fit.
  destruct (Z.to_nat (Combiner.n_models self)) as [|rounds] eqn:E; [lia|].
  destruct (fit_round_raises (Combiner.ens_signal_ids self) examples 0 rounds
              [] [] rs) as (r & -> & Hr).
  eexists r, _, _. split; [reflexivity|]. cbn. auto.
Qed.

(** X20: training an ensemble through the service registers nothing.  A
    request for the model type [ensemble] is answered with status 400 when it
    has fewer than 20 examples, and otherwise the exception of
    [EnsembleCombiner.fit] escapes the handler; either way the registry and
    the files are as before, and no combiner id is handed out. *)
Theorem ensemble_request_registers_nothing
    (request : Combiner.TrainCombinerRequest) (uuid4 : string)
    (active_combiners disk : dict (Combiner.trained_combiner Booster Scaler))
    (rs : Np.RandomState) :
  Combiner.tr_model_type request = "ensemble"%string ->
  exists failure rs',
    train_combiner request uuid4 active_combiners disk rs
    = (failure, active_combiners, disk, rs')
    /\ (((length (Combiner.tr_examples request) < 20)%nat
         /\ exists detail, failure = Combiner.HTTPError 400 detail)
        \/ ((20 <= length (Combiner.tr_examples request))%nat
            /\ exists r, failure = Combiner.Escaped r)).
Proof.
  intros Hens. unfold Combiner.train_combiner.
  rewrite length_map.
  destruct (Nat.ltb_spec (length (Combiner.tr_examples request)) 20) as [Hlt|Hge].
  - eexists _, _. split; [reflexivity|]. left. split; [exact Hlt|].
    eexists. reflexivity.
  - rewrite Hens. cbn [String.eqb Ascii.eqb Bool.eqb].
    unfold Combiner.fit, Combiner.EnsembleCombiner__init__.
    cbn [Combiner.n_models Combiner.ens_signal_ids Combiner.ens_is_fitted].
    change (Z.to_nat 5) with 5%nat.
    destruct (fit_round_raises (Combiner.tr_signal_ids request)
                (map Combiner._convert_training_example
                   (Combiner.tr_examples request)) 0 4 [] [] rs)
      as (r & -> & _).
    eexists _, _. split; [reflexivity|]. right. split; [exact Hge|].
    now exists r.
Qed.

(** X21: training a single model through the service.  The handler
    answers 400 exactly when the request has fewer than 20 examples.  When it
    answers with a combiner id, the registry holds the trained combiner
    under that id and the file of that id holds the same combiner, every
    other id and file being as before.  In every other case the registry and
    the files are unchanged. *)
Theorem training_registers_on_success_only
    (request : Combiner.TrainCombinerRequest) (uuid4 : string)
    (active_combiners disk : dict (Combiner.trained_combiner Booster Scaler))
    (rs : Np.RandomState) :
  match train_combiner request uuid4 active_combiners disk rs with
  | (Combiner.Answer rsp, registry', disk', _) =>
      (20 <= length (Combiner.tr_examples request))%nat
      /\ Combiner.combiner_id rsp = uuid4
      /\ Combiner.model_path rsp = Combiner.model_file uuid4
      /\ (exists combiner,
             dict_get uuid4 registry' = Some combiner
             /\ dict_get (Combiner.model_file uuid4) disk' = Some combiner)
      /\ (forall other, other <> uuid4 ->
                        dict_get other registry'
                        = dict_get other active_combiners)
      /\ (forall path, path <> Combiner.model_file uuid4 ->
                       dict_get path disk' = dict_get path disk)
  | (Combiner.HTTPError status_code _, registry', disk', _) =>
      status_code = 400%Z
      /\ (length (Combiner.tr_examples request) < 20)%nat
      /\ registry' = active_combiners /\ disk' = disk
  | (Combiner.Escaped _, registry', disk', _) =>
      (20 <= length (Combiner.tr_examples request))%nat
      /\ registry' = active_combiners /\ disk' = disk
  end.
Proof.
  unfold Combiner.train_combiner. rewrite length_map.
  destruct (Nat.ltb_spec (length (Combiner.tr_examples request)) 20) as [Hlt|Hge].
  - auto.
  - destruct (String.eqb (Combiner.tr_model_type request) "ensemble").
    + destruct (Combiner.fit _ _ _ _ _ _ _) as [[[metrics|r] combiner] rs'].
      * split; [exact Hge|]. split; [reflexivity|]. split; [reflexivity|].
        split; [eexists; split; apply dict_get_set_same|].
        split; intros k Hk; now apply dict_get_set_other.
      * auto.
    + destruct (Combiner.XGBoostCombiner__init__ _ _ _ _) as [fresh|r]; [|auto].
      destruct (xgb_fit fresh _) as [[combiner metrics]|r]; [|auto].
      split; [exact Hge|]. split; [reflexivity|]. split; [reflexivity|].
      split; [eexists; split; apply dict_get_set_same|].
      split; intros k Hk; now apply dict_get_set_other.
Qed.

(** X22: deleting a combiner never fails.  Whatever the id, the handler
    answers [deleted]; there is no 404.  On a registry and a disk with one
    entry per key, the id and its file are gone afterwards, every other id and
    file is as before, and deleting again changes nothing more. *)
Theorem delete_combiner_never_fails (id : string)
    (active_combiners disk : dict (Combiner.trained_combiner Booster Scaler)) :
  well_keyed active_combiners -> well_keyed disk ->
  exists registry' disk',
    Combiner.delete_combiner id active_combiners disk
    = (Combiner.Answer true, registry', disk')
    /\ dict_get id registry' = None
    /\ dict_get (Combiner.model_file id) disk' = None
    /\ (forall other, other <> id ->
                      dict_get other registry'
                      = dict_get other active_combiners)
    /\ (forall path, path <> Combiner.model_file id ->
                     dict_get path disk' = dict_get path disk)
    /\ Combiner.delete_combiner id registry' disk'
       = (Combiner.Answer true, registry', disk').
Proof.
  intros Hr Hd. unfold Combiner.delete_combiner.
  assert (R : forall (k : string)
                     (d : dict (Combiner.trained_combiner Booster Scaler)),
             well_keyed d ->
             let d' := match dict_get k d with
                       | Some _ => dict_del k d
                       | None => d
                       end in
             dict_get k d' = None
             /\ forall other, other <> k -> dict_get other d' = dict_get other d).
  { intros k d Hwk. cbv zeta. destruct (dict_get k d) eqn:E.
    - split; [now apply dict_get_del_same|].
      intros other Hne. now apply dict_get_del_other.
    - split; [exact E | reflexivity]. }
  destruct (R id active_combiners Hr) as [Ra Rb].
  destruct (R (Combiner.model_file id) disk Hd) as [Da Db].
  cbv zeta in *.
  eexists _, _. split; [reflexivity|].
  split; [exact Ra|]. split; [exact Da|]. split; [exact Rb|].
  split; [exact Db|]. now rewrite Ra, Da.
Qed.

End CombinerProperties.

Lemma prefix_ids_share_importance_witness :
  exists out,
    Combiner.predict (fun x => x) CombinerCases.identity_scaler
      CombinerCases.confident CombinerCases.flat_importances
      (fun x => x) (fun x => x) CombinerCases.fitted_pair []
    = Combiner.Returns out
    /\ exists ia ib,
         dict_get "rsi" (Combiner.feature_importance out) = Some ia
         /\ dict_get "rsi_fast" (Combiner.feature_importance out) = Some ib
         /\ ib <= ia.
Proof.
  eexists. split; [reflexivity|].
  apply (@prefix_ids_share_importance unit unit (fun x => x)
           CombinerCases.identity_scaler CombinerCases.confident
           CombinerCases.flat_importances (fun x => x) (fun x => x)
           CombinerCases.fitted_pair [] _ "rsi"%string "rsi_fast"%string).
  - reflexivity.
  - intros booster _. unfold CombinerCases.flat_importances.
    apply Forall_forall. intros v Hv. apply repeat_spec in Hv. subst v.
    discriminate.
  - now left.
  - right. now left.
  - reflexivity.
Defined.

Lemma ensemble_fit_trains_nothing_witness :
  (1 <= Combiner.n_models (Combiner.EnsembleCombiner__init__ unit unit
                             ["rsi"%string] 5))%Z
  /\ exists r self' rs',
       Combiner.fit tt (fun x => x) CombinerCases.first_only
         CombinerCases.no_training
         (Combiner.EnsembleCombiner__init__ unit unit ["rsi"%string] 5)
         (map Combiner._convert_training_example
            (Combiner.tr_examples CombinerCases.ensemble_request))
         Sample.halves
       = (Combiner.Raises r, self', rs')
       /\ Combiner.models self' = [].
Proof.
  assert (Hn : (1 <= Combiner.n_models
                      (Combiner.EnsembleCombiner__init__ unit unit
                         ["rsi"%string] 5))%Z) by (cbn; lia).
  split; [exact Hn|].
  destruct (@ensemble_fit_trains_nothing unit unit tt (fun x => x)
              CombinerCases.first_only CombinerCases.no_training
              (Combiner.EnsembleCombiner__init__ unit unit ["rsi"%string] 5)
              (map Combiner._convert_training_example
                 (Combiner.tr_examples CombinerCases.ensemble_request))
              Sample.halves Hn)
    as (r & self' & rs' & H & Hm & _).
  exists r, self', rs'. auto.
Defined.

Lemma ensemble_request_registers_nothing_witness :
  Combiner.tr_model_type CombinerCases.ensemble_request = "ensemble"%string
  /\ exists failure rs',
       Combiner.train_combiner tt (fun x => x) CombinerCases.first_only
         CombinerCases.no_training CombinerCases.ensemble_request "u" [] []
         Sample.halves
       = (failure, [], [], rs').
Proof.
  split; [reflexivity|].
  destruct (@ensemble_request_registers_nothing unit unit tt (fun x => x)
              CombinerCases.first_only CombinerCases.no_training
              CombinerCases.ensemble_request "u"%string [] [] Sample.halves
              eq_refl)
    as (failure & rs' & H & _).
  exists failure, rs'. exact H.
Defined.

Lemma delete_combiner_never_fails_witness :
  well_keyed [("u"%string, Combiner.OfXGBoost CombinerCases.fitted_pair)]
  /\ well_keyed
       [(Combiner.model_file "u", Combiner.OfXGBoost CombinerCases.fitted_pair)]
  /\ exists registry' disk',
       Combiner.delete_combiner "u"
         [("u"%string, Combiner.OfXGBoost CombinerCases.fitted_pair)]
         [(Combiner.model_file "u",
           Combiner.OfXGBoost CombinerCases.fitted_pair)]
       = (Combiner.Answer true, registry', disk')
       /\ dict_get "u" registry' = None.
Proof.
  assert (Hr : well_keyed
                 [("u"%string, Combiner.OfXGBoost CombinerCases.fitted_pair)]).
  { unfold well_keyed. cbn. repeat constructor. intros []. }
  assert (Hd : well_keyed
                 [(Combiner.model_file "u",
                   Combiner.OfXGBoost CombinerCases.fitted_pair)]).
  { unfold well_keyed. cbn. repeat constructor. intros []. }
  split; [exact Hr|]. split; [exact Hd|].
  destruct (@delete_combiner_never_fails unit unit "u"%string _ _ Hr Hd)
    as (registry' & disk' & H & Hg & _).
  exists registry', disk'. auto.
Defined.

(** ** The prediction of the ensemble *)

Lemma max_from_spec (key : string -> nat) (rest : list string) :
  forall best,
    In (Combiner.max_from key best rest) (best :: rest)
    /\ forall d, In d (best :: rest) ->
                 (key d <= key (Combiner.max_from key best rest))%nat.
Proof.
  induction rest as [|x rest IH]; intros best; cbn [Combiner.max_from].
  - split; [now left|]. intros d [<-|[]]. apply Nat.le_refl.
  - destruct (Nat.ltb_spec (key best) (key x)) as [Hlt|Hge].
    + destruct (IH x) as [Hin Hmax]. split.
      * right. exact Hin.
      * intros d [<-|Hd]; [|now apply Hmax].
        pose proof (Hmax x (or_introl eq_refl)). lia.
    + destruct (IH best) as [Hin Hmax]. split.
      * destruct Hin as [<-|Hin]; [now left | right; now right].
      * intros d [<-|[<-|Hd]].
        -- apply Hmax. now left.
        -- pose proof (Hmax best (or_introl eq_refl)). lia.
        -- apply Hmax. now right.
Qed.

Lemma keys_of_graph {V} (f : string -> V) (l : list string) (k : string) :
  In k (keys (dict_of (map (fun d => (d, f d)) l))) <-> In k l.
Proof.
  split.
  - unfold keys. intros H. apply in_map_iff in H.
    destruct H as ([k' v] & <- & H). apply dict_of_In, in_map_iff in H.
    destruct H as (d & E & Hd). now inversion E; subst.
  - intros H. pose proof (dict_get_of_graph f l k H) as Hg.
    destruct (in_dec string_dec k
                (keys (dict_of (map (fun d => (d, f d)) l)))) as [Hin|Hout];
      [exact Hin|].
    apply dict_get_absent in Hout. congruence.
Qed.

Section EnsembleProperties.
Variables Booster Scaler : Type.
Variable StandardScaler : Scaler.
Variable sqrt : Q -> Q.
Variable scaler_transform :
  Scaler -> list Combiner.float64 -> Combiner.outcome (list Combiner.float64).
Variable predict_proba :
  Booster -> list Combiner.float64 -> Combiner.outcome (Q * Q).
Variable feature_importances_ : Booster -> list Q.
Variable literal : Q -> Q.
Variable fl : Q -> Q.
Variable np_random_choice :
  nat -> Np.RandomState -> list nat * Np.RandomState.
Variable xgb_fit :
  Combiner.XGBoostCombiner Booster Scaler -> list Combiner.TrainingExample ->
  Combiner.outcome
    (Combiner.XGBoostCombiner Booster Scaler * Combiner.FitMetrics).
Variable set_order : list string -> list string.

Local Abbreviation fit :=
  (Combiner.fit StandardScaler sqrt np_random_choice xgb_fit).
Local Abbreviation predict_each :=
  (Combiner.predict_each sqrt scaler_transform predict_proba
     feature_importances_ literal fl).
Local Abbreviation ensemble_predict :=
  (Combiner.ensemble_predict sqrt scaler_transform predict_proba
     feature_importances_ literal fl set_order).

(** X23: an ensemble never predicts after [fit].  Whatever the ensemble
    and the examples, and whether [fit] raised or returned, the ensemble it
    leaves has no model, and [EnsembleCombiner.predict] on it raises
    [ValueError]: either because the ensemble is not fitted, or because the
    vote is taken over no direction.  The same holds for an ensemble fresh
    from its constructor. *)
Theorem ensemble_never_predicts
    (self : Combiner.EnsembleCombiner Booster Scaler)
    (examples : list Combiner.TrainingExample) (rs : Np.RandomState)
    (given : list Combiner.SignalFeatures) :
  set_order [] = [] ->
  Combiner.models (snd (fst (fit self examples rs))) = []
  /\ ensemble_predict (snd (fst (fit self examples rs))) given
     = Combiner.Raises (Combiner.Exn ValueError)
  /\ ensemble_predict
       (Combiner.EnsembleCombiner__init__ Booster Scaler
          (Combiner.ens_signal_ids self) (Combiner.n_models self)) given
     = Combiner.Raises (Combiner.Exn ValueError).
Proof.
  intros Hset.
  assert (Hempty : forall e : Combiner.EnsembleCombiner Booster Scaler,
             Combiner.models e = [] ->
             ensemble_predict e given
             = Combiner.Raises (Combiner.Exn ValueError)).
  { intros e He. unfold Combiner.ensemble_predict. rewrite He.
    destruct (Combiner.ens_is_fitted e); cbn [negb]; [|reflexivity].
    cbn [Combiner.predict_each map]. rewrite Hset. reflexivity. }
  assert (Hm : Combiner.models (snd (fst (fit self examples rs))) = []).
  { unfold Combiner.fit.
    destruct (Z.to_nat (Combiner.n_models self)) as [|rounds].
    - reflexivity.
    - destruct (fit_round_raises StandardScaler np_random_choice xgb_fit
                  (Combiner.ens_signal_ids self) examples 0 rounds [] [] rs)
        as (r & -> & _).
      reflexivity. }
  split; [exact Hm|]. split; [now apply Hempty|].
  apply Hempty. reflexivity.
Qed.

(** X24: the vote of the ensemble.  When [EnsembleCombiner.predict]
    returns, every member has predicted, the direction it reports is the
    direction of some member, and no direction was predicted by more members
    than the reported one, in whatever order the set of directions is
    iterated.  The strength, the confidence and the edge are the means over
    the members, so the strength is not tied to the reported direction. *)
Theorem ensemble_vote_is_a_plurality
    (self : Combiner.EnsembleCombiner Booster Scaler)
    (given : list Combiner.SignalFeatures) (out : Combiner.CombinerOutput) :
  (forall l d, In d (set_order l) <-> In d l) ->
  ensemble_predict self given = Combiner.Returns out ->
  exists predictions,
    predict_each (Combiner.models self) given = Combiner.Returns predictions
    /\ length predictions = length (Combiner.models self)
    /\ In (Combiner.out_direction out)
          (map Combiner.out_direction predictions)
    /\ (forall d,
          (count_occ string_dec (map Combiner.out_direction predictions) d
           <= count_occ string_dec (map Combiner.out_direction predictions)
                (Combiner.out_direction out))%nat)
    /\ Combiner.out_strength out
       = Np.mean (map Combiner.out_strength predictions)
    /\ Combiner.out_confidence out
       = Np.mean (map Combiner.out_confidence predictions)
    /\ Combiner.predicted_edge out
       = Np.mean (map Combiner.predicted_edge predictions).
Proof.
  intros Hset. unfold Combiner.ensemble_predict.
  destruct (Combiner.ens_is_fitted self); cbn [negb]; [|discriminate].
  destruct (predict_each (Combiner.models self) given)
    as [predictions|r] eqn:Hall; [|discriminate].
  set (directions := map Combiner.out_direction predictions).
  set (count := fun d => count_occ string_dec directions d).
  set (direction_counts := dict_of (map (fun d => (d, count d))
                                        (set_order directions))).
  set (count_of := fun d => match dict_get d direction_counts with
                            | Some c => c
                            | None => 0%nat
                            end).
  destruct (keys direction_counts) as [|d0 ds] eqn:Hkeys; [discriminate|].
  intros Hout. injection Hout as <-.
  cbn [Combiner.out_direction Combiner.out_strength Combiner.out_confidence
       Combiner.predicted_edge].
  assert (Hk : forall d, In d (d0 :: ds) <-> In d directions).
  { intros d. rewrite <- Hkeys. unfold direction_counts.
    rewrite (keys_of_graph count). apply Hset. }
  assert (Hc : forall d, In d directions -> count_of d = count d).
  { intros d Hd. unfold count_of, direction_counts.
    rewrite (dict_get_of_graph count); [reflexivity|]. now apply Hset. }
  destruct (max_from_spec count_of ds d0) as [Hin Hmax].
  exists predictions. split; [reflexivity|]. split.
  { clear - Hall. revert predictions Hall.
    induction (Combiner.models self) as [|m ms IH]; intros ps H;
      cbn [Combiner.predict_each] in H.
    - injection H as <-. reflexivity.
    - destruct (Combiner.predict _ _ _ _ _ _ m given) as [p|]; [|discriminate].
      destruct (predict_each ms given) as [ps'|]; [|discriminate].
      injection H as <-. cbn [length]. f_equal. now apply IH. }
  split; [now apply Hk|]. split; [|auto].
  intros d. fold directions. fold (count d).
  fold (count (Combiner.max_from count_of d0 ds)).
  rewrite <- (Hc (Combiner.max_from count_of d0 ds)) by now apply Hk.
  destruct (in_dec string_dec d directions) as [Hd|Hd].
  - rewrite <- (Hc d Hd). apply Hmax. now apply Hk.
  - unfold count at 1. rewrite (proj1 (count_occ_not_In string_dec _ _) Hd).
    apply Nat.le_0_l.
Qed.

End EnsembleProperties.

Lemma ensemble_never_predicts_witness :
  nodup string_dec [] = []
  /\ Combiner.ensemble_predict (fun x => x) CombinerCases.identity_scaler
       CombinerCases.confident CombinerCases.flat_importances
       (fun x => x) (fun x => x) (nodup string_dec)
       (snd (fst (Combiner.fit tt (fun x => x) CombinerCases.first_only
                    CombinerCases.no_training
                    (Combiner.EnsembleCombiner__init__ unit unit
                       ["rsi"%string] 0)
                    [] Sample.halves))) []
     = Combiner.Raises (Combiner.Exn ValueError).
Proof.
  split; [reflexivity|].
  apply (@ensemble_never_predicts unit unit tt (fun x => x)
           CombinerCases.identity_scaler CombinerCases.confident
           CombinerCases.flat_importances (fun x => x) (fun x => x)
           CombinerCases.first_only CombinerCases.no_training
           (nodup string_dec)
           (Combiner.EnsembleCombiner__init__ unit unit ["rsi"%string] 0)
           [] Sample.halves [] eq_refl).
Defined.

Lemma ensemble_vote_is_a_plurality_witness :
  exists out,
    Combiner.ensemble_predict (fun x => x) CombinerCases.identity_scaler
      CombinerCases.answers CombinerCases.no_importances
      (fun x => x) (fun x => x) (nodup string_dec)
      CombinerCases.split_vote []
    = Combiner.Returns out
    /\ Combiner.out_direction out = "NEUTRAL"%string
    /\ 0 < Combiner.out_strength out
    /\ exists predictions,
         In (Combiner.out_direction out)
            (map Combiner.out_direction predictions)
         /\ length predictions = 3%nat.
Proof.
  eexists. split; [vm_compute; reflexivity|].
  split; [reflexivity|]. split; [reflexivity|].
  destruct (@ensemble_vote_is_a_plurality Q unit (fun x => x)
              CombinerCases.identity_scaler CombinerCases.answers
              CombinerCases.no_importances (fun x => x) (fun x => x)
              (nodup string_dec) CombinerCases.split_vote [] _
              (fun l d => nodup_In string_dec l d) eq_refl)
    as (predictions & _ & Hlen & Hin & _).
  exists predictions. split; [exact Hin | exact Hlen].
Defined.
